(** * Oblivion Python SDK: the agent client's protocol engine

    A shallow embedding of [packages/sdk-python/src/oblivion/models.py] and
    [packages/sdk-python/src/oblivion/client.py], and the properties of the
    dispatcher, the pending-request registry and the connection manager
    that follow from that code.

    Conventions of the embedding.
    - A coroutine of the client is a computation in the monad [M]: it reads
      and updates the fields of the client object, appends to an ordered
      list of observable effects (log records, frames handed to the
      transport, handler invocations, ...) and either returns or raises.
      Mutations done before a [raise] persist, as in Python.
    - What the outside world answers (the HTTP response of the auth
      endpoint, the outcome of the WebSocket handshake, the clock reading,
      the uuid drawn for a request) is an explicit argument.
    - [asyncio.Future] objects live in a store indexed by address, because
      the pending-request dict and the awaiting coroutine hold the same
      object. *)

From Stdlib Require Import ZArith.
From stdpp Require Import gmap strings list fin_maps.

Set Warnings "-register-all".

(** * JSON-like values ([dict[str, Any]], [Any]) *)

(** [JFloat m e] stands for the float [m * 2^e]; floats are only carried
    around, never computed with. *)
Inductive json : Type :=
  | JNull
  | JBool (b : bool)
  | JInt (z : Z)
  | JFloat (m e : Z)
  | JStr (s : string)
  | JArr (items : list json)
  | JObj (fields : list (string * json)).

Definition json_of_option_str (o : option string) : json :=
  match o with Some s => JStr s | None => JNull end.

(** [d.get(key)] on a dict written as an association list (keys are not
    repeated in a decoded JSON object). *)
Fixpoint obj_get (key : string) (fields : list (string * json)) : option json :=
  match fields with
  | [] => None
  | (k, v) :: rest => if String.eqb k key then Some v else obj_get key rest
  end.

(** * models.py *)

Module Models.

Inductive EventType : Type :=
  | TASK_ASSIGNED | CONTEXT_UPDATE | WAKE_UP | TOOL_RESULT
  | HEARTBEAT
  | AGENT_READY | TOOL_REQUEST | STATUS_UPDATE.

Definition EventType_value (t : EventType) : string :=
  match t with
  | TASK_ASSIGNED => "task_assigned"
  | CONTEXT_UPDATE => "context_update"
  | WAKE_UP => "wake_up"
  | TOOL_RESULT => "tool_result"
  | HEARTBEAT => "heartbeat"
  | AGENT_READY => "agent_ready"
  | TOOL_REQUEST => "tool_request"
  | STATUS_UPDATE => "status_update"
  end.

Definition all_EventType : list EventType :=
  [TASK_ASSIGNED; CONTEXT_UPDATE; WAKE_UP; TOOL_RESULT; HEARTBEAT;
   AGENT_READY; TOOL_REQUEST; STATUS_UPDATE].

(** [EventType(value)]: look a member up by its value. *)
Definition EventType_of_value (s : string) : option EventType :=
  List.find (fun t => String.eqb (EventType_value t) s) all_EventType.

Inductive AgentStatus : Type := IDLE | WORKING | ERROR.

Definition AgentStatus_value (s : AgentStatus) : string :=
  match s with IDLE => "idle" | WORKING => "working" | ERROR => "error" end.

Definition all_AgentStatus : list AgentStatus := [IDLE; WORKING; ERROR].

(** [AgentStatus(value)]: [None] is the [ValueError] of the enum lookup. *)
Definition AgentStatus_of_value (s : string) : option AgentStatus :=
  List.find (fun t => String.eqb (AgentStatus_value t) s) all_AgentStatus.

Inductive WakeUpReason : Type := SCHEDULED | MANUAL | RETRY.

Definition WakeUpReason_value (r : WakeUpReason) : string :=
  match r with SCHEDULED => "scheduled" | MANUAL => "manual" | RETRY => "retry" end.

Definition all_WakeUpReason : list WakeUpReason := [SCHEDULED; MANUAL; RETRY].

Definition WakeUpReason_of_value (s : string) : option WakeUpReason :=
  List.find (fun t => String.eqb (WakeUpReason_value t) s) all_WakeUpReason.

Record TaskAssignedPayload : Type := {
  ta_task_id : string;
  ta_project_mapping_id : string;
  ta_clickup_task_id : string;
  ta_slack_channel_id : string;
  ta_slack_thread_ts : string;
  ta_title : string;
  ta_description : option string;
  ta_assigned_at : string
}.

Record ContextUpdatePayload : Type := {
  cu_task_id : string;
  cu_slack_channel_id : string;
  cu_slack_thread_ts : string;
  cu_message_ts : string;
  cu_author : string;
  cu_content : string;
  cu_is_human : bool
}.

Record WakeUpPayload : Type := {
  wu_reason : WakeUpReason;
  wu_task_id : option string;
  wu_metadata : option (list (string * json))
}.

Record ToolRequestPayload : Type := {
  tq_request_id : string;
  tq_tool : string;
  tq_action : string;
  tq_params : list (string * json)
}.

Record ToolResultPayload : Type := {
  request_id : string;
  success : bool;
  result : option json;
  error : option string
}.

Record HeartbeatPayload : Type := {
  hb_ping : option bool;
  hb_pong : option bool;
  hb_server_time : string
}.

Record AgentReadyPayload : Type := {
  ar_capabilities : option (list string);
  ar_version : option string
}.

Record StatusUpdatePayload : Type := {
  su_status : AgentStatus;
  su_task_id : option string;
  su_message : option string
}.

Record BaseEvent : Type := {
  type : EventType;
  payload : list (string * json);
  timestamp : string
}.

Record ConnectedResponse : Type := {
  cr_message : string;
  cr_agent_id : string;
  cr_server_time : string
}.

(** ** [model_dump(by_alias=True)] of the models the client sends *)

Definition AgentReadyPayload_model_dump (p : AgentReadyPayload) : list (string * json) :=
  [("capabilities",
     match ar_capabilities p with
     | Some l => JArr (List.map JStr l)
     | None => JNull
     end);
   ("version", json_of_option_str (ar_version p))].

Definition ToolRequestPayload_model_dump (p : ToolRequestPayload) : list (string * json) :=
  [("requestId", JStr (tq_request_id p));
   ("tool", JStr (tq_tool p));
   ("action", JStr (tq_action p));
   ("params", JObj (tq_params p))].

Definition StatusUpdatePayload_model_dump (p : StatusUpdatePayload) : list (string * json) :=
  [("status", JStr (AgentStatus_value (su_status p)));
   ("taskId", json_of_option_str (su_task_id p));
   ("message", json_of_option_str (su_message p))].

Definition BaseEvent_model_dump (e : BaseEvent) : json :=
  JObj [("type", JStr (EventType_value (type e)));
        ("payload", JObj (payload e));
        ("timestamp", JStr (timestamp e))].

(** [BaseEvent.create(event_type, payload)], on the payload already turned
    into a dict; [utcnow] is [datetime.utcnow().isoformat()] as read at the
    call. *)
Definition BaseEvent_create (utcnow : string) (event_type : EventType)
    (payload_dict : list (string * json)) : BaseEvent :=
  {| type := event_type; payload := payload_dict; timestamp := utcnow +:+ "Z" |}.

(** ** Validation

    [Model.model_validate] is pydantic's; the client only depends on whether
    it accepts a value and on the model instance it then returns, so the
    validators are an interface. [None] stands for pydantic's
    [ValidationError]. *)
Class Pydantic : Type := {
  BaseEvent_model_validate : json -> option BaseEvent;
  TaskAssignedPayload_model_validate : list (string * json) -> option TaskAssignedPayload;
  ContextUpdatePayload_model_validate : list (string * json) -> option ContextUpdatePayload;
  WakeUpPayload_model_validate : list (string * json) -> option WakeUpPayload;
  ToolResultPayload_model_validate : list (string * json) -> option ToolResultPayload;
  HeartbeatPayload_model_validate : list (string * json) -> option HeartbeatPayload;
  ConnectedResponse_model_validate : json -> option ConnectedResponse
}.

End Models.

Export Models.

(** * Exceptions *)

(** The exceptions that occur in the client, with what the code reads from
    them. [OtherException] is any other class deriving from [Exception] (what
    a user handler may raise); [OtherBaseException] is a class deriving from
    [BaseException] only: [SystemExit], [KeyboardInterrupt],
    [asyncio.CancelledError]. *)
Inductive exn : Type :=
  | ValidationError (model : string)
  | ValueError (arg : string)
  | KeyError (key : string)
  | HTTPStatusError (status_code : nat)
  | HTTPTransportError
  | SioConnectionError (msg : string)
  | InvalidStateError
  | OtherException (cls msg : string)
  | OtherBaseException (cls : string).

(** [isinstance(e, Exception)]: what [except Exception] catches. *)
Definition is_Exception (e : exn) : bool :=
  match e with
  | OtherBaseException _ => false
  | _ => true
  end.

(** [isinstance(e, httpx.HTTPStatusError)]. *)
Definition is_HTTPStatusError (e : exn) : bool :=
  match e with
  | HTTPStatusError _ => true
  | _ => false
  end.

Inductive outcome (A : Type) : Type :=
  | Return (a : A)
  | Raise (e : exn).
Arguments Return {A} a.
Arguments Raise {A} e.

(** * Observable effects, in the order they happen *)

Inductive log_level : Type := LvDebug | LvInfo | LvWarning | LvError.

(** A keyword argument of a log call: a value, or [str(e)] of an exception. *)
Inductive log_value : Type :=
  | LJson (j : json)
  | LStrOf (e : exn).

(** The argument a registered handler is called with. *)
Inductive handler_arg : Type :=
  | ArgTask (p : TaskAssignedPayload)
  | ArgContext (p : ContextUpdatePayload)
  | ArgWakeUp (p : WakeUpPayload)
  | ArgToolResult (p : ToolResultPayload).

Inductive effect : Type :=
  | Logged (level : log_level) (msg : string) (fields : list (string * log_value))
  (** [self._sio.emit(event, data, namespace="/agents")] *)
  | Emitted (event : string) (data : json)
  (** [await handler(payload)] on the handler at [index] of the list for [kind] *)
  | Called (kind : EventType) (index : nat) (arg : handler_arg)
  (** [future.set_result(payload)] went through *)
  | SetResult (fut : nat) (p : ToolResultPayload)
  (** [asyncio.wait_for] cancelled the future it was waiting on *)
  | CancelledFuture (fut : nat)
  (** [http.post(url, json=body)] *)
  | HttpPost (url : string) (body : json)
  (** [self._sio.connect(url, auth={"token": token}, ...)] *)
  | SioConnect (url : string) (token : option json)
  | SioDisconnect
  (** [asyncio.sleep(delay)] *)
  | Slept (delay : json)
  (** an exception left a Socket.IO event handler *)
  | TaskException (e : exn).

(** * The client object *)

(** A registered handler, seen from the dispatcher: called on a payload, it
    returns ([None]) or raises. What a handler does besides (a handler is a
    coroutine of the agent: it may call the client, sleep, suspend) is the
    agent's and is not part of this model; the properties below that speak
    of handlers speak of their being called and of what they raise. *)
Definition handler (P : Type) : Type := P -> option exn.

(** State of an [asyncio.Future[ToolResultPayload]]. *)
Inductive Future : Type :=
  | FPending
  | FResult (p : ToolResultPayload)
  | FCancelled.

Record OblivionClient : Type := {
  nexus_url : string;
  client_id : string;
  client_secret : string;
  capabilities : list string;
  version : string;
  auto_reconnect : bool;
  reconnect_delay : json;
  _token : option json;
  _agent_id : option string;
  _connected : bool;
  _should_run : bool;
  (** [self._sio.connected] *)
  sio_connected : bool;
  _task_handlers : list (handler TaskAssignedPayload);
  _context_handlers : list (handler ContextUpdatePayload);
  _wakeup_handlers : list (handler WakeUpPayload);
  _tool_result_handlers : list (handler ToolResultPayload);
  (** request id |-> address of its future *)
  _pending_tools : gmap string nat;
  (** the futures created by [create_future()], by address *)
  futures : list Future
}.

(** Field assignments [self.f = v]. *)
Definition set_token (v : option json) (c : OblivionClient) : OblivionClient :=
  {| nexus_url := nexus_url c;
     client_id := client_id c;
     client_secret := client_secret c;
     capabilities := capabilities c;
     version := version c;
     auto_reconnect := auto_reconnect c;
     reconnect_delay := reconnect_delay c;
     _token := v;
     _agent_id := _agent_id c;
     _connected := _connected c;
     _should_run := _should_run c;
     sio_connected := sio_connected c;
     _task_handlers := _task_handlers c;
     _context_handlers := _context_handlers c;
     _wakeup_handlers := _wakeup_handlers c;
     _tool_result_handlers := _tool_result_handlers c;
     _pending_tools := _pending_tools c;
     futures := futures c |}.

Definition set_agent_id (v : option string) (c : OblivionClient) : OblivionClient :=
  {| nexus_url := nexus_url c;
     client_id := client_id c;
     client_secret := client_secret c;
     capabilities := capabilities c;
     version := version c;
     auto_reconnect := auto_reconnect c;
     reconnect_delay := reconnect_delay c;
     _token := _token c;
     _agent_id := v;
     _connected := _connected c;
     _should_run := _should_run c;
     sio_connected := sio_connected c;
     _task_handlers := _task_handlers c;
     _context_handlers := _context_handlers c;
     _wakeup_handlers := _wakeup_handlers c;
     _tool_result_handlers := _tool_result_handlers c;
     _pending_tools := _pending_tools c;
     futures := futures c |}.

Definition set_connected (v : bool) (c : OblivionClient) : OblivionClient :=
  {| nexus_url := nexus_url c;
     client_id := client_id c;
     client_secret := client_secret c;
     capabilities := capabilities c;
     version := version c;
     auto_reconnect := auto_reconnect c;
     reconnect_delay := reconnect_delay c;
     _token := _token c;
     _agent_id := _agent_id c;
     _connected := v;
     _should_run := _should_run c;
     sio_connected := sio_connected c;
     _task_handlers := _task_handlers c;
     _context_handlers := _context_handlers c;
     _wakeup_handlers := _wakeup_handlers c;
     _tool_result_handlers := _tool_result_handlers c;
     _pending_tools := _pending_tools c;
     futures := futures c |}.

Definition set_should_run (v : bool) (c : OblivionClient) : OblivionClient :=
  {| nexus_url := nexus_url c;
     client_id := client_id c;
     client_secret := client_secret c;
     capabilities := capabilities c;
     version := version c;
     auto_reconnect := auto_reconnect c;
     reconnect_delay := reconnect_delay c;
     _token := _token c;
     _agent_id := _agent_id c;
     _connected := _connected c;
     _should_run := v;
     sio_connected := sio_connected c;
     _task_handlers := _task_handlers c;
     _context_handlers := _context_handlers c;
     _wakeup_handlers := _wakeup_handlers c;
     _tool_result_handlers := _tool_result_handlers c;
     _pending_tools := _pending_tools c;
     futures := futures c |}.

Definition set_sio_connected (v : bool) (c : OblivionClient) : OblivionClient :=
  {| nexus_url := nexus_url c;
     client_id := client_id c;
     client_secret := client_secret c;
     capabilities := capabilities c;
     version := version c;
     auto_reconnect := auto_reconnect c;
     reconnect_delay := reconnect_delay c;
     _token := _token c;
     _agent_id := _agent_id c;
     _connected := _connected c;
     _should_run := _should_run c;
     sio_connected := v;
     _task_handlers := _task_handlers c;
     _context_handlers := _context_handlers c;
     _wakeup_handlers := _wakeup_handlers c;
     _tool_result_handlers := _tool_result_handlers c;
     _pending_tools := _pending_tools c;
     futures := futures c |}.

Definition set_task_handlers (v : list (handler TaskAssignedPayload)) (c : OblivionClient) : OblivionClient :=
  {| nexus_url := nexus_url c;
     client_id := client_id c;
     client_secret := client_secret c;
     capabilities := capabilities c;
     version := version c;
     auto_reconnect := auto_reconnect c;
     reconnect_delay := reconnect_delay c;
     _token := _token c;
     _agent_id := _agent_id c;
     _connected := _connected c;
     _should_run := _should_run c;
     sio_connected := sio_connected c;
     _task_handlers := v;
     _context_handlers := _context_handlers c;
     _wakeup_handlers := _wakeup_handlers c;
     _tool_result_handlers := _tool_result_handlers c;
     _pending_tools := _pending_tools c;
     futures := futures c |}.

Definition set_context_handlers (v : list (handler ContextUpdatePayload)) (c : OblivionClient) : OblivionClient :=
  {| nexus_url := nexus_url c;
     client_id := client_id c;
     client_secret := client_secret c;
     capabilities := capabilities c;
     version := version c;
     auto_reconnect := auto_reconnect c;
     reconnect_delay := reconnect_delay c;
     _token := _token c;
     _agent_id := _agent_id c;
     _connected := _connected c;
     _should_run := _should_run c;
     sio_connected := sio_connected c;
     _task_handlers := _task_handlers c;
     _context_handlers := v;
     _wakeup_handlers := _wakeup_handlers c;
     _tool_result_handlers := _tool_result_handlers c;
     _pending_tools := _pending_tools c;
     futures := futures c |}.

Definition set_wakeup_handlers (v : list (handler WakeUpPayload)) (c : OblivionClient) : OblivionClient :=
  {| nexus_url := nexus_url c;
     client_id := client_id c;
     client_secret := client_secret c;
     capabilities := capabilities c;
     version := version c;
     auto_reconnect := auto_reconnect c;
     reconnect_delay := reconnect_delay c;
     _token := _token c;
     _agent_id := _agent_id c;
     _connected := _connected c;
     _should_run := _should_run c;
     sio_connected := sio_connected c;
     _task_handlers := _task_handlers c;
     _context_handlers := _context_handlers c;
     _wakeup_handlers := v;
     _tool_result_handlers := _tool_result_handlers c;
     _pending_tools := _pending_tools c;
     futures := futures c |}.

Definition set_tool_result_handlers (v : list (handler ToolResultPayload)) (c : OblivionClient) : OblivionClient :=
  {| nexus_url := nexus_url c;
     client_id := client_id c;
     client_secret := client_secret c;
     capabilities := capabilities c;
     version := version c;
     auto_reconnect := auto_reconnect c;
     reconnect_delay := reconnect_delay c;
     _token := _token c;
     _agent_id := _agent_id c;
     _connected := _connected c;
     _should_run := _should_run c;
     sio_connected := sio_connected c;
     _task_handlers := _task_handlers c;
     _context_handlers := _context_handlers c;
     _wakeup_handlers := _wakeup_handlers c;
     _tool_result_handlers := v;
     _pending_tools := _pending_tools c;
     futures := futures c |}.

Definition set_pending_tools (v : gmap string nat) (c : OblivionClient) : OblivionClient :=
  {| nexus_url := nexus_url c;
     client_id := client_id c;
     client_secret := client_secret c;
     capabilities := capabilities c;
     version := version c;
     auto_reconnect := auto_reconnect c;
     reconnect_delay := reconnect_delay c;
     _token := _token c;
     _agent_id := _agent_id c;
     _connected := _connected c;
     _should_run := _should_run c;
     sio_connected := sio_connected c;
     _task_handlers := _task_handlers c;
     _context_handlers := _context_handlers c;
     _wakeup_handlers := _wakeup_handlers c;
     _tool_result_handlers := _tool_result_handlers c;
     _pending_tools := v;
     futures := futures c |}.

Definition set_futures (v : list Future) (c : OblivionClient) : OblivionClient :=
  {| nexus_url := nexus_url c;
     client_id := client_id c;
     client_secret := client_secret c;
     capabilities := capabilities c;
     version := version c;
     auto_reconnect := auto_reconnect c;
     reconnect_delay := reconnect_delay c;
     _token := _token c;
     _agent_id := _agent_id c;
     _connected := _connected c;
     _should_run := _should_run c;
     sio_connected := sio_connected c;
     _task_handlers := _task_handlers c;
     _context_handlers := _context_handlers c;
     _wakeup_handlers := _wakeup_handlers c;
     _tool_result_handlers := _tool_result_handlers c;
     _pending_tools := _pending_tools c;
     futures := v |}.

(** * The monad of client coroutines *)

Definition M (A : Type) : Type :=
  OblivionClient -> outcome A * OblivionClient * list effect.

Definition ret {A} (a : A) : M A := fun c => (Return a, c, []).

Definition bind {A B} (m : M A) (k : A -> M B) : M B := fun c =>
  match m c with
  | (Return a, c1, t1) => let '(r, c2, t2) := k a c1 in (r, c2, t1 ++ t2)
  | (Raise e, c1, t1) => (Raise e, c1, t1)
  end.

Definition raise {A} (e : exn) : M A := fun c => (Raise e, c, []).

(** Read a field, assign a field, perform an observable action. *)
Definition get {A} (f : OblivionClient -> A) : M A := fun c => (Return (f c), c, []).
Definition assign (f : OblivionClient -> OblivionClient) : M unit :=
  fun c => (Return tt, f c, []).
Definition act (a : effect) : M unit := fun c => (Return tt, c, [a]).

(** [try: m  except <class> as e: h e]; an exception of another class goes
    through. *)
Definition try_except {A} (m : M A) (catches : exn -> bool) (h : exn -> M A) : M A :=
  fun c =>
    match m c with
    | (Raise e, c1, t1) =>
        if catches e then let '(r, c2, t2) := h e c1 in (r, c2, t1 ++ t2)
        else (Raise e, c1, t1)
    | ok => ok
    end.

#[global] Instance M_ret : MRet M := @ret.
#[global] Instance M_bind : MBind M := fun A B k m => bind m k.

(** The three components of a run: how it ended, the client it left, and
    its effects in order. *)
Definition outcome_of {A} (r : outcome A * OblivionClient * list effect) : outcome A := r.1.1.
Definition state_of {A} (r : outcome A * OblivionClient * list effect) : OblivionClient := r.1.2.
Definition effects_of {A} (r : outcome A * OblivionClient * list effect) : list effect := r.2.

Definition log (level : log_level) (msg : string) (fields : list (string * log_value)) : M unit :=
  act (Logged level msg fields).

(** [Model.model_validate(v)], given pydantic's verdict. *)
Definition validated {A} (model : string) (verdict : option A) : M A :=
  match verdict with
  | Some a => ret a
  | None => raise (ValidationError model)
  end.

(** ** Strings *)

(** [s.replace(old, new)] for a non-empty [old]: occurrences are replaced
    left to right and do not overlap; [skip] counts the characters of a
    replaced occurrence still to pass. *)
Fixpoint replace_from (old new : string) (skip : nat) (s : string) : string :=
  match s with
  | EmptyString => EmptyString
  | String ch rest =>
      match skip with
      | S k => replace_from old new k rest
      | O =>
          if String.prefix old s
          then new +:+ replace_from old new (String.length old - 1) rest
          else String ch (replace_from old new 0 rest)
      end
  end.

Definition replace (old new s : string) : string := replace_from old new 0 s.

(** The character ['/']. *)
Definition slash : Ascii.ascii := Ascii.ascii_of_nat 47.

(** [s.rstrip("/")] *)
Fixpoint rstrip_slash (s : string) : string :=
  match s with
  | EmptyString => EmptyString
  | String ch rest =>
      match rstrip_slash rest with
      | EmptyString => if Ascii.eqb ch slash then EmptyString else String ch EmptyString
      | r => String ch r
      end
  end.

(** ** Futures *)

(** [asyncio.get_event_loop().create_future()] *)
Definition create_future : M nat := fun c =>
  (Return (length (futures c)), set_futures (futures c ++ [FPending]) c, []).

(** [future.set_result(p)]: asyncio raises [InvalidStateError] when the future
    is already done, that is when it has a result or was cancelled. (An
    address outside the store is never handed out; the last case is
    unreachable.) *)
Definition future_set_result (fut : nat) (p : ToolResultPayload) : M unit :=
  fs ← get futures;
  match fs !! fut with
  | Some FPending => assign (set_futures (<[fut := FResult p]> fs));; act (SetResult fut p)
  | Some (FResult _) | Some FCancelled => raise InvalidStateError
  | None => raise InvalidStateError
  end.

(** ** The Socket.IO client [self._sio] *)

(** [self._sio.emit(event, data, namespace="/agents")] on a namespace that
    is connected: the frame is handed to the transport. (On a namespace that
    is not connected python-socketio raises [BadNamespaceError]; the event
    handlers run on a connected namespace, and the properties of the
    caller's actions that send a frame assume [sio_connected].) *)
Definition sio_emit (event : string) (data : json) : M unit := act (Emitted event data).

(** [self._sio.connect(url, namespaces=["/agents"], auth={"token": token},
    transports=["websocket"], socketio_path="/socket.io", wait_timeout=10)].
    [handshake_ok] is whether the server accepts the handshake; python-socketio
    refuses to connect a client that is connected. *)
Definition sio_connect (url : string) (token : option json) (handshake_ok : bool) : M unit :=
  act (SioConnect url token);;
  already ← get sio_connected;
  if already : bool then raise (SioConnectionError "Already connected")
  else if handshake_ok then assign (set_sio_connected true)
  else raise (SioConnectionError "Connection error").

(** * client.py *)

(** What the auth endpoint answers to [http.post]: a response with its status
    code and its body as [response.json()] decodes it ([None]: the body is not
    JSON), or no response at all. *)
Inductive http_result : Type :=
  | HttpResponse (status_code : nat) (body : option json)
  | HttpNoResponse.

(** httpx's [response.is_success], the test of [raise_for_status()]. *)
Definition is_success (status_code : nat) : bool :=
  (200 <=? status_code) && (status_code <=? 299).

(** [await handler(payload)]: the action of calling, then the handler's
    outcome. *)
Definition await_handler {P} (kind : EventType) (arg : P -> handler_arg)
    (index : nat) (h : handler P) (p : P) : M unit :=
  act (Called kind index (arg p));;
  match h p with
  | None => ret tt
  | Some e => raise e
  end.

(** The loop shared by the four dispatching handlers:
[[
    for handler in self._xxx_handlers:
        try:
            await handler(payload)
        except Exception as e:
            self._log.error("<errmsg>", error=str(e))
]]
    [index] is the position of the head of [hs] in the registered list. *)
Fixpoint for_each_handler {P} (kind : EventType) (arg : P -> handler_arg)
    (errmsg : string) (index : nat) (hs : list (handler P)) (p : P) : M unit :=
  match hs with
  | [] => ret tt
  | h :: rest =>
      try_except (await_handler kind arg index h p) is_Exception
        (fun e => log LvError errmsg [("error", LStrOf e)]);;
      for_each_handler kind arg errmsg (S index) rest p
  end.

Section Client.

Context `{PV : Pydantic}.

(** ** [_send_agent_ready] *)
Definition _send_agent_ready (utcnow : string) : M unit :=
  caps ← get capabilities;
  ver ← get version;
  let p := {| ar_capabilities := Some caps; ar_version := Some ver |} in
  let event := BaseEvent_create utcnow AGENT_READY (AgentReadyPayload_model_dump p) in
  sio_emit (EventType_value AGENT_READY) (BaseEvent_model_dump event).

(** ** The Socket.IO event handlers registered by [_setup_handlers] *)

Definition sio_on_connected (utcnow : string) (data : json) : M unit :=
  response ← validated "ConnectedResponse" (ConnectedResponse_model_validate data);
  assign (set_agent_id (Some (cr_agent_id response)));;
  assign (set_connected true);;
  log LvInfo "Connected to Nexus" [("agent_id", LJson (JStr (cr_agent_id response)))];;
  _send_agent_ready utcnow.

Definition sio_on_task_assigned (data : json) : M unit :=
  event ← validated "BaseEvent" (BaseEvent_model_validate data);
  p ← validated "TaskAssignedPayload" (TaskAssignedPayload_model_validate (payload event));
  log LvInfo "Task assigned"
    [("task_id", LJson (JStr (ta_task_id p))); ("title", LJson (JStr (ta_title p)))];;
  hs ← get _task_handlers;
  for_each_handler TASK_ASSIGNED ArgTask "Task handler error" 0 hs p.

Definition sio_on_context_update (data : json) : M unit :=
  event ← validated "BaseEvent" (BaseEvent_model_validate data);
  p ← validated "ContextUpdatePayload" (ContextUpdatePayload_model_validate (payload event));
  log LvDebug "Context update"
    [("task_id", LJson (JStr (cu_task_id p)));
     ("author", LJson (JStr (cu_author p)));
     ("is_human", LJson (JBool (cu_is_human p)))];;
  hs ← get _context_handlers;
  for_each_handler CONTEXT_UPDATE ArgContext "Context handler error" 0 hs p.

Definition sio_on_wake_up (data : json) : M unit :=
  event ← validated "BaseEvent" (BaseEvent_model_validate data);
  p ← validated "WakeUpPayload" (WakeUpPayload_model_validate (payload event));
  log LvInfo "Wake up signal"
    [("reason", LJson (JStr (WakeUpReason_value (wu_reason p))));
     ("task_id", LJson (json_of_option_str (wu_task_id p)))];;
  hs ← get _wakeup_handlers;
  for_each_handler WAKE_UP ArgWakeUp "Wake-up handler error" 0 hs p.

Definition sio_on_tool_result (data : json) : M unit :=
  event ← validated "BaseEvent" (BaseEvent_model_validate data);
  p ← validated "ToolResultPayload" (ToolResultPayload_model_validate (payload event));
  log LvDebug "Tool result"
    [("request_id", LJson (JStr (request_id p))); ("success", LJson (JBool (success p)))];;
  (* Resolve pending future *)
  pending ← get _pending_tools;
  match pending !! request_id p with
  | Some future =>
      assign (set_pending_tools (delete (request_id p) pending));;
      future_set_result future p
  | None => ret tt
  end;;
  hs ← get _tool_result_handlers;
  for_each_handler TOOL_RESULT ArgToolResult "Tool result handler error" 0 hs p.

Definition heartbeat_payload : list (string * json) :=
  [("ping", JBool true); ("serverTime", JStr "")].

Definition sio_on_heartbeat (utcnow : string) (data : json) : M unit :=
  (* Server sends heartbeat, we respond *)
  sio_emit (EventType_value HEARTBEAT)
    (BaseEvent_model_dump (BaseEvent_create utcnow HEARTBEAT heartbeat_payload)).

(** ** Event handler decorators *)

Definition on_task_assigned (h : handler TaskAssignedPayload) : M unit :=
  hs ← get _task_handlers; assign (set_task_handlers (hs ++ [h])).

Definition on_context_update (h : handler ContextUpdatePayload) : M unit :=
  hs ← get _context_handlers; assign (set_context_handlers (hs ++ [h])).

Definition on_wake_up (h : handler WakeUpPayload) : M unit :=
  hs ← get _wakeup_handlers; assign (set_wakeup_handlers (hs ++ [h])).

Definition on_tool_result (h : handler ToolResultPayload) : M unit :=
  hs ← get _tool_result_handlers; assign (set_tool_result_handlers (hs ++ [h])).

(** ** Connection management *)

(** [response.json()] then [data["accessToken"]]. *)
Definition access_token (body : option json) : M json :=
  match body with
  | Some (JObj fields) =>
      match obj_get "accessToken" fields with
      | Some tok => ret tok
      | None => raise (KeyError "accessToken")
      end
  | Some _ => raise (OtherException "TypeError" "")
  | None => raise (OtherException "JSONDecodeError" "")
  end.

Definition _authenticate (answer : http_result) : M json :=
  url ← get nexus_url;
  cid ← get client_id;
  secret ← get client_secret;
  act (HttpPost (url +:+ "/auth/token")
         (JObj [("clientId", JStr cid); ("clientSecret", JStr secret)]));;
  match answer with
  | HttpNoResponse => raise HTTPTransportError
  | HttpResponse status_code body =>
      (* response.raise_for_status() *)
      if is_success status_code then access_token body
      else raise (HTTPStatusError status_code)
  end.

Definition status_code_of (e : exn) : json :=
  match e with
  | HTTPStatusError status_code => JInt (Z.of_nat status_code)
  | _ => JNull
  end.

Definition connect (answer : http_result) (handshake_ok : bool) : M unit :=
  assign (set_should_run true);;
  log LvInfo "Authenticating with Nexus" [];;
  try_except
    (tok ← _authenticate answer;
     assign (set_token (Some tok));;
     log LvInfo "Authentication successful" [])
    is_HTTPStatusError
    (fun e =>
       log LvError "Authentication failed" [("status", LJson (status_code_of e))];;
       raise e);;
  (* Connect to WebSocket *)
  url ← get nexus_url;
  let ws_url := replace "https://" "wss://" (replace "http://" "ws://" url) in
  tok ← get _token;
  sio_connect ws_url tok handshake_ok.

(** ** Frames from the server

    python-socketio runs the handler of each inbound event in a task of its
    own: an [Exception] that leaves the handler ends that task and nothing
    else, the read loop and the connection go on. [isolated] is that
    boundary; the escaped exception is kept as a [TaskException] effect.
    (asyncio lets [SystemExit] and [KeyboardInterrupt] go further, out of the
    event loop; the model records them at the same place and says nothing of
    what follows them.) *)
Definition isolated (m : M unit) : M unit := fun c =>
  match m c with
  | (Raise e, c1, t1) => (Return tt, c1, t1 ++ [TaskException e])
  | ok => ok
  end.

Record frame : Type := {
  f_utcnow : string;  (* the clock when the frame is handled *)
  f_event : string;   (* the Socket.IO event name *)
  f_data : json
}.

(** The handler registered for the name of an inbound event in namespace
    [/agents]; an event without handler is ignored. (The seventh handler
    of [_setup_handlers], registered under ["disconnect"], takes no data and
    is called by python-socketio when the transport goes: see
    [sio_disconnect] and [transport_lost].) *)
Definition sio_handler (f : frame) : M unit :=
  if String.eqb (f_event f) "connected" then sio_on_connected (f_utcnow f) (f_data f)
  else if String.eqb (f_event f) (EventType_value TASK_ASSIGNED) then sio_on_task_assigned (f_data f)
  else if String.eqb (f_event f) (EventType_value CONTEXT_UPDATE) then sio_on_context_update (f_data f)
  else if String.eqb (f_event f) (EventType_value WAKE_UP) then sio_on_wake_up (f_data f)
  else if String.eqb (f_event f) (EventType_value TOOL_RESULT) then sio_on_tool_result (f_data f)
  else if String.eqb (f_event f) (EventType_value HEARTBEAT) then sio_on_heartbeat (f_utcnow f) (f_data f)
  else ret tt.

Definition deliver (f : frame) : M unit := isolated (sio_handler f).

(** Frames are handled one after the other, in arrival order. *)
Fixpoint deliver_all (fs : list frame) : M unit :=
  match fs with
  | [] => ret tt
  | f :: rest => deliver f;; deliver_all rest
  end.

(** ** [_reconnect] and the [disconnect] event *)

(** One round of the reconnect loop, as the outside world plays it: the
    answer of the auth endpoint, the outcome of the handshake, and the frames
    handled before the loop tests its condition again. *)
Record attempt : Type := {
  at_answer : http_result;
  at_handshake_ok : bool;
  at_inbox : list frame
}.

(** The loop runs as long as the script of attempts lasts. (Nothing else
    runs during the sleep of a round: the frames of a round are handled after
    its [connect].) *)
Fixpoint _reconnect (script : list attempt) : M unit := fun c =>
  if _should_run c && negb (_connected c) then
    match script with
    | [] => (Return tt, c, [])
    | a :: rest =>
        (log LvInfo "Attempting reconnection" [("delay", LJson (reconnect_delay c))];;
         act (Slept (reconnect_delay c));;
         try_except (connect (at_answer a) (at_handshake_ok a)) is_Exception
           (fun e => log LvError "Reconnection failed" [("error", LStrOf e)]);;
         deliver_all (at_inbox a);;
         _reconnect rest) c
    end
  else (Return tt, c, []).

Definition sio_on_disconnect (script : list attempt) : M unit :=
  assign (set_connected false);;
  log LvWarning "Disconnected from Nexus" [];;
  auto ← get auto_reconnect;
  running ← get _should_run;
  if auto && running then _reconnect script else ret tt.

(** [self._sio.disconnect()]: closes the transport and fires the
    [disconnect] event. python-socketio awaits the handlers of the event
    and only then resets its [connected] attribute. Called from
    [disconnect()] only, after [_should_run] was cleared, so the handler
    does not enter the reconnect loop and needs no script. *)
Definition sio_disconnect : M unit :=
  act SioDisconnect;;
  isolated (sio_on_disconnect []);;
  assign (set_sio_connected false).

(** The transport is lost without [disconnect()] being called: the
    [disconnect] event fires, with the attempts the outside world will play
    to the reconnect loop, and when its handler has returned the Socket.IO
    client resets its [connected] attribute. *)
Definition transport_lost (script : list attempt) : M unit :=
  isolated (sio_on_disconnect script);;
  assign (set_sio_connected false).

Definition disconnect : M unit :=
  assign (set_should_run false);;
  transport_up ← get sio_connected;
  (if transport_up : bool then sio_disconnect else ret tt);;
  assign (set_connected false);;
  log LvInfo "Disconnected" [].

(** The properties [connected] and [agent_id]. *)
Definition connected (c : OblivionClient) : bool := _connected c.
Definition agent_id (c : OblivionClient) : option string := _agent_id c.

(** ** Agent actions *)

(** [status] is an [AgentStatus] member or a plain [str]; for both
    [isinstance(status, str)] holds and [AgentStatus(status)] is evaluated,
    which returns a member unchanged and raises [ValueError] on a string that
    is no member's value. *)
Definition to_AgentStatus (status : AgentStatus + string) : M AgentStatus :=
  match status with
  | inl member => ret member
  | inr s =>
      match AgentStatus_of_value s with
      | Some member => ret member
      | None => raise (ValueError s)
      end
  end.

Definition update_status (utcnow : string) (status : AgentStatus + string)
    (task_id message : option string) : M unit :=
  status ← to_AgentStatus status;
  let p := {| su_status := status; su_task_id := task_id; su_message := message |} in
  let event := BaseEvent_create utcnow STATUS_UPDATE (StatusUpdatePayload_model_dump p) in
  sio_emit (EventType_value STATUS_UPDATE) (BaseEvent_model_dump event);;
  log LvDebug "Status updated"
    [("status", LJson (JStr (AgentStatus_value status)));
     ("task_id", LJson (json_of_option_str task_id))].

(** [request_tool] suspends at [asyncio.wait_for(future, timeout=timeout)];
    frames are handled while it is suspended. It is given in three parts.

    [request_tool_send]: the body up to the [wait_for]; [request_id] is the
    uuid drawn by [uuid.uuid4()]. Returns the address of the future. *)
Definition request_tool_send (utcnow request_id tool action : string)
    (params : list (string * json)) : M nat :=
  let p := {| tq_request_id := request_id; tq_tool := tool;
              tq_action := action; tq_params := params |} in
  let event := BaseEvent_create utcnow TOOL_REQUEST (ToolRequestPayload_model_dump p) in
  (* Create future for response *)
  future ← create_future;
  pending ← get _pending_tools;
  assign (set_pending_tools (<[request_id := future]> pending));;
  (* Send request *)
  sio_emit (EventType_value TOOL_REQUEST) (BaseEvent_model_dump event);;
  ret future.

(** [wait_for_expire]: the timeout of [wait_for] elapses while the future is
    pending. asyncio cancels the awaited future ([Future.cancel()], which
    changes nothing on a future that is done) and lets the awaiting coroutine
    continue only once the cancellation has gone through the event loop (the
    documentation of [wait_for]: "If a timeout occurs, it cancels the task
    and raises TimeoutError. [...] The function will wait until the future is
    actually cancelled"). Tasks that are ready run in between. *)
Definition wait_for_expire (future : nat) : M unit :=
  fs ← get futures;
  match fs !! future with
  | Some FPending =>
      assign (set_futures (<[future := FCancelled]> fs));; act (CancelledFuture future)
  | _ => ret tt
  end.

Definition timed_out (request_id : string) : ToolResultPayload :=
  {| request_id := request_id; success := false; result := None;
     error := Some "Tool request timed out" |}.

(** [request_tool_resume]: the coroutine continues from the [wait_for].
    A future with a result makes [wait_for] return it; a cancelled one
    makes it raise [TimeoutError], which the [except] clause turns into the
    failure payload after [self._pending_tools.pop(request_id, None)].
    [None]: the future is not done, the coroutine stays suspended. *)
Definition request_tool_resume (request_id : string) (future : nat)
    : M (option ToolResultPayload) :=
  fs ← get futures;
  match fs !! future with
  | Some (FResult r) => ret (Some r)
  | Some FCancelled =>
      pending ← get _pending_tools;
      assign (set_pending_tools (delete request_id pending));;
      ret (Some (timed_out request_id))
  | Some FPending | None => ret None
  end.

(** A whole call, given the frames handled while it waits: those handled
    in the turns of the event loop before the one in which the timeout fires
    ([before]) and those between the timeout and the moment the coroutine
    runs again ([window]). When the future is done after [before],
    [wait_for] returns before its timeout and there is no window. (A result
    set in the very turn in which the timeout fires is not among [before]:
    what [wait_for] makes of it differs between versions of CPython.) *)
Definition request_tool (utcnow request_id tool action : string)
    (params : list (string * json)) (before window : list frame)
    : M (option ToolResultPayload) :=
  future ← request_tool_send utcnow request_id tool action params;
  deliver_all before;;
  fs ← get futures;
  match fs !! future with
  | Some FPending =>
      wait_for_expire future;;
      deliver_all window;;
      request_tool_resume request_id future
  | _ => request_tool_resume request_id future
  end.

Definition send_heartbeat (utcnow : string) : M unit :=
  let event := BaseEvent_create utcnow HEARTBEAT heartbeat_payload in
  sio_emit (EventType_value HEARTBEAT) (BaseEvent_model_dump event).

End Client.

(** [OblivionClient.__init__]; the defaults of the keyword arguments are
    [capabilities=None], [version="0.1.0"], [auto_reconnect=True],
    [reconnect_delay=5.0]. *)
Definition OblivionClient_init (url cid secret : string)
    (caps : option (list string)) (ver : string) (auto : bool) (delay : json)
    : OblivionClient :=
  {| nexus_url := rstrip_slash url;
     client_id := cid;
     client_secret := secret;
     capabilities := default [] caps;
     version := ver;
     auto_reconnect := auto;
     reconnect_delay := delay;
     _token := None;
     _agent_id := None;
     _connected := false;
     _should_run := false;
     sio_connected := false;
     _task_handlers := [];
     _context_handlers := [];
     _wakeup_handlers := [];
     _tool_result_handlers := [];
     _pending_tools := ∅;
     futures := [] |}.

(** * A concrete validator, for running the model

    [strict] accepts a value when every field has the JSON type declared in
    models.py (looked up by alias, then by field name, as
    [populate_by_name] allows), and performs none of pydantic's lax
    conversions. It instantiates the interface in the examples; the theorems
    hold for every instance. *)
Module Strict.

Definition field (alias name : string) (fields : list (string * json)) : option json :=
  match obj_get alias fields with
  | Some v => Some v
  | None => obj_get name fields
  end.

Definition str_field (alias name : string) (fields : list (string * json)) : option string :=
  match field alias name fields with
  | Some (JStr s) => Some s
  | _ => None
  end.

Definition opt_str_field (alias name : string) (fields : list (string * json))
    : option (option string) :=
  match field alias name fields with
  | None | Some JNull => Some None
  | Some (JStr s) => Some (Some s)
  | Some _ => None
  end.

Definition bool_field (alias name : string) (fields : list (string * json)) : option bool :=
  match field alias name fields with
  | Some (JBool b) => Some b
  | _ => None
  end.

Definition opt_bool_field (alias name : string) (fields : list (string * json))
    : option (option bool) :=
  match field alias name fields with
  | None | Some JNull => Some None
  | Some (JBool b) => Some (Some b)
  | Some _ => None
  end.

Definition validate_BaseEvent (data : json) : option BaseEvent :=
  match data with
  | JObj fields =>
      t ← str_field "type" "type" fields;
      ty ← EventType_of_value t;
      p ← match obj_get "payload" fields with Some (JObj p) => Some p | _ => None end;
      ts ← str_field "timestamp" "timestamp" fields;
      Some {| type := ty; payload := p; timestamp := ts |}
  | _ => None
  end.

Definition validate_TaskAssigned (fields : list (string * json)) : option TaskAssignedPayload :=
  a ← str_field "taskId" "task_id" fields;
  b ← str_field "projectMappingId" "project_mapping_id" fields;
  c ← str_field "clickupTaskId" "clickup_task_id" fields;
  d ← str_field "slackChannelId" "slack_channel_id" fields;
  e ← str_field "slackThreadTs" "slack_thread_ts" fields;
  f ← str_field "title" "title" fields;
  g ← opt_str_field "description" "description" fields;
  h ← str_field "assignedAt" "assigned_at" fields;
  Some {| ta_task_id := a; ta_project_mapping_id := b; ta_clickup_task_id := c;
          ta_slack_channel_id := d; ta_slack_thread_ts := e; ta_title := f;
          ta_description := g; ta_assigned_at := h |}.

Definition validate_ContextUpdate (fields : list (string * json)) : option ContextUpdatePayload :=
  a ← str_field "taskId" "task_id" fields;
  b ← str_field "slackChannelId" "slack_channel_id" fields;
  c ← str_field "slackThreadTs" "slack_thread_ts" fields;
  d ← str_field "messageTs" "message_ts" fields;
  e ← str_field "author" "author" fields;
  f ← str_field "content" "content" fields;
  g ← bool_field "isHuman" "is_human" fields;
  Some {| cu_task_id := a; cu_slack_channel_id := b; cu_slack_thread_ts := c;
          cu_message_ts := d; cu_author := e; cu_content := f; cu_is_human := g |}.

Definition validate_WakeUp (fields : list (string * json)) : option WakeUpPayload :=
  r ← str_field "reason" "reason" fields;
  reason ← WakeUpReason_of_value r;
  t ← opt_str_field "taskId" "task_id" fields;
  m ← match obj_get "metadata" fields with
      | None | Some JNull => Some None
      | Some (JObj m) => Some (Some m)
      | Some _ => None
      end;
  Some {| wu_reason := reason; wu_task_id := t; wu_metadata := m |}.

Definition validate_ToolResult (fields : list (string * json)) : option ToolResultPayload :=
  r ← str_field "requestId" "request_id" fields;
  s ← bool_field "success" "success" fields;
  e ← opt_str_field "error" "error" fields;
  Some {| request_id := r; success := s;
          result := match obj_get "result" fields with
                    | None | Some JNull => None
                    | Some v => Some v
                    end;
          error := e |}.

Definition validate_Heartbeat (fields : list (string * json)) : option HeartbeatPayload :=
  pi ← opt_bool_field "ping" "ping" fields;
  po ← opt_bool_field "pong" "pong" fields;
  t ← str_field "serverTime" "server_time" fields;
  Some {| hb_ping := pi; hb_pong := po; hb_server_time := t |}.

Definition validate_ConnectedResponse (data : json) : option ConnectedResponse :=
  match data with
  | JObj fields =>
      m ← str_field "message" "message" fields;
      a ← str_field "agentId" "agent_id" fields;
      t ← str_field "serverTime" "server_time" fields;
      Some {| cr_message := m; cr_agent_id := a; cr_server_time := t |}
  | _ => None
  end.

Definition strict : Pydantic :=
  {| BaseEvent_model_validate := validate_BaseEvent;
     TaskAssignedPayload_model_validate := validate_TaskAssigned;
     ContextUpdatePayload_model_validate := validate_ContextUpdate;
     WakeUpPayload_model_validate := validate_WakeUp;
     ToolResultPayload_model_validate := validate_ToolResult;
     HeartbeatPayload_model_validate := validate_Heartbeat;
     ConnectedResponse_model_validate := validate_ConnectedResponse |}.

End Strict.

(** * Concrete clients and frames used in the examples *)

Module Sample.

Definition fresh : OblivionClient :=
  OblivionClient_init "http://localhost:3000/" "my-agent" "secret" None "0.1.0" true
    (JFloat 5 0).

(** A server envelope around a payload. *)
Definition envelope (kind : EventType) (p : list (string * json)) : json :=
  JObj [("type", JStr (EventType_value kind)); ("payload", JObj p);
        ("timestamp", JStr "2025-01-01T00:00:00Z")].

Definition frame_of (kind : EventType) (p : list (string * json)) : frame :=
  {| f_utcnow := "2025-01-01T00:00:01"; f_event := EventType_value kind;
     f_data := envelope kind p |}.

Definition ack : frame :=
  {| f_utcnow := "2025-01-01T00:00:00"; f_event := "connected";
     f_data := JObj [("message", JStr "ok"); ("agentId", JStr "agent-1");
                     ("serverTime", JStr "2025-01-01T00:00:00Z")] |}.

Definition task_fields : list (string * json) :=
  [("taskId", JStr "t1"); ("projectMappingId", JStr "pm"); ("clickupTaskId", JStr "cu");
   ("slackChannelId", JStr "ch"); ("slackThreadTs", JStr "ts"); ("title", JStr "Fix it");
   ("assignedAt", JStr "2025-01-01T00:00:00Z")].

Definition tool_result_r1 : list (string * json) :=
  [("requestId", JStr "r1"); ("success", JBool true); ("result", JInt 42)].

(** Handlers: one that returns, one that raises a [RuntimeError], one that
    raises [SystemExit] (as [sys.exit()] does). *)
Definition quiet {P} : handler P := fun _ => None.
Definition failing {P} : handler P := fun _ => Some (OtherException "RuntimeError" "boom").
Definition exiting {P} : handler P := fun _ => Some (OtherBaseException "SystemExit").

(** A client that went through connect and the server's acknowledgment. *)
Definition online : OblivionClient :=
  state_of ((connect
               (HttpResponse 200 (Some (JObj [("accessToken", JStr "tok")]))) true;;
             deliver (PV := Strict.strict) ack) fresh).

(** The same client after the first part of
    [request_tool("search", "query", {"q": "x"})] with uuid ["r1"]: the
    request is registered under future 0 and sent. *)
Definition waiting : OblivionClient :=
  state_of (request_tool_send "2025-01-01T00:00:02" "r1" "search" "query"
              [("q", JStr "x")] online).

End Sample.

(** * Vocabulary of the properties

    Projections of runs and effect lists, and the predicates the statements
    below are written with. *)

Section Vocabulary.

Context `{PV : Pydantic}.

(** Effects that are a call of [self._sio.connect]. *)
Definition is_SioConnect (e : effect) : bool :=
  match e with SioConnect _ _ => true | _ => false end.

(** An inbound [heartbeat] frame, handled when the clock reads [utcnow]. *)
Definition heartbeat_frame (utcnow : string) (data : json) : frame :=
  {| f_utcnow := utcnow; f_event := EventType_value HEARTBEAT; f_data := data |}.

(** The heartbeat frame the client sends: event ["heartbeat"], payload
    [{"ping": True, "serverTime": ""}], stamped with the clock. *)
Definition heartbeat_reply (utcnow : string) : effect :=
  Emitted "heartbeat"
    (JObj [("type", JStr "heartbeat");
           ("payload", JObj [("ping", JBool true); ("serverTime", JStr "")]);
           ("timestamp", JStr (utcnow +:+ "Z"))]).

(** Effects that are a call of a registered handler. *)
Definition is_Called (e : effect) : bool :=
  match e with Called _ _ _ => true | _ => false end.

(** Effects that are the resolution of a pending future. *)
Definition is_SetResult (e : effect) : bool :=
  match e with SetResult _ _ => true | _ => false end.

(** The debug record of the [tool_result] handler. *)
Definition tool_result_log (p : ToolResultPayload) : effect :=
  Logged LvDebug "Tool result"
    [("request_id", LJson (JStr (request_id p))); ("success", LJson (JBool (success p)))].

(** The loop over the registered [tool_result] handlers. *)
Definition observers (p : ToolResultPayload) : M unit := fun c =>
  for_each_handler TOOL_RESULT ArgToolResult "Tool result handler error" 0
    (_tool_result_handlers c) p c.

(** The client once the pending future of [p] is resolved: the entry is out
    of the dict and the future holds [p]. *)
Definition resolved (fut : nat) (p : ToolResultPayload) (c : OblivionClient) : OblivionClient :=
  set_futures (<[fut := FResult p]> (futures c))
    (set_pending_tools (delete (request_id p) (_pending_tools c)) c).

(** Whether a validator accepted the value. *)
Definition accepted {A} (verdict : option A) : bool :=
  match verdict with Some _ => true | None => false end.

(** Whether the data of a frame is a valid envelope whose payload passes the
    schema that models.py gives to the frame's event kind. *)
Definition frame_schema_ok (f : frame) : bool :=
  match BaseEvent_model_validate (f_data f) with
  | None => false
  | Some event =>
      match EventType_of_value (f_event f) with
      | Some TASK_ASSIGNED => accepted (TaskAssignedPayload_model_validate (payload event))
      | Some CONTEXT_UPDATE => accepted (ContextUpdatePayload_model_validate (payload event))
      | Some WAKE_UP => accepted (WakeUpPayload_model_validate (payload event))
      | Some TOOL_RESULT => accepted (ToolResultPayload_model_validate (payload event))
      | Some HEARTBEAT => accepted (HeartbeatPayload_model_validate (payload event))
      | _ => true
      end
  end.

(** The kinds whose handler validates the frame before dispatching it. *)
Definition validating_kind (k : EventType) : bool :=
  match k with
  | TASK_ASSIGNED | CONTEXT_UPDATE | WAKE_UP | TOOL_RESULT => true
  | _ => false
  end.

(** A frame is dropped with a validation error: the only effect of handling
    it is the [ValidationError] that leaves its handler, and the client is as
    before. *)
Definition dropped_with_ValidationError (f : frame) (c : OblivionClient) : Prop :=
  ∃ model, deliver f c = (Return tt, c, [TaskException (ValidationError model)]).

(** The handler calls in a list of effects, as (kind, index in the registered
    list). *)
Definition call_indices (t : list effect) : list (EventType * nat) :=
  omap (λ e, match e with Called k i _ => Some (k, i) | _ => None end) t.

(** The exceptions reported by the handler loops' [self._log.error(...,
    error=str(e))]. *)
Definition logged_errors (t : list effect) : list exn :=
  omap (λ e, match e with
             | Logged LvError _ [(_, LStrOf x)] => Some x
             | _ => None
             end) t.

(** The exceptions that left a Socket.IO handler. *)
Definition task_exceptions (t : list effect) : list exn :=
  omap (λ e, match e with TaskException x => Some x | _ => None end) t.

(** What a handler may raise for the loop to go on: nothing, or an instance of
    [Exception]. *)
Definition caught (o : option exn) : Prop :=
  ∀ e, o = Some e → is_Exception e = true.

(** What each handler registered for the kind of a frame does when called on
    the frame's payload, in registration order ([[]] when the frame does not
    validate or its kind has no handler list). *)
Definition handler_outcomes (f : frame) (c : OblivionClient) : list (option exn) :=
  match BaseEvent_model_validate (f_data f) with
  | None => []
  | Some event =>
      match EventType_of_value (f_event f) with
      | Some TASK_ASSIGNED =>
          match TaskAssignedPayload_model_validate (payload event) with
          | Some p => (λ h, h p) <$> _task_handlers c
          | None => []
          end
      | Some CONTEXT_UPDATE =>
          match ContextUpdatePayload_model_validate (payload event) with
          | Some p => (λ h, h p) <$> _context_handlers c
          | None => []
          end
      | Some WAKE_UP =>
          match WakeUpPayload_model_validate (payload event) with
          | Some p => (λ h, h p) <$> _wakeup_handlers c
          | None => []
          end
      | Some TOOL_RESULT =>
          match ToolResultPayload_model_validate (payload event) with
          | Some p => (λ h, h p) <$> _tool_result_handlers c
          | None => []
          end
      | _ => []
      end
  end.

(** The number of handlers registered for a kind. *)
Definition registered (k : EventType) (c : OblivionClient) : nat :=
  match k with
  | TASK_ASSIGNED => length (_task_handlers c)
  | CONTEXT_UPDATE => length (_context_handlers c)
  | WAKE_UP => length (_wakeup_handlers c)
  | TOOL_RESULT => length (_tool_result_handlers c)
  | _ => 0
  end.

(** The namespace is connected: [self._sio.emit] hands a frame to the
    transport. *)
Definition transport_up (c : OblivionClient) : Prop := sio_connected c = true.

(** Whether a frame is a valid [tool_result] for the request id. *)
Definition answers (rid : string) (f : frame) : bool :=
  String.eqb (f_event f) (EventType_value TOOL_RESULT)
  && match BaseEvent_model_validate (f_data f) with
     | Some event =>
         match ToolResultPayload_model_validate (payload event) with
         | Some p => String.eqb (request_id p) rid
         | None => false
         end
     | None => false
     end.

(** The request a frame answers, if the dict holds one, is not in its timeout
    window: its future is still pending. (Nothing is asked of a frame that
    is no valid [tool_result], of a [tool_result] whose id is not in the
    dict, or of the other requests in the dict.) *)
Definition own_future_pending (f : frame) (c : OblivionClient) : Prop :=
  ∀ rid fut,
    answers rid f = true →
    _pending_tools c !! rid = Some fut →
    futures c !! fut = Some FPending.

(** Every address in the dict is the address of a created future. *)
Definition registry_wf (c : OblivionClient) : Prop :=
  ∀ rid fut, _pending_tools c !! rid = Some fut → fut < length (futures c).

(** A request is held: its id maps to its future, the future is in state
    [st], and no other id maps to that future. *)
Definition held (rid : string) (fut : nat) (st : Future) (c : OblivionClient) : Prop :=
  _pending_tools c !! rid = Some fut
  ∧ futures c !! fut = Some st
  ∧ ∀ k v, _pending_tools c !! k = Some v → v = fut → k = rid.

(** The [tool_request] frame that [request_tool] sends. *)
Definition tool_request_frame (utcnow rid tool action : string)
    (params : list (string * json)) : effect :=
  Emitted "tool_request"
    (JObj [("type", JStr "tool_request");
           ("payload", JObj [("requestId", JStr rid); ("tool", JStr tool);
                             ("action", JStr action); ("params", JObj params)]);
           ("timestamp", JStr (utcnow +:+ "Z"))]).

(** The client once the request is registered. *)
Definition registered_request (rid : string) (c : OblivionClient) : OblivionClient :=
  set_pending_tools (<[rid := length (futures c)]> (_pending_tools c))
    (set_futures (futures c ++ [FPending]) c).

(** The steps a client goes through: the calls of its public methods, the
    parts of [request_tool], and what the transport brings. *)
Inductive step : ∀ A : Type, M A → Prop :=
  | step_connect answer handshake_ok : step unit (connect answer handshake_ok)
  | step_disconnect : step unit disconnect
  | step_transport_lost script : step unit (transport_lost script)
  | step_deliver f : step unit (deliver f)
  | step_on_task_assigned h : step unit (on_task_assigned h)
  | step_on_context_update h : step unit (on_context_update h)
  | step_on_wake_up h : step unit (on_wake_up h)
  | step_on_tool_result h : step unit (on_tool_result h)
  | step_update_status utcnow status task_id message :
      step unit (update_status utcnow status task_id message)
  | step_send_heartbeat utcnow : step unit (send_heartbeat utcnow)
  | step_request_tool_send utcnow rid tool action params :
      step nat (request_tool_send utcnow rid tool action params)
  | step_wait_for_expire fut : step unit (wait_for_expire fut)
  | step_request_tool_resume rid fut :
      step (option ToolResultPayload) (request_tool_resume rid fut).

(** The clients that exist: a new one, and what a step leaves of one. *)
Inductive reachable : OblivionClient → Prop :=
  | reachable_init url cid secret caps ver auto delay :
      reachable (OblivionClient_init url cid secret caps ver auto delay)
  | reachable_step A (m : M A) c :
      reachable c → step A m → reachable (state_of (m c)).

End Vocabulary.

(** ** More concrete clients, frames and calls *)

Module BadFrames.

(** A [task_assigned] frame whose payload lacks every required field. *)
Definition empty_task : frame := Sample.frame_of TASK_ASSIGNED [].

(** A [heartbeat] frame whose payload lacks the required [serverTime]. *)
Definition empty_heartbeat : frame := Sample.frame_of HEARTBEAT [].

End BadFrames.

Module Registered.

(** Two [task_assigned] handlers: the first raises a [RuntimeError], the
    second returns. *)
Definition failing_then_quiet : OblivionClient :=
  state_of ((on_task_assigned Sample.failing;; on_task_assigned Sample.quiet)
              Sample.online).

(** Two [task_assigned] handlers: the first raises [SystemExit], the second
    returns. *)
Definition exiting_then_quiet : OblivionClient :=
  state_of ((on_task_assigned Sample.exiting;; on_task_assigned Sample.quiet)
              Sample.online).

Definition task : frame := Sample.frame_of TASK_ASSIGNED Sample.task_fields.

End Registered.

Module Calls.

(** [request_tool("search", "query", {"q": "x"})] with uuid ["r1"], given
    the frames handled before the timeout and between the timeout and the
    moment the coroutine runs again. *)
Definition search (before window : list frame) : M (option ToolResultPayload) :=
  request_tool (PV := Strict.strict) "2025-01-01T00:00:02" "r1" "search" "query"
    [("q", JStr "x")] before window.

(** The server's answer to that request. *)
Definition answer : frame := Sample.frame_of TOOL_RESULT Sample.tool_result_r1.

Definition answer_payload : ToolResultPayload :=
  {| request_id := "r1"; success := true; result := Some (JInt 42); error := None |}.

(** A connected client with one registered [tool_result] handler. *)
Definition observed : OblivionClient :=
  state_of (on_tool_result Sample.quiet Sample.online).

(** A connected client with two [tool_result] handlers, the first of which
    raises a [RuntimeError], once the request is registered and sent. *)
Definition failing_observer_waiting : OblivionClient :=
  registered_request "r1"
    (state_of ((on_tool_result Sample.failing;; on_tool_result Sample.quiet)
                 Sample.online)).

End Calls.

(** * More of client.py *)

(** [wait]:
[[
    while self._should_run:
        await asyncio.sleep(1)
]]
    [meanwhile] gives, for each sleep, what the other tasks do while this
    coroutine sleeps (an exception of theirs stays with them). The result
    tells whether the loop ended: [false] is a coroutine still waiting when
    the script of the other tasks is over. *)
Fixpoint wait (meanwhile : list (M unit)) : M bool := fun c =>
  if _should_run c then
    match meanwhile with
    | [] => (Return false, c, [])
    | others :: rest =>
        (act (Slept (JInt 1));;
         isolated others;;
         wait rest) c
    end
  else (Return true, c, []).

(** The URL that [connect] computes for the Socket.IO client:
    [self.nexus_url.replace("http://", "ws://").replace("https://", "wss://")]. *)
Definition ws_url (url : string) : string :=
  replace "https://" "wss://" (replace "http://" "ws://" url).

(** ** Vocabulary of the further properties *)

(** Whether [old] occurs in [s] as a substring. *)
Fixpoint occurs (old s : string) : bool :=
  match s with
  | EmptyString => String.prefix old s
  | String _ rest => String.prefix old s || occurs old rest
  end.

(** Whether the last character of [s] is ['/']. *)
Fixpoint ends_with_slash (s : string) : bool :=
  match s with
  | EmptyString => false
  | String ch EmptyString => Ascii.eqb ch slash
  | String _ rest => ends_with_slash rest
  end.

(** The string of [n] characters ['/']. *)
Fixpoint slashes (n : nat) : string :=
  match n with
  | O => EmptyString
  | S k => String slash (slashes k)
  end.


Definition is_HttpPost (e : effect) : bool :=
  match e with HttpPost _ _ => true | _ => false end.

Definition is_Emitted (e : effect) : bool :=
  match e with Emitted _ _ => true | _ => false end.


(** A future is released: it is in state [st] and no entry of the dict refers
    to it any more. *)
Definition released (fut : nat) (st : Future) (c : OblivionClient) : Prop :=
  futures c !! fut = Some st
  ∧ ∀ k v, _pending_tools c !! k = Some v → v ≠ fut.

(** The [status_update] frame and the debug record of [update_status]. *)
Definition status_update_frame (utcnow : string) (status : AgentStatus)
    (task_id message : option string) : effect :=
  Emitted "status_update"
    (JObj [("type", JStr "status_update");
           ("payload", JObj [("status", JStr (AgentStatus_value status));
                             ("taskId", json_of_option_str task_id);
                             ("message", json_of_option_str message)]);
           ("timestamp", JStr (utcnow +:+ "Z"))]).

Definition status_updated_log (status : AgentStatus) (task_id : option string) : effect :=
  Logged LvDebug "Status updated"
    [("status", LJson (JStr (AgentStatus_value status)));
     ("task_id", LJson (json_of_option_str task_id))].


(** The error record of the reconnect loop. *)
Definition reconnection_failed (e : exn) : effect :=
  Logged LvError "Reconnection failed" [("error", LStrOf e)].

(** The seven event names for which [_setup_handlers] registers a
    handler. *)
Definition handled_events : list string :=
  ["connected"; "disconnect"; "task_assigned"; "context_update"; "wake_up";
   "tool_result"; "heartbeat"].

(** ** What the operations of the client leave alone *)

(** The arguments of the constructor, as the client stores them. *)
Definition configuration (c : OblivionClient)
    : string * string * string * list string * string * bool * json :=
  (nexus_url c, client_id c, client_secret c, capabilities c, version c,
   auto_reconnect c, reconnect_delay c).

(** From [c] to [c']: the same configuration, and each handler list of [c']
    begins with the list of [c]. *)
Definition grown (c c' : OblivionClient) : Prop :=
  configuration c' = configuration c
  ∧ _task_handlers c `prefix_of` _task_handlers c'
  ∧ _context_handlers c `prefix_of` _context_handlers c'
  ∧ _wakeup_handlers c `prefix_of` _wakeup_handlers c'
  ∧ _tool_result_handlers c `prefix_of` _tool_result_handlers c'.

(** The kinds of event for which client.py calls [self._sio.emit]. *)
Definition sent_events : list EventType :=
  [AGENT_READY; TOOL_REQUEST; STATUS_UPDATE; HEARTBEAT].

(** An effect that, when it is a frame handed to the transport, is an
    envelope as [BaseEvent.create(...).model_dump(by_alias=True)] makes it:
    the three keys in this order, the [type] equal to the Socket.IO event
    name, which is one of [sent_events], a dict as payload, and a timestamp
    that ends with ["Z"]. *)
Definition envelope_sent (e : effect) : Prop :=
  match e with
  | Emitted name data =>
      ∃ kind payload utcnow,
        kind ∈ sent_events
        ∧ name = EventType_value kind
        ∧ data = JObj [("type", JStr name);
                       ("payload", JObj payload);
                       ("timestamp", JStr (utcnow +:+ "Z"))]
  | _ => True
  end.

(** A coroutine that, from every client, leaves a [grown] client and has
    sent envelopes only. *)
Definition orderly {A} (m : M A) : Prop :=
  ∀ c, grown c (state_of (m c)) ∧ Forall envelope_sent (effects_of (m c)).

Section Runs.

Context `{PV : Pydantic}.

(** Operations performed one after the other: [runs c t c'] when they lead
    from client [c] to client [c'] with the effects [t]. *)
Inductive runs : OblivionClient → list effect → OblivionClient → Prop :=
  | runs_nil c : runs c [] c
  | runs_cons A (m : M A) c t c' :
      step A m → runs (state_of (m c)) t c' → runs c (effects_of (m c) ++ t) c'.

End Runs.

(** ** A few operations in a row *)

Module Life.

(** On the connected client: a handler is registered, a heartbeat of the
    server is answered, the agent reports that it works on a task. *)
Definition registered : OblivionClient :=
  state_of (on_task_assigned Sample.quiet Sample.online).

Definition pinged : OblivionClient :=
  state_of (deliver (PV := Strict.strict)
              (heartbeat_frame "2025-01-01T00:00:03" JNull) registered).

Definition working : OblivionClient :=
  state_of (update_status "2025-01-01T00:00:04" (inr "working") (Some "t1") None pinged).

Definition trace : list effect :=
  effects_of (on_task_assigned Sample.quiet Sample.online)
    ++ effects_of (deliver (PV := Strict.strict)
                     (heartbeat_frame "2025-01-01T00:00:03" JNull) registered)
    ++ effects_of (update_status "2025-01-01T00:00:04" (inr "working") (Some "t1") None
                     pinged)
    ++ [].

End Life.

(** ** Two requests outstanding together *)

Module Pair.

(** The connected client after [request_tool] was called twice, with uuids
    ["r1"] and ["r2"], neither answered yet. *)
Definition first_sent : OblivionClient := registered_request "r1" Calls.observed.
Definition both_sent : OblivionClient := registered_request "r2" first_sent.

(** A second, different answer of the server to the first request. *)
Definition answer1_late : frame :=
  Sample.frame_of TOOL_RESULT [("requestId", JStr "r1"); ("success", JBool false)].

(** The server's answer to the second request. *)
Definition answer2 : frame :=
  Sample.frame_of TOOL_RESULT [("requestId", JStr "r2"); ("success", JBool true)].

Definition answer2_payload : ToolResultPayload :=
  {| request_id := "r2"; success := true; result := None; error := None |}.

End Pair.

(** ** A client that lost its transport, and reconnect attempts *)

Module Outage.

(** The connected client after the transport was lost, before any attempt:
    still meant to run, not connected, transport down. *)
Definition lost : OblivionClient :=
  state_of (transport_lost (PV := Strict.strict) [] Sample.online).

(** An attempt that the auth endpoint answers with 503. *)
Definition refused : attempt :=
  {| at_answer := HttpResponse 503 None; at_handshake_ok := true; at_inbox := [] |}.


(** An attempt that goes through, the acknowledgment arriving at once. *)
Definition accepted : attempt :=
  {| at_answer := HttpResponse 200 (Some (JObj [("accessToken", JStr "tok2")]));
     at_handshake_ok := true; at_inbox := [Sample.ack] |}.

End Outage.

(** * Properties *)

(** Unfolding of the monad's operations. *)
Ltac run :=
  unfold mbind, M_bind, mret, M_ret, bind, ret, raise, get, assign, act, log,
    sio_emit, validated, try_except, outcome_of, state_of, effects_of in *;
  simpl in *.

(** ** [update_status] *)

Lemma AgentStatus_of_value_None (s : string) :
  s ≠ "idle" → s ≠ "working" → s ≠ "error" → AgentStatus_of_value s = None.
Proof.
  intros H1 H2 H3. unfold AgentStatus_of_value, all_AgentStatus.
  cbn [List.find AgentStatus_value].
  rewrite !(proj2 (String.eqb_neq _ _)) by congruence. reflexivity.
Qed.

(** C10. [update_status] called with a string that is none of "idle",
    "working", "error" raises [ValueError] before anything else happens: no
    frame is emitted (the run has no effect at all) and the client is left as
    it was. *)
Theorem update_status_rejects_unknown_status
    (utcnow s : string) (task_id message : option string) (c : OblivionClient) :
  s ≠ "idle" → s ≠ "working" → s ≠ "error" →
  update_status utcnow (inr s) task_id message c = (Raise (ValueError s), c, []).
Proof.
  intros H1 H2 H3. unfold update_status, to_AgentStatus.
  rewrite (AgentStatus_of_value_None s H1 H2 H3). reflexivity.
Qed.

Lemma update_status_rejects_unknown_status_witness :
  update_status "2025-01-01T00:00:00" (inr "busy") None None Sample.online
  = (Raise (ValueError "busy"), Sample.online, []).
Proof.
  apply (update_status_rejects_unknown_status "2025-01-01T00:00:00" "busy" None None
           Sample.online); discriminate.
Defined.

(** ** [connect] *)

(** C5. When the auth endpoint answers with a status outside 200..299,
    [connect] raises the [HTTPStatusError] that carries this status, after
    logging it, and [self._sio.connect] is never called: the run consists of
    the log record, the POST and the error record. *)
Theorem connect_auth_failure_is_raised
    (status_code : nat) (body : option json) (handshake_ok : bool) (c : OblivionClient) :
  ¬ (200 ≤ status_code ≤ 299) →
  connect (HttpResponse status_code body) handshake_ok c
  = (Raise (HTTPStatusError status_code),
     set_should_run true c,
     [Logged LvInfo "Authenticating with Nexus" [];
      HttpPost (nexus_url c +:+ "/auth/token")
        (JObj [("clientId", JStr (client_id c)); ("clientSecret", JStr (client_secret c))]);
      Logged LvError "Authentication failed"
        [("status", LJson (JInt (Z.of_nat status_code)))]])
  ∧ filter (λ e, is_SioConnect e = true)
      (effects_of (connect (HttpResponse status_code body) handshake_ok c)) = [].
Proof.
  intros Hs.
  assert (Hf : is_success status_code = false).
  { unfold is_success. apply andb_false_iff.
    destruct (Nat.leb_spec 200 status_code); [right|left; reflexivity].
    apply Nat.leb_gt. lia. }
  assert (E : connect (HttpResponse status_code body) handshake_ok c
    = (Raise (HTTPStatusError status_code),
     set_should_run true c,
     [Logged LvInfo "Authenticating with Nexus" [];
      HttpPost (nexus_url c +:+ "/auth/token")
        (JObj [("clientId", JStr (client_id c)); ("clientSecret", JStr (client_secret c))]);
      Logged LvError "Authentication failed"
        [("status", LJson (JInt (Z.of_nat status_code)))]])).
  { unfold connect, _authenticate. run. rewrite Hf. reflexivity. }
  split; [exact E|]. rewrite E. reflexivity.
Qed.

Lemma connect_auth_failure_is_raised_witness :
  outcome_of (connect (HttpResponse 401 None) true Sample.fresh)
  = Raise (HTTPStatusError 401).
Proof.
  pose proof (connect_auth_failure_is_raised 401 None true Sample.fresh) as Hc.
  destruct Hc as [Hc _]; [lia|]. rewrite Hc. reflexivity.
Defined.

(** ** Frames are handled in isolation *)

Section Dispatch.

Context `{PV : Pydantic}.

Lemma isolated_returns (m : M unit) (c : OblivionClient) :
  outcome_of (isolated m c) = Return tt.
Proof.
  unfold isolated, outcome_of.
  destruct (m c) as [[[[]|e] c1] t1]; reflexivity.
Qed.

Lemma deliver_returns (f : frame) (c : OblivionClient) :
  outcome_of (deliver f c) = Return tt.
Proof. apply isolated_returns. Qed.

Lemma deliver_all_cons (f : frame) (rest : list frame) (c : OblivionClient) :
  deliver_all (f :: rest) c
  = (outcome_of (deliver_all rest (state_of (deliver f c))),
     state_of (deliver_all rest (state_of (deliver f c))),
     effects_of (deliver f c) ++ effects_of (deliver_all rest (state_of (deliver f c)))).
Proof.
  pose proof (deliver_returns f c) as Hr.
  cbn [deliver_all]. unfold mbind, M_bind, bind.
  destruct (deliver f c) as [[o c1] t1]. unfold outcome_of in Hr. simpl in Hr. subst o.
  unfold state_of, effects_of, outcome_of. simpl.
  destruct (deliver_all rest c1) as [[o2 c2] t2]. reflexivity.
Qed.

Lemma deliver_all_returns (fs : list frame) (c : OblivionClient) :
  outcome_of (deliver_all fs c) = Return tt.
Proof.
  revert c. induction fs as [|f rest IH]; intros c; [reflexivity|].
  rewrite deliver_all_cons. unfold outcome_of at 1. simpl. apply IH.
Qed.

Lemma deliver_all_app (fs1 fs2 : list frame) (c : OblivionClient) :
  deliver_all (fs1 ++ fs2) c
  = (Return tt,
     state_of (deliver_all fs2 (state_of (deliver_all fs1 c))),
     effects_of (deliver_all fs1 c)
       ++ effects_of (deliver_all fs2 (state_of (deliver_all fs1 c)))).
Proof.
  revert c. induction fs1 as [|f rest IH]; intros c.
  - change (deliver_all ([] ++ fs2) c) with (deliver_all fs2 c).
    change (state_of (deliver_all [] c)) with c.
    change (effects_of (deliver_all [] c)) with (@nil effect).
    pose proof (deliver_all_returns fs2 c) as Hr.
    destruct (deliver_all fs2 c) as [[o c2] t2]. unfold outcome_of in Hr. simpl in Hr.
    subst o. reflexivity.
  - rewrite <- app_comm_cons. rewrite !deliver_all_cons. rewrite IH.
    unfold state_of, effects_of, outcome_of. simpl. rewrite app_assoc. reflexivity.
Qed.

(** ** Heartbeats *)

Lemma deliver_heartbeat (utcnow : string) (data : json) (c : OblivionClient) :
  deliver (heartbeat_frame utcnow data) c = (Return tt, c, [heartbeat_reply utcnow]).
Proof. reflexivity. Qed.

(** C7. Handling an inbound heartbeat frame, whatever its data, has exactly
    one effect: one heartbeat frame handed to the transport. It is the
    first and only step of that frame's handler, no registered handler
    takes part and the client is unchanged; in a sequence of frames the
    reply comes after the effects of the frames before and ahead of every
    effect of the frames behind. *)
Theorem heartbeat_answered_once_and_first
    (utcnow : string) (data : json) (before behind : list frame) (c : OblivionClient) :
  deliver (heartbeat_frame utcnow data) c = (Return tt, c, [heartbeat_reply utcnow])
  ∧ effects_of (deliver_all (before ++ heartbeat_frame utcnow data :: behind) c)
    = effects_of (deliver_all before c)
        ++ heartbeat_reply utcnow
        :: effects_of (deliver_all behind (state_of (deliver_all before c))).
Proof.
  split; [apply deliver_heartbeat|].
  rewrite deliver_all_app. unfold effects_of at 1. cbn [snd].
  rewrite deliver_all_cons, deliver_heartbeat. reflexivity.
Qed.

End Dispatch.

(** ** [disconnect] *)

Section Disconnect.

Context `{PV : Pydantic}.

(** What [disconnect] does, in full: it clears [_should_run], closes the
    transport when it is up (which fires the [disconnect] event, whose
    handler logs and, the session being stopped, does not reconnect), clears
    [_connected] and logs. *)
Lemma disconnect_run (c : OblivionClient) :
  disconnect c
  = (Return tt,
     set_connected false (set_sio_connected false (set_should_run false c)),
     (if sio_connected c
      then [SioDisconnect; Logged LvWarning "Disconnected from Nexus" []]
      else [])
     ++ [Logged LvInfo "Disconnected" []]).
Proof.
  destruct c as [u ci cs caps v auto d tok aid conn run_ sc th ch wh rh pend fs].
  destruct sc, auto; reflexivity.
Qed.

Lemma disconnect_keeps_agent_id (c : OblivionClient) :
  agent_id (state_of (disconnect c)) = agent_id c.
Proof. rewrite disconnect_run. reflexivity. Qed.

Lemma disconnect_keeps_pending (c : OblivionClient) :
  _pending_tools (state_of (disconnect c)) = _pending_tools c
  ∧ futures (state_of (disconnect c)) = futures c.
Proof. rewrite disconnect_run. split; reflexivity. Qed.

(** C9, as the code has it. The identity is assigned by the handler of the
    server's [connected] acknowledgment, and [disconnect] does not clear
    it: after [disconnect()] the property [agent_id] still returns the
    identity of the last acknowledgment (only [connected] becomes false). *)
Theorem agent_id_assigned_by_ack_kept_by_disconnect
    (utcnow : string) (data : json) (response : ConnectedResponse) (c : OblivionClient) :
  ConnectedResponse_model_validate data = Some response →
  let c1 := state_of (sio_on_connected utcnow data c) in
  agent_id c1 = Some (cr_agent_id response)
  ∧ connected c1 = true
  ∧ agent_id (state_of (disconnect c1)) = Some (cr_agent_id response)
  ∧ connected (state_of (disconnect c1)) = false
  ∧ (∀ c' : OblivionClient, agent_id (state_of (disconnect c')) = agent_id c').
Proof.
  intros Hv c1.
  assert (E : c1 = set_connected true (set_agent_id (Some (cr_agent_id response)) c)).
  { unfold c1, sio_on_connected. rewrite Hv. reflexivity. }
  split; [rewrite E; reflexivity|].
  split; [rewrite E; reflexivity|].
  split; [rewrite disconnect_keeps_agent_id, E; reflexivity|].
  split; [rewrite disconnect_run; reflexivity|].
  apply disconnect_keeps_agent_id.
Qed.

End Disconnect.

(** *** Concrete runs of [disconnect] *)

Lemma agent_id_assigned_by_ack_kept_by_disconnect_witness :
  ConnectedResponse_model_validate (Pydantic := Strict.strict) (f_data Sample.ack)
  = Some {| cr_message := "ok"; cr_agent_id := "agent-1";
            cr_server_time := "2025-01-01T00:00:00Z" |}
  ∧ agent_id (state_of (disconnect (PV := Strict.strict)
                (state_of (sio_on_connected (PV := Strict.strict) "2025-01-01T00:00:00"
                             (f_data Sample.ack) Sample.fresh))))
    = Some "agent-1".
Proof.
  split; [reflexivity|].
  exact (proj1 (proj2 (proj2
    (agent_id_assigned_by_ack_kept_by_disconnect (PV := Strict.strict)
       "2025-01-01T00:00:00" (f_data Sample.ack)
       {| cr_message := "ok"; cr_agent_id := "agent-1";
          cr_server_time := "2025-01-01T00:00:00Z" |}
       Sample.fresh eq_refl)))).
Defined.

(** C9 as stated fails: the connected client has identity ["agent-1"], and
    after [disconnect()] the identity is still set. *)
Lemma agent_id_not_cleared_counterexample :
  agent_id Sample.online = Some "agent-1"
  ∧ connected (state_of (disconnect (PV := Strict.strict) Sample.online)) = false
  ∧ agent_id (state_of (disconnect (PV := Strict.strict) Sample.online)) ≠ None.
Proof. vm_compute. repeat split; discriminate. Qed.

(** C6 as stated fails: a request registered and not answered is, after
    [disconnect()], still in the pending-request dict with its future
    pending, and its caller cannot continue. *)
Lemma pending_request_dangles_counterexample :
  let c1 := state_of (disconnect (PV := Strict.strict) Sample.waiting) in
  _pending_tools c1 !! "r1" = Some 0
  ∧ futures c1 !! 0 = Some FPending
  ∧ outcome_of (request_tool_resume "r1" 0 c1) = Return None
  ∧ size (_pending_tools c1) ≠ 0.
Proof. vm_compute. repeat split; discriminate. Qed.

(** ** The handler loop *)

Section Loop.

Context {P : Type} (kind : EventType) (arg : P → handler_arg) (errmsg : string).

Lemma for_each_handler_cons (index : nat) (h : handler P) (rest : list (handler P))
    (p : P) (c : OblivionClient) :
  for_each_handler kind arg errmsg index (h :: rest) p c
  = match h p with
    | None =>
        let r := for_each_handler kind arg errmsg (S index) rest p c in
        (outcome_of r, state_of r, Called kind index (arg p) :: effects_of r)
    | Some e =>
        if is_Exception e then
          let r := for_each_handler kind arg errmsg (S index) rest p c in
          (outcome_of r, state_of r,
           Called kind index (arg p)
             :: Logged LvError errmsg [("error", LStrOf e)] :: effects_of r)
        else (Raise e, c, [Called kind index (arg p)])
    end.
Proof.
  cbn [for_each_handler]. unfold await_handler. run.
  destruct (h p) as [e|]; simpl.
  - destruct (is_Exception e); simpl; [|reflexivity].
    destruct (for_each_handler kind arg errmsg (S index) rest p c) as [[o c2] t2].
    reflexivity.
  - destruct (for_each_handler kind arg errmsg (S index) rest p c) as [[o c2] t2].
    reflexivity.
Qed.

(** The loop does not change the client. *)
Lemma for_each_handler_state (index : nat) (hs : list (handler P)) (p : P)
    (c : OblivionClient) :
  state_of (for_each_handler kind arg errmsg index hs p c) = c.
Proof.
  revert index. induction hs as [|h rest IH]; intros index; [reflexivity|].
  rewrite for_each_handler_cons.
  destruct (h p) as [e|]; [destruct (is_Exception e)|]; simpl;
    try apply IH; reflexivity.
Qed.

(** The loop does not resolve futures. *)
Lemma for_each_handler_no_SetResult (index : nat) (hs : list (handler P)) (p : P)
    (c : OblivionClient) :
  Forall (λ e, is_SetResult e = false)
    (effects_of (for_each_handler kind arg errmsg index hs p c)).
Proof.
  revert index. induction hs as [|h rest IH]; intros index; [constructor|].
  rewrite for_each_handler_cons.
  destruct (h p) as [e|]; [destruct (is_Exception e)|]; simpl;
    repeat (constructor; [reflexivity|]); try apply IH; constructor.
Qed.

End Loop.

(** In a list of effects made of a part without handler calls followed by a
    part without resolutions, every resolution precedes every call. *)
Lemma resolution_precedes_calls (pre post : list effect) :
  Forall (λ e, is_Called e = false) pre →
  Forall (λ e, is_SetResult e = false) post →
  ∀ i j e1 e2,
    (pre ++ post) !! i = Some e1 → is_SetResult e1 = true →
    (pre ++ post) !! j = Some e2 → is_Called e2 = true →
    i < j.
Proof.
  intros Hpre Hpost i j e1 e2 Hi H1 Hj H2.
  destruct (decide (i < length pre)) as [Li|Li].
  - destruct (decide (j < length pre)) as [Lj|Lj]; [|lia].
    rewrite lookup_app_l in Hj by exact Lj.
    rewrite Forall_lookup in Hpre. specialize (Hpre j e2 Hj). congruence.
  - rewrite lookup_app_r in Hi by lia.
    rewrite Forall_lookup in Hpost. specialize (Hpost _ e1 Hi). congruence.
Qed.

(** ** [tool_result] frames *)

Section ToolResult.

Context `{PV : Pydantic}.

(** The run of the handler on a valid frame, by the state of the registry. *)
Lemma sio_on_tool_result_valid (data : json) (event : BaseEvent) (p : ToolResultPayload)
    (c : OblivionClient) :
  BaseEvent_model_validate data = Some event →
  ToolResultPayload_model_validate (payload event) = Some p →
  sio_on_tool_result data c
  = match _pending_tools c !! request_id p with
    | None =>
        (outcome_of (observers p c), c, tool_result_log p :: effects_of (observers p c))
    | Some fut =>
        match futures c !! fut with
        | Some FPending =>
            (outcome_of (observers p (resolved fut p c)), resolved fut p c,
             tool_result_log p :: SetResult fut p
               :: effects_of (observers p (resolved fut p c)))
        | _ =>
            (Raise InvalidStateError,
             set_pending_tools (delete (request_id p) (_pending_tools c)) c,
             [tool_result_log p])
        end
    end.
Proof.
  intros He Hp. unfold sio_on_tool_result, future_set_result, observers. run.
  rewrite He. simpl. rewrite Hp. simpl.
  destruct (_pending_tools c !! request_id p) as [fut|] eqn:Hl; simpl.
  - destruct (futures c !! fut) as [[| |]|] eqn:Hf; simpl; try reflexivity.
    unfold resolved.
    pose proof (for_each_handler_state TOOL_RESULT ArgToolResult
      "Tool result handler error" 0 (_tool_result_handlers c) p
      (set_futures (<[fut:=FResult p]> (futures c))
         (set_pending_tools (delete (request_id p) (_pending_tools c)) c))) as Hs.
    destruct (for_each_handler _ _ _ _ _ _ _) as [[o c2] t2].
    unfold state_of in Hs. simpl in Hs. subst c2. reflexivity.
  - pose proof (for_each_handler_state TOOL_RESULT ArgToolResult
      "Tool result handler error" 0 (_tool_result_handlers c) p c) as Hs.
    destruct (for_each_handler _ _ _ _ _ _ _) as [[o c2] t2].
    unfold state_of in Hs. simpl in Hs. subst c2. reflexivity.
Qed.

Lemma sio_on_tool_result_invalid (data : json) (c : OblivionClient) :
  (BaseEvent_model_validate data = None
   ∨ ∃ event, BaseEvent_model_validate data = Some event
              ∧ ToolResultPayload_model_validate (payload event) = None) →
  ∃ model, sio_on_tool_result data c = (Raise (ValidationError model), c, []).
Proof.
  intros [He|(event & He & Hp)]; unfold sio_on_tool_result; run; rewrite He; simpl.
  - eexists; reflexivity.
  - rewrite Hp. simpl. eexists; reflexivity.
Qed.

(** The effects of the handler split into a part without handler calls and
    a part without resolutions. *)
Lemma sio_on_tool_result_split (data : json) (c : OblivionClient) :
  ∃ pre post,
    effects_of (sio_on_tool_result data c) = pre ++ post
    ∧ Forall (λ e, is_Called e = false) pre
    ∧ Forall (λ e, is_SetResult e = false) post.
Proof.
  destruct (BaseEvent_model_validate data) as [event|] eqn:He.
  2:{ destruct (sio_on_tool_result_invalid data c) as [m Hm]; [left; exact He|].
      rewrite Hm. exists [], []. repeat split; constructor. }
  destruct (ToolResultPayload_model_validate (payload event)) as [p|] eqn:Hp.
  2:{ destruct (sio_on_tool_result_invalid data c) as [m Hm]; [right; eauto|].
      rewrite Hm. exists [], []. repeat split; constructor. }
  rewrite (sio_on_tool_result_valid data event p c He Hp).
  destruct (_pending_tools c !! request_id p) as [fut|].
  - destruct (futures c !! fut) as [[| |]|].
    + exists [tool_result_log p; SetResult fut p],
        (effects_of (observers p (resolved fut p c))).
      split; [reflexivity|]. split; [repeat constructor|].
      apply for_each_handler_no_SetResult.
    + exists [tool_result_log p], []. repeat split; repeat constructor.
    + exists [tool_result_log p], []. repeat split; repeat constructor.
    + exists [tool_result_log p], []. repeat split; repeat constructor.
  - exists [tool_result_log p], (effects_of (observers p c)).
    split; [reflexivity|]. split; [repeat constructor|].
    apply for_each_handler_no_SetResult.
Qed.

(** C8. In the run of the [tool_result] handler on any frame, the
    resolution of the pending future comes before every call of a
    registered handler; and when the frame is valid and its request id is
    pending, the run is: the log record, the resolution, then the loop over
    the registered handlers, which runs on a client where the entry is
    already popped and the future already holds the result. *)
Theorem tool_result_resolves_before_observers
    (data : json) (event : BaseEvent) (p : ToolResultPayload) (fut : nat)
    (c : OblivionClient) :
  BaseEvent_model_validate data = Some event →
  ToolResultPayload_model_validate (payload event) = Some p →
  _pending_tools c !! request_id p = Some fut →
  futures c !! fut = Some FPending →
  let r := sio_on_tool_result data c in
  effects_of r
  = tool_result_log p :: SetResult fut p
      :: effects_of (observers p (resolved fut p c))
  ∧ state_of r = resolved fut p c
  ∧ _pending_tools (state_of r) !! request_id p = None
  ∧ futures (state_of r) !! fut = Some (FResult p)
  ∧ (∀ i j e1 e2,
       effects_of r !! i = Some e1 → is_SetResult e1 = true →
       effects_of r !! j = Some e2 → is_Called e2 = true → i < j)
  ∧ (∀ data' c' i j e1 e2,
       effects_of (sio_on_tool_result data' c') !! i = Some e1 → is_SetResult e1 = true →
       effects_of (sio_on_tool_result data' c') !! j = Some e2 → is_Called e2 = true →
       i < j).
Proof.
  intros He Hp Hl Hf r.
  assert (Hall : ∀ data' c' i j e1 e2,
       effects_of (sio_on_tool_result data' c') !! i = Some e1 → is_SetResult e1 = true →
       effects_of (sio_on_tool_result data' c') !! j = Some e2 → is_Called e2 = true →
       i < j).
  { intros data' c' i j e1 e2.
    destruct (sio_on_tool_result_split data' c') as (pre & post & E & Hpre & Hpost).
    rewrite E. apply resolution_precedes_calls; assumption. }
  assert (E : r = (outcome_of (observers p (resolved fut p c)), resolved fut p c,
             tool_result_log p :: SetResult fut p
               :: effects_of (observers p (resolved fut p c)))).
  { unfold r. rewrite (sio_on_tool_result_valid data event p c He Hp), Hl, Hf.
    reflexivity. }
  split; [rewrite E; reflexivity|].
  split; [rewrite E; reflexivity|].
  split; [rewrite E; unfold state_of, resolved; simpl; apply lookup_delete_eq|].
  split.
  { rewrite E. unfold state_of, resolved. simpl.
    apply list_lookup_insert_eq. eapply lookup_lt_Some; exact Hf. }
  split; [apply Hall|exact Hall].
Qed.

End ToolResult.

Lemma tool_result_resolves_before_observers_witness :
  let c := state_of (request_tool_send "2025-01-01T00:00:02" "r1" "search" "query"
                       [("q", JStr "x")] Calls.observed) in
  _pending_tools c !! "r1" = Some 0
  ∧ futures c !! 0 = Some FPending
  ∧ effects_of (sio_on_tool_result (PV := Strict.strict) (f_data Calls.answer) c)
    = [tool_result_log Calls.answer_payload;
       SetResult 0 Calls.answer_payload;
       Called TOOL_RESULT 0 (ArgToolResult Calls.answer_payload)].
Proof.
  intros c. split; [reflexivity|]. split; [reflexivity|].
  exact (proj1 (tool_result_resolves_before_observers (PV := Strict.strict)
                  (f_data Calls.answer)
                  {| type := TOOL_RESULT; payload := Sample.tool_result_r1;
                     timestamp := "2025-01-01T00:00:00Z" |}
                  Calls.answer_payload 0 c eq_refl eq_refl eq_refl eq_refl)).
Defined.

(** ** Frames that fail validation *)

Lemma EventType_of_value_value (k : EventType) :
  EventType_of_value (EventType_value k) = Some k.
Proof. destruct k; reflexivity. Qed.

Section Validation.

Context `{PV : Pydantic}.

(** The handler that Socket.IO runs for a frame named after an event kind. *)
Lemma sio_handler_of_kind (f : frame) (k : EventType) :
  f_event f = EventType_value k →
  sio_handler f
  = match k with
    | TASK_ASSIGNED => sio_on_task_assigned (f_data f)
    | CONTEXT_UPDATE => sio_on_context_update (f_data f)
    | WAKE_UP => sio_on_wake_up (f_data f)
    | TOOL_RESULT => sio_on_tool_result (f_data f)
    | HEARTBEAT => sio_on_heartbeat (f_utcnow f) (f_data f)
    | AGENT_READY | TOOL_REQUEST | STATUS_UPDATE => ret tt
    end.
Proof. intros E. unfold sio_handler. rewrite E. destruct k; reflexivity. Qed.

Lemma invalid_frame_raises (f : frame) (k : EventType) (c : OblivionClient) :
  f_event f = EventType_value k →
  validating_kind k = true →
  frame_schema_ok f = false →
  ∃ model, sio_handler f c = (Raise (ValidationError model), c, []).
Proof.
  intros E Hk Hbad. rewrite (sio_handler_of_kind f k E).
  unfold frame_schema_ok in Hbad. rewrite E, EventType_of_value_value in Hbad.
  destruct (BaseEvent_model_validate (f_data f)) as [event|] eqn:He.
  - destruct k; try discriminate Hk;
      unfold sio_on_task_assigned, sio_on_context_update, sio_on_wake_up,
        sio_on_tool_result; run; rewrite He; simpl;
      match type of Hbad with
      | accepted ?v = false => destruct v; [discriminate Hbad|]
      end; simpl; eexists; reflexivity.
  - destruct k; try discriminate Hk;
      unfold sio_on_task_assigned, sio_on_context_update, sio_on_wake_up,
        sio_on_tool_result; run; rewrite He; simpl; eexists; reflexivity.
Qed.

(** C3, as the code has it. A [task_assigned], [context_update], [wake_up]
    or [tool_result] frame whose envelope or payload fails validation is
    dropped: its handler raises the [ValidationError] before the log record
    and before any registered handler is called, the client is unchanged
    (the connection stays as it was), and the frames that follow are handled
    exactly as if the bad frame had not come. *)
Theorem invalid_frame_is_dropped
    (f : frame) (k : EventType) (rest : list frame) (c : OblivionClient) :
  f_event f = EventType_value k →
  validating_kind k = true →
  frame_schema_ok f = false →
  ∃ model,
    deliver f c = (Return tt, c, [TaskException (ValidationError model)])
    ∧ filter (λ e, is_Called e = true) (effects_of (deliver f c)) = []
    ∧ deliver_all (f :: rest) c
      = (Return tt, state_of (deliver_all rest c),
         TaskException (ValidationError model) :: effects_of (deliver_all rest c)).
Proof.
  intros E Hk Hbad.
  destruct (invalid_frame_raises f k c E Hk Hbad) as [model Hm].
  assert (Hd : deliver f c = (Return tt, c, [TaskException (ValidationError model)])).
  { unfold deliver, isolated. rewrite Hm. reflexivity. }
  exists model. split; [exact Hd|]. split; [rewrite Hd; reflexivity|].
  rewrite deliver_all_cons, Hd.
  change (state_of (Return tt, c, [TaskException (ValidationError model)])) with c.
  rewrite deliver_all_returns. reflexivity.
Qed.

End Validation.

(** *** Concrete frames *)

Lemma invalid_frame_is_dropped_witness :
  frame_schema_ok (PV := Strict.strict) BadFrames.empty_task = false
  ∧ ∃ model,
      deliver (PV := Strict.strict) BadFrames.empty_task Sample.online
      = (Return tt, Sample.online, [TaskException (ValidationError model)]).
Proof.
  split; [reflexivity|].
  destruct (invalid_frame_is_dropped (PV := Strict.strict) BadFrames.empty_task
              TASK_ASSIGNED [] Sample.online eq_refl eq_refl eq_refl) as (model & Hd & _).
  exists model. exact Hd.
Defined.

(** C3 as stated fails on heartbeat frames: the payload of this frame fails
    the [HeartbeatPayload] schema, yet the frame is answered with a heartbeat
    and no [ValidationError] is raised, because the heartbeat handler never
    looks at the data. *)
Lemma invalid_heartbeat_is_answered_counterexample :
  frame_schema_ok (PV := Strict.strict) BadFrames.empty_heartbeat = false
  ∧ effects_of (deliver (PV := Strict.strict) BadFrames.empty_heartbeat Sample.online)
    = [heartbeat_reply "2025-01-01T00:00:01"]
  ∧ ¬ dropped_with_ValidationError (PV := Strict.strict)
        BadFrames.empty_heartbeat Sample.online.
Proof.
  split; [reflexivity|]. split; [reflexivity|].
  intros [model Hd].
  change (deliver (PV := Strict.strict) BadFrames.empty_heartbeat Sample.online)
    with (deliver (PV := Strict.strict)
            (heartbeat_frame "2025-01-01T00:00:01" (f_data BadFrames.empty_heartbeat))
            Sample.online) in Hd.
  rewrite deliver_heartbeat in Hd. discriminate Hd.
Qed.

(** ** Handlers that raise *)

Lemma omap_id_fmap {A B} (g : A → option B) (l : list A) :
  omap id (g <$> l) = omap g l.
Proof.
  induction l as [|a l IH]; [reflexivity|].
  rewrite fmap_cons. cbn [omap list_omap]. rewrite IH. reflexivity.
Qed.

Section LoopCaught.

Context {P : Type} (kind : EventType) (arg : P → handler_arg) (errmsg : string).

(** When each handler returns or raises an [Exception], the loop calls all
    of them in order, logs one error per raising handler and returns. *)
Lemma for_each_handler_all_called (index : nat) (hs : list (handler P)) (p : P)
    (c : OblivionClient) :
  Forall caught ((λ h, h p) <$> hs) →
  let r := for_each_handler kind arg errmsg index hs p c in
  outcome_of r = Return tt
  ∧ call_indices (effects_of r) = (λ i, (kind, i)) <$> seq index (length hs)
  ∧ logged_errors (effects_of r) = omap (λ h, h p) hs
  ∧ task_exceptions (effects_of r) = [].
Proof.
  revert index. induction hs as [|h rest IH]; intros index Hall.
  - repeat split; reflexivity.
  - rewrite fmap_cons in Hall. apply Forall_cons in Hall as [Hh Hrest].
    specialize (IH (S index) Hrest). cbv zeta in IH.
    destruct IH as (I1 & I2 & I3 & I4).
    cbv zeta. rewrite for_each_handler_cons.
    destruct (for_each_handler kind arg errmsg (S index) rest p c) as [[o c2] t].
    unfold outcome_of, effects_of in *. simpl in I1, I2, I3, I4. subst o.
    destruct (h p) as [e|] eqn:Hhp.
    + rewrite (Hh e eq_refl). simpl. rewrite I2, I3, I4, Hhp. repeat split.
    + simpl. rewrite I2, I3, I4, Hhp. repeat split.
Qed.

End LoopCaught.

Section Handlers.

Context `{PV : Pydantic}.

(** C4, as the code has it. On a valid [task_assigned], [context_update],
    [wake_up] or [tool_result] frame, when every registered handler either
    returns or raises an instance of [Exception], each raise is caught and
    logged and the dispatch goes on: all the handlers registered for the
    kind are called, in registration order; the errors logged are those
    raised, in order; no exception leaves the frame's handler; the
    connection flags are untouched; and the next frames are handled from the
    state this frame left. This holds of every client and every such frame
    but one case: a [tool_result] that answers a request of the dict whose
    future is already done, where [set_result] raises ahead of the loop;
    [own_future_pending] leaves that case, and only that one, out. *)
Theorem raising_handler_is_isolated
    (f : frame) (k : EventType) (rest : list frame) (c : OblivionClient) :
  f_event f = EventType_value k →
  validating_kind k = true →
  frame_schema_ok f = true →
  Forall caught (handler_outcomes f c) →
  own_future_pending f c →
  let r := deliver f c in
  outcome_of r = Return tt
  ∧ length (handler_outcomes f c) = registered k c
  ∧ call_indices (effects_of r) = (λ i, (k, i)) <$> seq 0 (registered k c)
  ∧ logged_errors (effects_of r) = omap id (handler_outcomes f c)
  ∧ task_exceptions (effects_of r) = []
  ∧ _connected (state_of r) = _connected c
  ∧ sio_connected (state_of r) = sio_connected c
  ∧ effects_of (deliver_all (f :: rest) c)
    = effects_of r ++ effects_of (deliver_all rest (state_of r)).
Proof.
  intros E Hk Hok Hall Hquiet r.
  assert (Hmain : outcome_of r = Return tt
    ∧ length (handler_outcomes f c) = registered k c
    ∧ call_indices (effects_of r) = (λ i, (k, i)) <$> seq 0 (registered k c)
    ∧ logged_errors (effects_of r) = omap id (handler_outcomes f c)
    ∧ task_exceptions (effects_of r) = []
    ∧ _connected (state_of r) = _connected c
    ∧ sio_connected (state_of r) = sio_connected c).
  2:{ destruct Hmain as (M1 & M2 & M3 & M4 & M5 & M6 & M7).
      repeat (split; [assumption|]). unfold r. rewrite deliver_all_cons. reflexivity. }
  unfold r in *. clear r. unfold deliver, isolated.
  rewrite (sio_handler_of_kind f k E).
  unfold frame_schema_ok in Hok. unfold handler_outcomes in *.
  rewrite E, EventType_of_value_value in *.
  destruct (BaseEvent_model_validate (f_data f)) as [event|] eqn:He; [|discriminate Hok].
  destruct k; try discriminate Hk.
  - destruct (TaskAssignedPayload_model_validate (payload event)) as [p|] eqn:Hp;
      [|discriminate Hok].
    pose proof (for_each_handler_all_called TASK_ASSIGNED ArgTask "Task handler error"
                  0 (_task_handlers c) p c Hall) as (L1 & L2 & L3 & L4).
    pose proof (for_each_handler_state TASK_ASSIGNED ArgTask "Task handler error"
                  0 (_task_handlers c) p c) as Ls.
    unfold sio_on_task_assigned. run. rewrite He. simpl. rewrite Hp. simpl.
    destruct (for_each_handler _ _ _ _ _ _ _) as [[o c2] t].
    simpl in *. subst o c2. simpl.
    rewrite length_fmap, omap_id_fmap. repeat split; assumption.
  - destruct (ContextUpdatePayload_model_validate (payload event)) as [p|] eqn:Hp;
      [|discriminate Hok].
    pose proof (for_each_handler_all_called CONTEXT_UPDATE ArgContext "Context handler error"
                  0 (_context_handlers c) p c Hall) as (L1 & L2 & L3 & L4).
    pose proof (for_each_handler_state CONTEXT_UPDATE ArgContext "Context handler error"
                  0 (_context_handlers c) p c) as Ls.
    unfold sio_on_context_update. run. rewrite He. simpl. rewrite Hp. simpl.
    destruct (for_each_handler _ _ _ _ _ _ _) as [[o c2] t].
    simpl in *. subst o c2. simpl.
    rewrite length_fmap, omap_id_fmap. repeat split; assumption.
  - destruct (WakeUpPayload_model_validate (payload event)) as [p|] eqn:Hp;
      [|discriminate Hok].
    pose proof (for_each_handler_all_called WAKE_UP ArgWakeUp "Wake-up handler error"
                  0 (_wakeup_handlers c) p c Hall) as (L1 & L2 & L3 & L4).
    pose proof (for_each_handler_state WAKE_UP ArgWakeUp "Wake-up handler error"
                  0 (_wakeup_handlers c) p c) as Ls.
    unfold sio_on_wake_up. run. rewrite He. simpl. rewrite Hp. simpl.
    destruct (for_each_handler _ _ _ _ _ _ _) as [[o c2] t].
    simpl in *. subst o c2. simpl.
    rewrite length_fmap, omap_id_fmap. repeat split; assumption.
  - destruct (ToolResultPayload_model_validate (payload event)) as [p|] eqn:Hp;
      [|discriminate Hok].
    rewrite (sio_on_tool_result_valid (f_data f) event p c He Hp).
    rewrite length_fmap, omap_id_fmap.
    destruct (_pending_tools c !! request_id p) as [fut|] eqn:Hl.
    + assert (Ha : answers (request_id p) f = true).
      { unfold answers. rewrite E, String.eqb_refl, He, Hp, String.eqb_refl. reflexivity. }
      rewrite (Hquiet _ _ Ha Hl).
      pose proof (for_each_handler_all_called TOOL_RESULT ArgToolResult
                    "Tool result handler error" 0 (_tool_result_handlers c) p
                    (resolved fut p c) Hall) as (L1 & L2 & L3 & L4).
      unfold observers. simpl.
      destruct (for_each_handler _ _ _ _ _ _ _) as [[o c2] t].
      unfold outcome_of, effects_of, state_of in *. simpl in *. subst o. simpl.
      repeat split; assumption.
    + pose proof (for_each_handler_all_called TOOL_RESULT ArgToolResult
                    "Tool result handler error" 0 (_tool_result_handlers c) p
                    c Hall) as (L1 & L2 & L3 & L4).
      unfold observers.
      destruct (for_each_handler _ _ _ _ _ _ _) as [[o c2] t].
      unfold outcome_of, effects_of, state_of in *. simpl in *. subst o. simpl.
      repeat split; assumption.
Qed.

End Handlers.

(** *** Concrete handler lists *)

Lemma raising_handler_is_isolated_witness :
  handler_outcomes (PV := Strict.strict) Calls.answer Calls.failing_observer_waiting
  = [Some (OtherException "RuntimeError" "boom"); None]
  ∧ own_future_pending (PV := Strict.strict) Calls.answer Calls.failing_observer_waiting
  ∧ call_indices
      (effects_of (deliver (PV := Strict.strict) Calls.answer
                     Calls.failing_observer_waiting))
    = [(TOOL_RESULT, 0); (TOOL_RESULT, 1)].
Proof.
  assert (Hown : own_future_pending (PV := Strict.strict) Calls.answer
                   Calls.failing_observer_waiting).
  { intros rid fut Ha Hl.
    assert (Hr : rid = "r1").
    { change (String.eqb "r1" rid = true) in Ha. apply String.eqb_eq in Ha.
      symmetry. exact Ha. }
    subst rid.
    assert (Hk : _pending_tools Calls.failing_observer_waiting !! "r1" = Some 0)
      by reflexivity.
    rewrite Hk in Hl. injection Hl as <-. reflexivity. }
  split; [reflexivity|]. split; [exact Hown|].
  refine (proj1 (proj2 (proj2
    (raising_handler_is_isolated (PV := Strict.strict) Calls.answer TOOL_RESULT []
       Calls.failing_observer_waiting eq_refl eq_refl eq_refl _ Hown)))).
  change (Forall caught [Some (OtherException "RuntimeError" "boom"); None]).
  repeat constructor; intros e He; inversion He; reflexivity.
Defined.

(** C4 as stated fails for a handler that raises outside [Exception]: the
    first handler raises [SystemExit], which [except Exception] does not
    catch; nothing is logged, the exception leaves the frame's handler, and
    the second registered handler is never called. *)
Lemma uncaught_raise_stops_siblings_counterexample :
  let t := effects_of (deliver (PV := Strict.strict) Registered.task
                         Registered.exiting_then_quiet) in
  registered TASK_ASSIGNED Registered.exiting_then_quiet = 2
  ∧ call_indices t = [(TASK_ASSIGNED, 0)]
  ∧ logged_errors t = []
  ∧ task_exceptions t = [OtherBaseException "SystemExit"].
Proof. repeat split; reflexivity. Qed.

(** ** The pending-request registry while a call waits *)

Lemma bind_run {A B} (m : M A) (k : A → M B) (c : OblivionClient) :
  bind m k c
  = match outcome_of (m c) with
    | Return a =>
        let r2 := k a (state_of (m c)) in
        (outcome_of r2, state_of r2, effects_of (m c) ++ effects_of r2)
    | Raise e => (Raise e, state_of (m c), effects_of (m c))
    end.
Proof.
  unfold bind, outcome_of, state_of, effects_of.
  destruct (m c) as [[[a|e] c1] t1]; simpl; [|reflexivity].
  destruct (k a c1) as [[o c2] t2]; reflexivity.
Qed.

Section Registry.

Context `{PV : Pydantic}.

Lemma sio_on_connected_registry (utcnow : string) (data : json) (c : OblivionClient) :
  _pending_tools (state_of (sio_on_connected utcnow data c)) = _pending_tools c
  ∧ futures (state_of (sio_on_connected utcnow data c)) = futures c.
Proof.
  unfold sio_on_connected, _send_agent_ready. run.
  destruct (ConnectedResponse_model_validate data); split; reflexivity.
Qed.

Lemma sio_on_task_assigned_state (data : json) (c : OblivionClient) :
  state_of (sio_on_task_assigned data c) = c.
Proof.
  unfold sio_on_task_assigned. run.
  destruct (BaseEvent_model_validate data) as [event|]; [|reflexivity]. simpl.
  destruct (TaskAssignedPayload_model_validate (payload event)) as [p|]; [|reflexivity].
  simpl.
  pose proof (for_each_handler_state TASK_ASSIGNED ArgTask "Task handler error"
                0 (_task_handlers c) p c) as Ls.
  destruct (for_each_handler _ _ _ _ _ _ _) as [[o c2] t]. exact Ls.
Qed.

Lemma sio_on_context_update_state (data : json) (c : OblivionClient) :
  state_of (sio_on_context_update data c) = c.
Proof.
  unfold sio_on_context_update. run.
  destruct (BaseEvent_model_validate data) as [event|]; [|reflexivity]. simpl.
  destruct (ContextUpdatePayload_model_validate (payload event)) as [p|]; [|reflexivity].
  simpl.
  pose proof (for_each_handler_state CONTEXT_UPDATE ArgContext "Context handler error"
                0 (_context_handlers c) p c) as Ls.
  destruct (for_each_handler _ _ _ _ _ _ _) as [[o c2] t]. exact Ls.
Qed.

Lemma sio_on_wake_up_state (data : json) (c : OblivionClient) :
  state_of (sio_on_wake_up data c) = c.
Proof.
  unfold sio_on_wake_up. run.
  destruct (BaseEvent_model_validate data) as [event|]; [|reflexivity]. simpl.
  destruct (WakeUpPayload_model_validate (payload event)) as [p|]; [|reflexivity].
  simpl.
  pose proof (for_each_handler_state WAKE_UP ArgWakeUp "Wake-up handler error"
                0 (_wakeup_handlers c) p c) as Ls.
  destruct (for_each_handler _ _ _ _ _ _ _) as [[o c2] t]. exact Ls.
Qed.

Lemma isolated_state (m : M unit) (c : OblivionClient) :
  state_of (isolated m c) = state_of (m c).
Proof. unfold isolated, state_of. destruct (m c) as [[[[]|e] c1] t1]; reflexivity. Qed.

(** What handling one frame does to the registry: nothing, or, for a valid
    [tool_result] whose id is in the dict, the entry is popped and the
    future, if it was pending, gets the result. *)
Lemma deliver_registry (f : frame) (c : OblivionClient) :
  let c' := state_of (deliver f c) in
  (_pending_tools c' = _pending_tools c ∧ futures c' = futures c)
  ∨ ∃ p fut,
      answers (request_id p) f = true
      ∧ _pending_tools c !! request_id p = Some fut
      ∧ _pending_tools c' = delete (request_id p) (_pending_tools c)
      ∧ (futures c' = futures c ∨ futures c' = <[fut := FResult p]> (futures c)).
Proof.
  cbv zeta. unfold deliver. rewrite isolated_state. unfold sio_handler, answers.
  destruct (String.eqb (f_event f) "connected");
    [left; apply sio_on_connected_registry|].
  destruct (String.eqb (f_event f) (EventType_value TASK_ASSIGNED));
    [left; rewrite sio_on_task_assigned_state; split; reflexivity|].
  destruct (String.eqb (f_event f) (EventType_value CONTEXT_UPDATE));
    [left; rewrite sio_on_context_update_state; split; reflexivity|].
  destruct (String.eqb (f_event f) (EventType_value WAKE_UP));
    [left; rewrite sio_on_wake_up_state; split; reflexivity|].
  destruct (String.eqb (f_event f) (EventType_value TOOL_RESULT)).
  2:{ left. destruct (String.eqb (f_event f) (EventType_value HEARTBEAT));
        split; reflexivity. }
  destruct (BaseEvent_model_validate (f_data f)) as [event|] eqn:He.
  2:{ left. destruct (sio_on_tool_result_invalid (f_data f) c) as [m Hm];
        [left; exact He|]. rewrite Hm. split; reflexivity. }
  destruct (ToolResultPayload_model_validate (payload event)) as [p|] eqn:Hp.
  2:{ left. destruct (sio_on_tool_result_invalid (f_data f) c) as [m Hm];
        [right; eauto|]. rewrite Hm. split; reflexivity. }
  rewrite (sio_on_tool_result_valid (f_data f) event p c He Hp).
  destruct (_pending_tools c !! request_id p) as [fut|] eqn:Hl;
    [|left; split; reflexivity].
  right. exists p, fut. rewrite String.eqb_refl.
  split; [reflexivity|]. split; [exact Hl|].
  destruct (futures c !! fut) as [[| |]|]; (split; [reflexivity|]);
    first [left; reflexivity | right; reflexivity].
Qed.

Lemma deliver_keeps_held (rid : string) (fut : nat) (st : Future) (f : frame)
    (c : OblivionClient) :
  answers rid f = false →
  held rid fut st c →
  held rid fut st (state_of (deliver f c)).
Proof.
  intros Hna (H1 & H2 & H3).
  destruct (deliver_registry f c) as [[Ep Ef]|(p & fut' & Ha & Hl & Ep & Ef)].
  - unfold held. rewrite Ep, Ef. auto.
  - assert (Hne : request_id p ≠ rid) by (intros Heq; rewrite Heq in Ha; congruence).
    assert (Hfne : fut' ≠ fut) by (intros ->; apply Hne; eapply H3; eauto).
    unfold held. rewrite Ep. split; [rewrite lookup_delete_ne by exact Hne; exact H1|].
    split.
    + destruct Ef as [-> | ->]; [exact H2|].
      rewrite list_lookup_insert_ne by exact Hfne. exact H2.
    + intros k v Hk Hv. apply (H3 k v); [|exact Hv].
      apply lookup_delete_Some in Hk. tauto.
Qed.

Lemma deliver_all_keeps_held (rid : string) (fut : nat) (st : Future)
    (fs : list frame) (c : OblivionClient) :
  Forall (λ f, answers rid f = false) fs →
  held rid fut st c →
  held rid fut st (state_of (deliver_all fs c)).
Proof.
  revert c. induction fs as [|f rest IH]; intros c Hall Hh; [exact Hh|].
  apply Forall_cons in Hall as [Hf Hrest].
  rewrite deliver_all_cons. apply IH; [exact Hrest|].
  apply deliver_keeps_held; assumption.
Qed.

(** Handling frames never adds an entry to the dict. *)
Lemma deliver_all_shrinks (fs : list frame) (c : OblivionClient) :
  _pending_tools (state_of (deliver_all fs c)) ⊆ _pending_tools c.
Proof.
  revert c. induction fs as [|f rest IH]; intros c; [reflexivity|].
  rewrite deliver_all_cons. etrans; [apply IH|].
  destruct (deliver_registry f c) as [[Ep Ef]|(p & fut' & Ha & Hl & Ep & Ef)];
    rewrite Ep; [reflexivity|apply delete_subseteq].
Qed.

(** [registry_wf] holds of a new client and is kept by every step that
    touches the registry. *)
Lemma registry_wf_init (url cid secret : string) (caps : option (list string))
    (ver : string) (auto : bool) (delay : json) :
  registry_wf (OblivionClient_init url cid secret caps ver auto delay).
Proof. intros rid fut Hl. simpl in Hl. rewrite lookup_empty in Hl. discriminate Hl. Qed.

Lemma registry_wf_deliver (f : frame) (c : OblivionClient) :
  registry_wf c → registry_wf (state_of (deliver f c)).
Proof.
  intros Hwf rid fut.
  destruct (deliver_registry f c) as [[Ep Ef]|(p & fut' & Ha & Hl & Ep & Ef)];
    rewrite Ep.
  - rewrite Ef. apply Hwf.
  - intros Hd. apply lookup_delete_Some in Hd as [_ Hd].
    destruct Ef as [-> | ->]; [|rewrite length_insert]; eapply Hwf; exact Hd.
Qed.

Lemma registry_wf_request_tool_send (utcnow rid tool action : string)
    (params : list (string * json)) (c : OblivionClient) :
  registry_wf c →
  registry_wf (state_of (request_tool_send utcnow rid tool action params c)).
Proof.
  intros Hwf k v. unfold state_of. simpl. rewrite length_app. simpl.
  destruct (decide (rid = k)) as [->|Hne].
  - rewrite lookup_insert_eq. intros [= <-]. lia.
  - rewrite lookup_insert_ne by exact Hne. intros Hk. apply Hwf in Hk. lia.
Qed.

Lemma registry_wf_wait_for_expire (fut : nat) (c : OblivionClient) :
  registry_wf c → registry_wf (state_of (wait_for_expire fut c)).
Proof.
  intros Hwf k v. unfold wait_for_expire. run.
  destruct (futures c !! fut) as [[| |]|]; simpl; try apply Hwf.
  rewrite length_insert. apply Hwf.
Qed.

Lemma registry_wf_request_tool_resume (rid : string) (fut : nat) (c : OblivionClient) :
  registry_wf c → registry_wf (state_of (request_tool_resume rid fut c)).
Proof.
  intros Hwf k v. unfold request_tool_resume. run.
  destruct (futures c !! fut) as [[| |]|]; simpl; try apply Hwf.
  intros Hd. apply lookup_delete_Some in Hd as [_ Hd]. eapply Hwf; exact Hd.
Qed.

Lemma registry_wf_deliver_all (fs : list frame) (c : OblivionClient) :
  registry_wf c → registry_wf (state_of (deliver_all fs c)).
Proof.
  revert c. induction fs as [|f rest IH]; intros c Hwf; [exact Hwf|].
  rewrite deliver_all_cons. apply IH, registry_wf_deliver, Hwf.
Qed.

(** [connect] leaves the registry alone, however it ends. *)
Lemma connect_registry (answer : http_result) (handshake_ok : bool) (c : OblivionClient) :
  _pending_tools (state_of (connect answer handshake_ok c)) = _pending_tools c
  ∧ futures (state_of (connect answer handshake_ok c)) = futures c.
Proof.
  unfold connect, _authenticate, access_token, sio_connect. run.
  destruct answer as [status_code body|]; simpl; [|split; reflexivity].
  destruct (is_success status_code); simpl; [|split; reflexivity].
  destruct body as [[| | | | | |fields]|]; simpl; try (split; reflexivity).
  destruct (obj_get "accessToken" fields); simpl; [|split; reflexivity].
  destruct (sio_connected c); simpl; [split; reflexivity|].
  destruct handshake_ok; split; reflexivity.
Qed.

Lemma try_except_connect_registry (a : attempt) (c : OblivionClient) :
  let r := try_except (connect (at_answer a) (at_handshake_ok a)) is_Exception
             (fun e => log LvError "Reconnection failed" [("error", LStrOf e)]) c in
  outcome_of r = Return tt
  ∧ _pending_tools (state_of r) = _pending_tools c
  ∧ futures (state_of r) = futures c.
Proof.
  cbv zeta. destruct (connect_registry (at_answer a) (at_handshake_ok a) c) as [Ep Ef].
  unfold try_except, log, act.
  destruct (connect (at_answer a) (at_handshake_ok a) c) as [[[[]|e] c1] t1] eqn:Ec;
    unfold state_of, outcome_of in *; simpl in *.
  - auto.
  - assert (He : is_Exception e = true).
    { revert Ec. unfold connect, _authenticate, access_token, sio_connect. run.
      destruct (at_answer a) as [status_code body|]; simpl.
      2:{ intros [= <- _ _]. reflexivity. }
      destruct (is_success status_code); simpl.
      2:{ intros [= <- _ _]. reflexivity. }
      destruct body as [[| | | | | |fields]|]; simpl;
        try (intros [= <- _ _]; reflexivity).
      destruct (obj_get "accessToken" fields); simpl;
        [|intros [= <- _ _]; reflexivity].
      destruct (sio_connected c); simpl; [intros [= <- _ _]; reflexivity|].
      destruct (at_handshake_ok a); simpl; [discriminate|].
      intros [= <- _ _]. reflexivity. }
    rewrite He. simpl. auto.
Qed.

Lemma reconnect_registry_wf (script : list attempt) (c : OblivionClient) :
  registry_wf c → registry_wf (state_of (_reconnect script c)).
Proof.
  revert c. induction script as [|a rest IH]; intros c Hwf.
  - simpl. destruct (_should_run c && negb (_connected c)); exact Hwf.
  - cbn [_reconnect]. destruct (_should_run c && negb (_connected c)); [|exact Hwf].
    unfold mbind, M_bind. rewrite bind_run. cbv zeta.
    change (outcome_of (log LvInfo "Attempting reconnection"
              [("delay", LJson (reconnect_delay c))] c)) with (Return tt).
    cbv iota beta.
    change (state_of (log LvInfo "Attempting reconnection"
              [("delay", LJson (reconnect_delay c))] c)) with c.
    rewrite bind_run.
    change (outcome_of (act (Slept (reconnect_delay c)) c)) with (Return tt).
    cbv iota beta zeta.
    change (state_of (act (Slept (reconnect_delay c)) c)) with c.
    rewrite bind_run.
    destruct (try_except_connect_registry a c) as (Ho & Ep & Ef).
    rewrite Ho. cbv iota beta zeta.
    set (c1 := state_of (try_except _ _ _ c)) in *.
    assert (Hwf1 : registry_wf c1).
    { intros k v. rewrite Ep, Ef. apply Hwf. }
    rewrite bind_run, deliver_all_returns. cbv iota beta zeta.
    unfold state_of at 1. cbn [fst snd].
    apply IH, registry_wf_deliver_all, Hwf1.
Qed.

(** When the handler of the [disconnect] event has returned, the transport
    flag is reset. *)
Lemma transport_lost_state (script : list attempt) (c : OblivionClient) :
  state_of (transport_lost script c)
  = set_sio_connected false (state_of (sio_on_disconnect script c)).
Proof.
  unfold transport_lost, mbind, M_bind. rewrite bind_run, isolated_returns.
  cbv zeta. unfold state_of at 1. cbn [fst snd]. rewrite isolated_state. reflexivity.
Qed.

(** Every step keeps [registry_wf], so it holds of every client there is. *)
Lemma registry_wf_step (A : Type) (m : M A) (c : OblivionClient) :
  step A m → registry_wf c → registry_wf (state_of (m c)).
Proof.
  intros Hm Hwf. destruct Hm.
  - intros k v. destruct (connect_registry answer handshake_ok c) as [-> ->]. apply Hwf.
  - intros k v. destruct (disconnect_keeps_pending c) as [-> ->]. apply Hwf.
  - rewrite transport_lost_state.
    assert (Hd : registry_wf (state_of (sio_on_disconnect script c))).
    { unfold sio_on_disconnect. run.
      destruct (auto_reconnect c && _should_run c); simpl; [|exact Hwf].
      pose proof (reconnect_registry_wf script (set_connected false c) Hwf) as Hr.
      destruct (_reconnect script _) as [[o c2] t2]. exact Hr. }
    exact Hd.
  - apply registry_wf_deliver, Hwf.
  - exact Hwf.
  - exact Hwf.
  - exact Hwf.
  - exact Hwf.
  - unfold update_status, to_AgentStatus. run.
    destruct status as [member|s]; simpl; [exact Hwf|].
    destruct (AgentStatus_of_value s); exact Hwf.
  - exact Hwf.
  - apply registry_wf_request_tool_send, Hwf.
  - apply registry_wf_wait_for_expire, Hwf.
  - apply registry_wf_request_tool_resume, Hwf.
Qed.

Lemma reachable_registry_wf (c : OblivionClient) : reachable c → registry_wf c.
Proof.
  induction 1 as [url cid secret caps ver auto delay|A m c Hc IH Hm].
  - apply registry_wf_init.
  - apply registry_wf_step; assumption.
Qed.

(** *** The three parts of [request_tool] *)

Lemma request_tool_send_run (utcnow rid tool action : string)
    (params : list (string * json)) (c : OblivionClient) :
  request_tool_send utcnow rid tool action params c
  = (Return (length (futures c)), registered_request rid c,
     [tool_request_frame utcnow rid tool action params]).
Proof. reflexivity. Qed.

Lemma registered_request_held (rid : string) (c : OblivionClient) :
  registry_wf c →
  held rid (length (futures c)) FPending (registered_request rid c).
Proof.
  intros Hwf. unfold held, registered_request. simpl.
  split; [apply lookup_insert_eq|].
  split; [apply list_lookup_middle; reflexivity|].
  intros k v Hk ->. destruct (decide (k = rid)) as [E|Hne]; [exact E|].
  rewrite lookup_insert_ne in Hk by congruence.
  apply Hwf in Hk. lia.
Qed.

Lemma wait_for_expire_pending (rid : string) (fut : nat) (c : OblivionClient) :
  held rid fut FPending c →
  wait_for_expire fut c
  = (Return tt, set_futures (<[fut := FCancelled]> (futures c)) c, [CancelledFuture fut])
  ∧ held rid fut FCancelled (set_futures (<[fut := FCancelled]> (futures c)) c).
Proof.
  intros (H1 & H2 & H3). split.
  - unfold wait_for_expire. run. rewrite H2. reflexivity.
  - unfold held. simpl. split; [exact H1|]. split; [|exact H3].
    apply list_lookup_insert_eq. eapply lookup_lt_Some; exact H2.
Qed.

Lemma request_tool_resume_cancelled (rid : string) (fut : nat) (c : OblivionClient) :
  held rid fut FCancelled c →
  request_tool_resume rid fut c
  = (Return (Some (timed_out rid)),
     set_pending_tools (delete rid (_pending_tools c)) c, []).
Proof.
  intros (H1 & H2 & H3). unfold request_tool_resume. run. rewrite H2. reflexivity.
Qed.

(** C2, as the code has it. A call of [request_tool] made while the
    namespace is connected, and during which no valid [tool_result] for its
    request id is handled (other frames may be), does not raise: when the
    timeout elapses it returns
    [ToolResultPayload(request_id, success=False, error="Tool request timed out")]
    and its entry is out of the pending-request dict, which holds nothing
    that it did not hold before the call; a dict that was empty is empty
    again. ([registry_wf] holds of every client there is, by
    [reachable_registry_wf].) *)
Theorem request_tool_times_out
    (utcnow rid tool action : string) (params : list (string * json))
    (before window : list frame) (c : OblivionClient) :
  transport_up c →
  registry_wf c →
  Forall (λ f, answers rid f = false) before →
  Forall (λ f, answers rid f = false) window →
  let r := request_tool utcnow rid tool action params before window c in
  outcome_of r
  = Return (Some {| request_id := rid; success := false; result := None;
                    error := Some "Tool request timed out" |})
  ∧ _pending_tools (state_of r) !! rid = None
  ∧ _pending_tools (state_of r) ⊆ delete rid (_pending_tools c)
  ∧ (_pending_tools c = ∅ → size (_pending_tools (state_of r)) = 0).
Proof.
  intros _ Hwf Hb Hw r.
  pose proof (registered_request_held rid c Hwf) as Hh1.
  set (fut := length (futures c)) in *.
  set (c1 := registered_request rid c) in *.
  pose proof (deliver_all_keeps_held rid fut FPending before c1 Hb Hh1) as Hh2.
  pose proof (deliver_all_shrinks before c1) as Hs2.
  set (c2 := state_of (deliver_all before c1)) in *.
  destruct (wait_for_expire_pending rid fut c2 Hh2) as [Ex Hh3].
  set (c3 := set_futures (<[fut := FCancelled]> (futures c2)) c2) in *.
  pose proof (deliver_all_keeps_held rid fut FCancelled window c3 Hw Hh3) as Hh4.
  pose proof (deliver_all_shrinks window c3) as Hs4.
  set (c4 := state_of (deliver_all window c3)) in *.
  pose proof (request_tool_resume_cancelled rid fut c4 Hh4) as Er.
  assert (E : r = (Return (Some (timed_out rid)),
                   set_pending_tools (delete rid (_pending_tools c4)) c4,
                   effects_of r)).
  { unfold r, request_tool. unfold mbind, M_bind.
    rewrite bind_run, request_tool_send_run.
    cbn [outcome_of state_of effects_of fst snd]. cbv zeta.
    rewrite bind_run, deliver_all_returns. cbv zeta.
    rewrite bind_run. fold c1 c2 fut.
    change (outcome_of (get futures c2)) with (Return (futures c2)).
    change (state_of (get futures c2)) with c2. cbv zeta.
    destruct Hh2 as (_ & Hf2 & _). rewrite Hf2.
    rewrite bind_run. rewrite Ex.
    cbn [outcome_of state_of effects_of fst snd]. cbv zeta.
    rewrite bind_run, deliver_all_returns. cbv zeta. fold c3 c4.
    rewrite Er. reflexivity. }
  rewrite E. unfold outcome_of, state_of. cbn [fst snd _pending_tools set_pending_tools].
  split; [reflexivity|]. split; [apply lookup_delete_eq|].
  assert (Hsub : delete rid (_pending_tools c4) ⊆ delete rid (_pending_tools c)).
  { assert (H14 : _pending_tools c4 ⊆ _pending_tools c1).
    { etrans; [exact Hs4|]. exact Hs2. }
    etrans; [apply delete_mono; exact H14|].
    unfold c1, registered_request. simpl. rewrite delete_insert_eq. reflexivity. }
  split; [exact Hsub|].
  intros Hempty. rewrite Hempty, delete_empty in Hsub.
  assert (Hz : delete rid (_pending_tools c4) = ∅).
  { apply map_empty. intros k. eapply lookup_weaken_None; [|exact Hsub].
    apply lookup_empty. }
  rewrite Hz. apply map_size_empty.
Qed.

(** C6, as the code has it. [disconnect] does not touch the pending
    requests: the dict and the futures are the same after it. A request that
    was waiting is still waiting, and stays so whatever frames are handled
    afterwards, as long as none of them is a valid [tool_result] for its id
    (its coroutine cannot continue); it then ends when its own timeout
    elapses, which returns the timed-out failure and removes the entry. *)
Theorem disconnect_leaves_pending_requests
    (request_id : string) (future : nat) (afterwards : list frame) (c : OblivionClient) :
  held request_id future FPending c →
  Forall (λ f, answers request_id f = false) afterwards →
  let c1 := state_of (disconnect c) in
  let c2 := state_of (deliver_all afterwards c1) in
  _pending_tools c1 = _pending_tools c
  ∧ futures c1 = futures c
  ∧ held request_id future FPending c2
  ∧ outcome_of (request_tool_resume request_id future c2) = Return None
  ∧ let r := (wait_for_expire future;; request_tool_resume request_id future) c2 in
    outcome_of r = Return (Some (timed_out request_id))
    ∧ _pending_tools (state_of r) = delete request_id (_pending_tools c2).
Proof.
  intros Hh Hn c1 c2.
  destruct (disconnect_keeps_pending c) as [Ep Ef]. fold c1 in Ep, Ef.
  assert (Hh1 : held request_id future FPending c1).
  { unfold held in *. rewrite Ep, Ef. exact Hh. }
  pose proof (deliver_all_keeps_held request_id future FPending afterwards c1 Hn Hh1)
    as Hh2.
  fold c2 in Hh2.
  split; [exact Ep|]. split; [exact Ef|]. split; [exact Hh2|].
  split.
  - destruct Hh2 as (_ & Hf2 & _). unfold request_tool_resume. run. rewrite Hf2.
    reflexivity.
  - destruct (wait_for_expire_pending request_id future c2 Hh2) as [Ex Hh3].
    pose proof (request_tool_resume_cancelled request_id future _ Hh3) as Er.
    cbv zeta. unfold mbind, M_bind. rewrite bind_run, Ex.
    cbn [outcome_of state_of effects_of fst snd]. cbv zeta. rewrite Er.
    split; reflexivity.
Qed.

End Registry.

(** *** Concrete calls of [request_tool] *)

Lemma request_tool_times_out_witness :
  transport_up Sample.online
  ∧ Forall (λ f, answers (PV := Strict.strict) "r1" f = false)
      [heartbeat_frame "2025-01-01T00:00:03" JNull]
  ∧ outcome_of (Calls.search [heartbeat_frame "2025-01-01T00:00:03" JNull] []
                  Sample.online)
    = Return (Some {| request_id := "r1"; success := false; result := None;
                      error := Some "Tool request timed out" |}).
Proof.
  assert (Hb : Forall (λ f, answers (PV := Strict.strict) "r1" f = false)
                 [heartbeat_frame "2025-01-01T00:00:03" JNull])
    by (repeat constructor).
  split; [reflexivity|]. split; [exact Hb|].
  refine (proj1 (request_tool_times_out (PV := Strict.strict) "2025-01-01T00:00:02" "r1"
                   "search" "query" [("q", JStr "x")]
                   [heartbeat_frame "2025-01-01T00:00:03" JNull] [] Sample.online
                   eq_refl _ Hb (Forall_nil_2 _))).
  intros rid fut Hl.
  change (_pending_tools Sample.online) with (∅ : gmap string nat) in Hl.
  rewrite lookup_empty in Hl. discriminate Hl.
Defined.

(** C2 as stated fails on the text of the error: a call that nothing answers
    returns a failure whose [error] is ["Tool request timed out"], not
    ["timed out"]. *)
Lemma timeout_error_text_counterexample :
  ∃ p, outcome_of (Calls.search [] [] Sample.online) = Return (Some p)
       ∧ success p = false
       ∧ error p = Some "Tool request timed out"
       ∧ error p ≠ Some "timed out".
Proof.
  exists (timed_out "r1"). repeat split; try reflexivity. discriminate.
Qed.

(** *** A request that waits across [disconnect] *)

Lemma online_registry_wf : registry_wf Sample.online.
Proof.
  intros rid fut Hl.
  change (_pending_tools Sample.online) with (∅ : gmap string nat) in Hl.
  rewrite lookup_empty in Hl. discriminate Hl.
Qed.

Lemma disconnect_leaves_pending_requests_witness :
  held "r1" 0 FPending Sample.waiting
  ∧ Forall (λ f, answers (PV := Strict.strict) "r1" f = false) [Registered.task]
  ∧ held "r1" 0 FPending
      (state_of (deliver_all (PV := Strict.strict) [Registered.task]
                   (state_of (disconnect (PV := Strict.strict) Sample.waiting)))).
Proof.
  assert (Hh : held "r1" 0 FPending Sample.waiting)
    by exact (registered_request_held "r1" Sample.online online_registry_wf).
  assert (Hn : Forall (λ f, answers (PV := Strict.strict) "r1" f = false)
                 [Registered.task]) by (repeat constructor).
  split; [exact Hh|]. split; [exact Hn|].
  exact (proj1 (proj2 (proj2
    (disconnect_leaves_pending_requests (PV := Strict.strict) "r1" 0 [Registered.task]
       Sample.waiting Hh Hn)))).
Defined.

(** ** The race between a late result and the timeout *)

Section Race.

Context `{PV : Pydantic}.

(** A result for an id that is not in the dict (never registered, already
    resolved, or timed out and removed) leaves the registry alone and does
    not raise: the run is the log record and the loop over the registered
    handlers. *)
Lemma tool_result_unknown_id_is_noop (data : json) (event : BaseEvent)
    (p : ToolResultPayload) (c : OblivionClient) :
  BaseEvent_model_validate data = Some event →
  ToolResultPayload_model_validate (payload event) = Some p →
  _pending_tools c !! request_id p = None →
  sio_on_tool_result data c
  = (outcome_of (observers p c), c, tool_result_log p :: effects_of (observers p c)).
Proof.
  intros He Hp Hl. rewrite (sio_on_tool_result_valid data event p c He Hp), Hl.
  reflexivity.
Qed.

(** A result for an id that is still in the dict while its future is
    already cancelled: the entry is popped, [set_result] raises
    [InvalidStateError], and the registered handlers are not called. *)
Lemma tool_result_on_cancelled_future_raises (data : json) (event : BaseEvent)
    (p : ToolResultPayload) (fut : nat) (c : OblivionClient) :
  BaseEvent_model_validate data = Some event →
  ToolResultPayload_model_validate (payload event) = Some p →
  _pending_tools c !! request_id p = Some fut →
  futures c !! fut = Some FCancelled →
  sio_on_tool_result data c
  = (Raise InvalidStateError,
     set_pending_tools (delete (request_id p) (_pending_tools c)) c,
     [tool_result_log p]).
Proof.
  intros He Hp Hl Hf. rewrite (sio_on_tool_result_valid data event p c He Hp), Hl, Hf.
  reflexivity.
Qed.

End Race.

(** The result arrives before the timeout: the call returns it, the entry is
    popped by the frame's handler, and the registered handler is called after
    the resolution. *)
Example result_before_timeout :
  let r := Calls.search [Calls.answer] [] Calls.observed in
  outcome_of r = Return (Some Calls.answer_payload)
  ∧ _pending_tools (state_of r) = ∅
  ∧ futures (state_of r) = [FResult Calls.answer_payload]
  ∧ effects_of r
    = [tool_request_frame "2025-01-01T00:00:02" "r1" "search" "query" [("q", JStr "x")];
       tool_result_log Calls.answer_payload;
       SetResult 0 Calls.answer_payload;
       Called TOOL_RESULT 0 (ArgToolResult Calls.answer_payload)].
Proof. repeat split; reflexivity. Qed.

(** The result arrives after the call has timed out and removed its entry:
    the frame's handler finds no entry, resolves nothing and does not raise. *)
Example result_after_timeout_is_ignored :
  let r := (res ← Calls.search [] []; deliver (PV := Strict.strict) Calls.answer;; mret res)
             Calls.observed in
  outcome_of r = Return (Some (timed_out "r1"))
  ∧ futures (state_of r) = [FCancelled]
  ∧ task_exceptions (effects_of r) = []
  ∧ call_indices (effects_of r) = [(TOOL_RESULT, 0)].
Proof. repeat split; reflexivity. Qed.

(** C1 fails at this schedule. The timeout of [wait_for] has elapsed and
    cancelled the future, the [except] clause of [request_tool] has not run
    yet, and the server's [tool_result] for the request is handled in
    between. The handler finds the id still in [_pending_tools], pops it and
    calls [set_result] on the cancelled future: [InvalidStateError] leaves the
    handler, and the registered [tool_result] handler is never called. The
    caller then gets the timed-out failure. The late result is not a no-op. *)
Theorem late_result_in_timeout_window_raises :
  let r := Calls.search [] [Calls.answer] Calls.observed in
  outcome_of r = Return (Some (timed_out "r1"))
  ∧ effects_of r
    = [tool_request_frame "2025-01-01T00:00:02" "r1" "search" "query" [("q", JStr "x")];
       CancelledFuture 0;
       tool_result_log Calls.answer_payload;
       TaskException InvalidStateError]
  ∧ task_exceptions (effects_of r) = [InvalidStateError]
  ∧ call_indices (effects_of r) = []
  ∧ registered TOOL_RESULT Calls.observed = 1.
Proof. repeat split; reflexivity. Qed.

(** * Further properties *)

(** ** Wire names of the enumerations (models.py) *)

(** X1. The string values of the three enumerations name their members
    one to one: looking a value up returns a member exactly when the value is
    that member's, so no two members share a wire name and the lookup of a
    member's own value returns it. *)
Theorem enum_values_name_members (s : string) :
  (∀ t, EventType_of_value s = Some t ↔ EventType_value t = s)
  ∧ (∀ a, AgentStatus_of_value s = Some a ↔ AgentStatus_value a = s)
  ∧ (∀ r, WakeUpReason_of_value s = Some r ↔ WakeUpReason_value r = s).
Proof.
  split; [|split].
  - intros t. split.
    + unfold EventType_of_value, all_EventType. cbn [List.find EventType_value].
      repeat (match goal with
              | |- context [String.eqb ?v s] => destruct (String.eqb_spec v s) as [?|?]
              end; [intros [= <-]; assumption|]).
      intros [=].
    + intros <-. apply EventType_of_value_value.
  - intros a. split.
    + unfold AgentStatus_of_value, all_AgentStatus. cbn [List.find AgentStatus_value].
      repeat (match goal with
              | |- context [String.eqb ?v s] => destruct (String.eqb_spec v s) as [?|?]
              end; [intros [= <-]; assumption|]).
      intros [=].
    + intros <-. destruct a; reflexivity.
  - intros r. split.
    + unfold WakeUpReason_of_value, all_WakeUpReason. cbn [List.find WakeUpReason_value].
      repeat (match goal with
              | |- context [String.eqb ?v s] => destruct (String.eqb_spec v s) as [?|?]
              end; [intros [= <-]; assumption|]).
      intros [=].
    + intros <-. destruct r; reflexivity.
Qed.

(** ** The URL of the server ([__init__], [connect]) *)

Lemma rstrip_slash_spec (s : string) :
  ends_with_slash (rstrip_slash s) = false
  ∧ ∃ n, s = rstrip_slash s +:+ slashes n.
Proof.
  induction s as [|ch rest [IH1 [n IH2]]]; [split; [reflexivity|exists 0; reflexivity]|].
  cbn [rstrip_slash]. destruct (rstrip_slash rest) as [|d r'] eqn:Er.
  - destruct (Ascii.eqb_spec ch slash) as [->|Hne].
    + split; [reflexivity|]. exists (S n). rewrite IH2. reflexivity.
    + split.
      * cbn. apply Ascii.eqb_neq. exact Hne.
      * exists n. rewrite IH2. reflexivity.
  - split; [exact IH1|]. exists n. rewrite IH2 at 1. reflexivity.
Qed.

Lemma rstrip_slash_fixed (s : string) :
  ends_with_slash s = false → rstrip_slash s = s.
Proof.
  induction s as [|ch rest IH]; [reflexivity|]. intros He.
  cbn [rstrip_slash]. destruct rest as [|d r'].
  - cbn in *. rewrite He. reflexivity.
  - rewrite IH by exact He. reflexivity.
Qed.

(** X2. The constructor stores the server URL without trailing slashes:
    whatever URL is given, the stored [nexus_url] does not end with ['/'],
    the given URL is the stored one followed by slashes only, and a URL that
    has no trailing slash is stored unchanged. The other session fields start
    empty: no token, no identity, not connected, not running, no handler and
    no pending request. *)
Theorem init_strips_trailing_slashes
    (url cid secret : string) (caps : option (list string)) (ver : string)
    (auto : bool) (delay : json) :
  let c := OblivionClient_init url cid secret caps ver auto delay in
  ends_with_slash (nexus_url c) = false
  ∧ (∃ n, url = nexus_url c +:+ slashes n)
  ∧ rstrip_slash (nexus_url c) = nexus_url c
  ∧ (_token c, _agent_id c, connected c, _should_run c) = (None, None, false, false)
  ∧ (registered TASK_ASSIGNED c, registered CONTEXT_UPDATE c,
     registered WAKE_UP c, registered TOOL_RESULT c) = (0, 0, 0, 0)
  ∧ size (_pending_tools c) = 0.
Proof.
  cbv zeta. cbn [OblivionClient_init nexus_url].
  destruct (rstrip_slash_spec url) as [H1 H2].
  split; [exact H1|]. split; [exact H2|].
  split; [apply rstrip_slash_fixed, H1|].
  split; [reflexivity|]. split; [reflexivity|]. apply map_size_empty.
Qed.

Lemma prefix_app (u r : string) : String.prefix u (u +:+ r) = true.
Proof.
  induction u as [|a u IH]; [destruct r; reflexivity|].
  simpl. destruct (Ascii.ascii_dec a a) as [_|Hne]; [exact IH|congruence].
Qed.

Lemma replace_from_skip (old new u rest : string) :
  replace_from old new (String.length u) (u +:+ rest) = replace_from old new 0 rest.
Proof. induction u as [|a u IH]; [reflexivity|]. cbn. exact IH. Qed.

(** An occurrence at the head is replaced and the replacement goes on behind
    it. *)
Lemma replace_head (a : Ascii.ascii) (old' new rest : string) :
  replace (String a old') new (String a old' +:+ rest)
  = new +:+ replace (String a old') new rest.
Proof.
  unfold replace.
  change (String a old' +:+ rest) with (String a (old' +:+ rest)).
  cbn [replace_from].
  change (String a (old' +:+ rest)) with (String a old' +:+ rest).
  rewrite prefix_app.
  change (String.length (String a old') - 1) with (String.length old' - 0).
  rewrite Nat.sub_0_r, replace_from_skip. reflexivity.
Qed.

(** A string without occurrence is left as it is. *)
Lemma replace_absent (old new s : string) :
  occurs old s = false → replace old new s = s.
Proof.
  unfold replace. induction s as [|ch rest IH]; [reflexivity|].
  cbn [occurs replace_from]. intros Ho. apply orb_false_iff in Ho as [Hp Hr].
  rewrite Hp, (IH Hr). reflexivity.
Qed.

(** X3. The WebSocket URL. For a host part in which neither ["http://"] nor
    ["https://"] occurs, [connect] turns ["http://" + host] into
    ["ws://" + host] and ["https://" + host] into ["wss://" + host]; a URL
    without either scheme is handed to the Socket.IO client unchanged. *)
Theorem ws_url_maps_schemes (host : string) :
  occurs "http://" host = false →
  occurs "https://" host = false →
  ws_url ("http://" +:+ host) = "ws://" +:+ host
  ∧ ws_url ("https://" +:+ host) = "wss://" +:+ host
  ∧ ws_url host = host.
Proof.
  intros H1 H2. unfold ws_url. split; [|split].
  - rewrite (replace_head _ _ "ws://" host), (replace_absent _ _ host H1).
    apply replace_absent. cbn. exact H2.
  - rewrite (replace_absent "http://" "ws://" ("https://" +:+ host)) by (cbn; exact H1).
    rewrite (replace_head _ _ "wss://" host), (replace_absent _ _ host H2). reflexivity.
  - rewrite (replace_absent _ _ host H1). apply replace_absent, H2.
Qed.

Lemma ws_url_maps_schemes_witness :
  occurs "http://" "localhost:3000" = false
  ∧ occurs "https://" "localhost:3000" = false
  ∧ ws_url "https://localhost:3000" = "wss://localhost:3000".
Proof.
  split; [reflexivity|]. split; [reflexivity|].
  exact (proj1 (proj2 (ws_url_maps_schemes "localhost:3000" eq_refl eq_refl))).
Defined.

(** ** Registration order is invocation order *)

Section LoopAppend.

Context {P : Type} (kind : EventType) (arg : P → handler_arg) (errmsg : string).

(** The loop over a list made of two parts, when the handlers of the first
    part return or raise an [Exception]: the loop over the first part, then
    the loop over the second part from the index where the first ended. *)
Lemma for_each_handler_app (index : nat) (hs1 hs2 : list (handler P)) (p : P)
    (c : OblivionClient) :
  Forall caught ((λ h, h p) <$> hs1) →
  for_each_handler kind arg errmsg index (hs1 ++ hs2) p c
  = (outcome_of (for_each_handler kind arg errmsg (index + length hs1) hs2 p c),
     c,
     effects_of (for_each_handler kind arg errmsg index hs1 p c)
       ++ effects_of (for_each_handler kind arg errmsg (index + length hs1) hs2 p c)).
Proof.
  revert index. induction hs1 as [|h rest IH]; intros index Hall.
  - simpl. rewrite Nat.add_0_r.
    pose proof (for_each_handler_state kind arg errmsg index hs2 p c) as Hs.
    destruct (for_each_handler kind arg errmsg index hs2 p c) as [[o c2] t2].
    unfold state_of in Hs. simpl in Hs. subst c2. reflexivity.
  - rewrite fmap_cons in Hall. apply Forall_cons in Hall as [Hh Hrest].
    rewrite <- app_comm_cons, !for_each_handler_cons, (IH (S index) Hrest).
    replace (S index + length rest) with (index + length (h :: rest)) by (simpl; lia).
    pose proof (for_each_handler_state kind arg errmsg (S index) rest p c) as Hs.
    destruct (h p) as [e|] eqn:Hhp.
    + rewrite (Hh e eq_refl). cbv zeta. unfold outcome_of, state_of, effects_of in *.
      simpl. reflexivity.
    + cbv zeta. unfold outcome_of, state_of, effects_of in *. simpl. reflexivity.
Qed.

End LoopAppend.

Section Registration.

Context `{PV : Pydantic}.

(** X4. A handler registered with [on_task_assigned] is put behind the
    handlers registered before, and that is the order of the calls: on a
    valid [task_assigned] frame (the earlier handlers returning or raising an
    [Exception]), the client with the new handler does everything the client
    without it does, and then calls the new handler, at the index that is the
    number of handlers there were. Registering has no effect of its own and
    touches no other handler list. *)
Theorem handler_registered_later_is_called_last
    (data : json) (event : BaseEvent) (p : TaskAssignedPayload)
    (h : handler TaskAssignedPayload) (c : OblivionClient) :
  BaseEvent_model_validate data = Some event →
  TaskAssignedPayload_model_validate (payload event) = Some p →
  Forall caught ((λ h', h' p) <$> _task_handlers c) →
  let r := on_task_assigned h c in
  outcome_of r = Return tt
  ∧ effects_of r = []
  ∧ _task_handlers (state_of r) = _task_handlers c ++ [h]
  ∧ (_context_handlers (state_of r), _wakeup_handlers (state_of r),
     _tool_result_handlers (state_of r))
    = (_context_handlers c, _wakeup_handlers c, _tool_result_handlers c)
  ∧ effects_of (sio_on_task_assigned data (state_of r))
    = effects_of (sio_on_task_assigned data c)
        ++ Called TASK_ASSIGNED (length (_task_handlers c)) (ArgTask p)
        :: match h p with
           | Some e =>
               if is_Exception e
               then [Logged LvError "Task handler error" [("error", LStrOf e)]]
               else []
           | None => []
           end.
Proof.
  intros He Hp Hall r.
  split; [reflexivity|]. split; [reflexivity|]. split; [reflexivity|].
  split; [reflexivity|].
  unfold r, on_task_assigned, sio_on_task_assigned. run.
  rewrite He. simpl. rewrite Hp. simpl.
  rewrite (for_each_handler_app TASK_ASSIGNED ArgTask "Task handler error" 0
             (_task_handlers c) [h] p _ Hall).
  pose proof (for_each_handler_state TASK_ASSIGNED ArgTask "Task handler error" 0
                (_task_handlers c) p c) as Hs.
  set (c1 := set_task_handlers (_task_handlers c ++ [h]) c).
  assert (Et : effects_of (for_each_handler TASK_ASSIGNED ArgTask "Task handler error" 0
                             (_task_handlers c) p c1)
               = effects_of (for_each_handler TASK_ASSIGNED ArgTask "Task handler error" 0
                             (_task_handlers c) p c)).
  { generalize 0. generalize (_task_handlers c) as hs.
    induction hs as [|h' rest IH]; intros n; [reflexivity|].
    rewrite !for_each_handler_cons.
    destruct (h' p) as [e|]; [destruct (is_Exception e)|]; cbv zeta;
      unfold effects_of in *; simpl; rewrite ?IH; reflexivity. }
  rewrite for_each_handler_cons.
  destruct (for_each_handler TASK_ASSIGNED ArgTask "Task handler error" 0
              (_task_handlers c) p c) as [[o c2] t2].
  unfold effects_of in *. simpl in *. rewrite Et.
  destruct (h p) as [e|]; [destruct (is_Exception e)|]; simpl;
    rewrite <- ?app_assoc; reflexivity.
Qed.

End Registration.

Lemma handler_registered_later_is_called_last_witness :
  call_indices
    (effects_of (sio_on_task_assigned (PV := Strict.strict) (f_data Registered.task)
                   (state_of (on_task_assigned Sample.quiet Registered.failing_then_quiet))))
  = [(TASK_ASSIGNED, 0); (TASK_ASSIGNED, 1); (TASK_ASSIGNED, 2)].
Proof.
  pose proof (handler_registered_later_is_called_last (PV := Strict.strict)
                (f_data Registered.task)
                {| type := TASK_ASSIGNED; payload := Sample.task_fields;
                   timestamp := "2025-01-01T00:00:00Z" |}
                {| ta_task_id := "t1"; ta_project_mapping_id := "pm";
                   ta_clickup_task_id := "cu"; ta_slack_channel_id := "ch";
                   ta_slack_thread_ts := "ts"; ta_title := "Fix it";
                   ta_description := None; ta_assigned_at := "2025-01-01T00:00:00Z" |}
                Sample.quiet Registered.failing_then_quiet eq_refl eq_refl) as Hx.
  destruct Hx as (_ & _ & _ & _ & Hx).
  - change (Forall caught [Some (OtherException "RuntimeError" "boom"); None]).
    repeat constructor; intros e He; inversion He; reflexivity.
  - rewrite Hx. reflexivity.
Defined.

(** ** The handshake ([connect], [on_connected], [_send_agent_ready]) *)

Section Handshake.

Context `{PV : Pydantic}.

(** The run of [connect] when the authentication and the handshake
    succeed. *)
Lemma connect_success_run
    (status_code : nat) (fields : list (string * json)) (tok : json) (c : OblivionClient) :
  is_success status_code = true →
  obj_get "accessToken" fields = Some tok →
  sio_connected c = false →
  connect (HttpResponse status_code (Some (JObj fields))) true c
  = (Return tt,
     set_sio_connected true (set_token (Some tok) (set_should_run true c)),
     [Logged LvInfo "Authenticating with Nexus" [];
      HttpPost (nexus_url c +:+ "/auth/token")
        (JObj [("clientId", JStr (client_id c)); ("clientSecret", JStr (client_secret c))]);
      Logged LvInfo "Authentication successful" [];
      SioConnect (ws_url (nexus_url c)) (Some tok)]).
Proof.
  intros Hs Ht Hd. unfold connect, _authenticate, access_token, sio_connect. run.
  rewrite Hs. simpl. rewrite Ht. simpl. rewrite Hd. reflexivity.
Qed.

(** The run of the acknowledgment's handler on a valid acknowledgment. *)
Lemma deliver_ack_run
    (utcnow : string) (ack : json) (response : ConnectedResponse) (c : OblivionClient) :
  ConnectedResponse_model_validate ack = Some response →
  deliver {| f_utcnow := utcnow; f_event := "connected"; f_data := ack |} c
  = (Return tt,
     set_connected true (set_agent_id (Some (cr_agent_id response)) c),
     [Logged LvInfo "Connected to Nexus" [("agent_id", LJson (JStr (cr_agent_id response)))];
      Emitted "agent_ready"
        (JObj [("type", JStr "agent_ready");
               ("payload", JObj [("capabilities", JArr (JStr <$> capabilities c));
                                 ("version", JStr (version c))]);
               ("timestamp", JStr (utcnow +:+ "Z"))])]).
Proof.
  intros Ha. unfold deliver, isolated, sio_handler. cbn [f_event f_data f_utcnow].
  change (String.eqb "connected" "connected") with true. cbv iota.
  unfold sio_on_connected, _send_agent_ready. run. rewrite Ha. reflexivity.
Qed.

(** X5. The handshake, step by step. With a 2xx answer whose body carries
    [accessToken], on a client whose transport is down, [connect] returns
    after exactly: the log record, one POST to [<nexus_url>/auth/token], the
    success record, and the opening of the transport at the [ws_url] with the
    token just received. It stores the token and sets [_should_run], but the
    client is not [connected] yet: that, and the identity, come with the
    server's acknowledgment, whose handler then announces the agent with one
    [agent_ready] frame carrying the capabilities and version given to the
    constructor. *)
Theorem handshake_runs_in_order
    (status_code : nat) (fields : list (string * json)) (tok ack : json)
    (response : ConnectedResponse) (utcnow : string) (c : OblivionClient) :
  is_success status_code = true →
  obj_get "accessToken" fields = Some tok →
  sio_connected c = false →
  ConnectedResponse_model_validate ack = Some response →
  let r1 := connect (HttpResponse status_code (Some (JObj fields))) true c in
  let r2 := deliver {| f_utcnow := utcnow; f_event := "connected"; f_data := ack |}
              (state_of r1) in
  outcome_of r1 = Return tt
  ∧ effects_of r1
    = [Logged LvInfo "Authenticating with Nexus" [];
       HttpPost (nexus_url c +:+ "/auth/token")
         (JObj [("clientId", JStr (client_id c)); ("clientSecret", JStr (client_secret c))]);
       Logged LvInfo "Authentication successful" [];
       SioConnect (ws_url (nexus_url c)) (Some tok)]
  ∧ (_token (state_of r1), _should_run (state_of r1), sio_connected (state_of r1))
    = (Some tok, true, true)
  ∧ (connected (state_of r1), agent_id (state_of r1)) = (connected c, agent_id c)
  ∧ (connected (state_of r2), agent_id (state_of r2))
    = (true, Some (cr_agent_id response))
  ∧ effects_of r2
    = [Logged LvInfo "Connected to Nexus" [("agent_id", LJson (JStr (cr_agent_id response)))];
       Emitted "agent_ready"
         (JObj [("type", JStr "agent_ready");
                ("payload", JObj [("capabilities", JArr (JStr <$> capabilities c));
                                  ("version", JStr (version c))]);
                ("timestamp", JStr (utcnow +:+ "Z"))])].
Proof.
  intros Hs Ht Hd Ha r1 r2. unfold r2, r1.
  rewrite (connect_success_run status_code fields tok c Hs Ht Hd).
  unfold state_of at 4. cbn [fst snd].
  rewrite (deliver_ack_run utcnow ack response _ Ha).
  repeat split; reflexivity.
Qed.

(** X6. Whatever makes the authentication fail (a status outside 2xx, no
    response, a body that is not JSON, not an object, or without
    [accessToken]), [connect] raises that same exception and does not open
    the transport; the token and the transport flag are as before, but
    [_should_run] is left set. Only an [HTTPStatusError] gets the
    "Authentication failed" record: for the other errors the run is the
    first log record and the POST. *)
Theorem connect_auth_error_propagates
    (answer : http_result) (handshake_ok : bool) (e : exn) (c : OblivionClient) :
  outcome_of (_authenticate answer c) = Raise e →
  let r := connect answer handshake_ok c in
  outcome_of r = Raise e
  ∧ filter (λ x, is_SioConnect x = true) (effects_of r) = []
  ∧ length (filter (λ x, is_HttpPost x = true) (effects_of r)) = 1
  ∧ (_token (state_of r), sio_connected (state_of r)) = (_token c, sio_connected c)
  ∧ _should_run (state_of r) = true
  ∧ (if is_HTTPStatusError e
     then last (effects_of r)
          = Some (Logged LvError "Authentication failed" [("status", LJson (status_code_of e))])
     else effects_of r
          = [Logged LvInfo "Authenticating with Nexus" [];
             HttpPost (nexus_url c +:+ "/auth/token")
               (JObj [("clientId", JStr (client_id c));
                      ("clientSecret", JStr (client_secret c))])]).
Proof.
  unfold connect, _authenticate, access_token, sio_connect. run.
  destruct answer as [status_code body|]; simpl.
  2:{ intros [= <-]. repeat split; reflexivity. }
  destruct (is_success status_code); simpl.
  2:{ intros [= <-]. repeat split; reflexivity. }
  destruct body as [[| | | | | |fields]|]; simpl;
    try (intros [= <-]; repeat split; reflexivity).
  destruct (obj_get "accessToken" fields); simpl; [discriminate|].
  intros [= <-]. repeat split; reflexivity.
Qed.

(** X7. An acknowledgment that fails validation changes nothing: the client
    is as before (no identity assigned, not marked connected) and no
    [agent_ready] frame is sent; the [ValidationError] stays in the
    acknowledgment's handler. *)
Theorem invalid_ack_is_dropped (utcnow : string) (ack : json) (c : OblivionClient) :
  ConnectedResponse_model_validate ack = None →
  deliver {| f_utcnow := utcnow; f_event := "connected"; f_data := ack |} c
  = (Return tt, c, [TaskException (ValidationError "ConnectedResponse")]).
Proof.
  intros Ha. unfold deliver, isolated, sio_handler. cbn [f_event f_data f_utcnow].
  change (String.eqb "connected" "connected") with true. cbv iota.
  unfold sio_on_connected. run. rewrite Ha. reflexivity.
Qed.

End Handshake.

Lemma handshake_runs_in_order_witness :
  let r1 := connect (HttpResponse 200 (Some (JObj [("accessToken", JStr "tok")]))) true
              Sample.fresh in
  sio_connected Sample.fresh = false
  ∧ effects_of (deliver (PV := Strict.strict) Sample.ack (state_of r1))
    = [Logged LvInfo "Connected to Nexus" [("agent_id", LJson (JStr "agent-1"))];
       Emitted "agent_ready"
         (JObj [("type", JStr "agent_ready");
                ("payload", JObj [("capabilities", JArr []); ("version", JStr "0.1.0")]);
                ("timestamp", JStr "2025-01-01T00:00:00Z")])].
Proof.
  split; [reflexivity|].
  exact (proj2 (proj2 (proj2 (proj2 (proj2
    (handshake_runs_in_order (PV := Strict.strict) 200 [("accessToken", JStr "tok")]
       (JStr "tok") (f_data Sample.ack)
       {| cr_message := "ok"; cr_agent_id := "agent-1";
          cr_server_time := "2025-01-01T00:00:00Z" |}
       "2025-01-01T00:00:00" Sample.fresh eq_refl eq_refl eq_refl eq_refl)))))).
Defined.

Lemma connect_auth_error_propagates_witness :
  outcome_of (_authenticate (HttpResponse 200 (Some (JObj []))) Sample.fresh)
  = Raise (KeyError "accessToken")
  ∧ outcome_of (connect (HttpResponse 200 (Some (JObj []))) true Sample.fresh)
    = Raise (KeyError "accessToken").
Proof.
  split; [reflexivity|].
  exact (proj1 (connect_auth_error_propagates (HttpResponse 200 (Some (JObj []))) true
                  (KeyError "accessToken") Sample.fresh eq_refl)).
Defined.

Lemma invalid_ack_is_dropped_witness :
  ConnectedResponse_model_validate (Pydantic := Strict.strict) (JObj []) = None
  ∧ agent_id (state_of (deliver (PV := Strict.strict)
                          {| f_utcnow := "2025-01-01T00:00:00"; f_event := "connected";
                             f_data := JObj [] |} Sample.fresh)) = None.
Proof.
  split; [reflexivity|].
  rewrite (invalid_ack_is_dropped (PV := Strict.strict) "2025-01-01T00:00:00" (JObj [])
             Sample.fresh eq_refl).
  reflexivity.
Defined.

(** ** What handling a frame leaves alone *)

Section LoopLocal.

Context {P : Type} (kind : EventType) (arg : P → handler_arg) (errmsg : string).


End LoopLocal.

Section Session.

Context `{PV : Pydantic}.



(** X9. An inbound frame whose event name is none of the seven names
    under which [_setup_handlers] registers a handler is ignored: this holds
    of inbound [agent_ready], [tool_request] and [status_update] frames and
    of any unknown name. *)
Theorem unhandled_event_is_ignored (f : frame) (c : OblivionClient) :
  f_event f ∉ handled_events →
  deliver f c = (Return tt, c, []).
Proof.
  intros Hn. unfold deliver, isolated, sio_handler.
  assert (Hne : ∀ name, name ∈ handled_events → String.eqb (f_event f) name = false).
  { intros name Hin. apply String.eqb_neq. intros E. apply Hn. rewrite E. exact Hin. }
  unfold handled_events in Hne.
  rewrite !Hne by (cbn; set_solver). reflexivity.
Qed.

End Session.

Lemma unhandled_event_is_ignored_witness :
  deliver (PV := Strict.strict) (Sample.frame_of STATUS_UPDATE []) Sample.online
  = (Return tt, Sample.online, []).
Proof.
  apply (unhandled_event_is_ignored (PV := Strict.strict)).
  unfold handled_events. cbn. intros Hin.
  repeat (apply elem_of_cons in Hin as [Hin|Hin]; [discriminate Hin|]).
  inversion Hin.
Defined.

(** ** The reconnect loop, [disconnect] and [wait] *)

Section Reconnect.

Context `{PV : Pydantic}.

Lemma authenticate_raises_Exception (answer : http_result) (e : exn) (c : OblivionClient) :
  outcome_of (_authenticate answer c) = Raise e → is_Exception e = true.
Proof.
  unfold _authenticate, access_token. run.
  destruct answer as [status_code body|]; simpl; [|intros [= <-]; reflexivity].
  destruct (is_success status_code); simpl; [|intros [= <-]; reflexivity].
  destruct body as [[| | | | | |fields]|]; simpl; try (intros [= <-]; reflexivity).
  destruct (obj_get "accessToken" fields); simpl; [discriminate|].
  intros [= <-]. reflexivity.
Qed.

(** One round of the loop, when the loop condition holds. *)
Lemma reconnect_round (a : attempt) (rest : list attempt) (c : OblivionClient) :
  _should_run c = true →
  _connected c = false →
  _reconnect (a :: rest) c
  = let r1 := try_except (connect (at_answer a) (at_handshake_ok a)) is_Exception
                (fun e => log LvError "Reconnection failed" [("error", LStrOf e)]) c in
    let r2 := deliver_all (at_inbox a) (state_of r1) in
    let r3 := _reconnect rest (state_of r2) in
    (outcome_of r3, state_of r3,
     Logged LvInfo "Attempting reconnection" [("delay", LJson (reconnect_delay c))]
       :: Slept (reconnect_delay c)
       :: effects_of r1 ++ effects_of r2 ++ effects_of r3).
Proof.
  intros Hr Hc. cbn [_reconnect]. rewrite Hr, Hc. cbn [andb negb].
  unfold mbind, M_bind. rewrite bind_run. cbv zeta.
  change (outcome_of (log LvInfo "Attempting reconnection"
            [("delay", LJson (reconnect_delay c))] c)) with (Return tt).
  cbv iota beta.
  change (state_of (log LvInfo "Attempting reconnection"
            [("delay", LJson (reconnect_delay c))] c)) with c.
  change (effects_of (log LvInfo "Attempting reconnection"
            [("delay", LJson (reconnect_delay c))] c))
    with [Logged LvInfo "Attempting reconnection" [("delay", LJson (reconnect_delay c))]].
  rewrite bind_run.
  change (outcome_of (act (Slept (reconnect_delay c)) c)) with (Return tt).
  cbv iota beta zeta.
  change (state_of (act (Slept (reconnect_delay c)) c)) with c.
  change (effects_of (act (Slept (reconnect_delay c)) c)) with [Slept (reconnect_delay c)].
  rewrite bind_run.
  destruct (try_except_connect_registry a c) as (Ho & _ & _).
  rewrite Ho. cbv iota beta zeta.
  rewrite bind_run, deliver_all_returns. cbv iota beta zeta.
  unfold outcome_of at 1, state_of at 1, effects_of at 1. cbn [fst snd].
  unfold outcome_of at 1, state_of at 1, effects_of at 1. cbn [fst snd].
  unfold outcome_of at 1, state_of at 1, effects_of at 1. cbn [fst snd].
  unfold outcome_of at 1, state_of at 1. cbn [fst snd]. reflexivity.
Qed.

(** X10. An authentication failure during a reconnect attempt is not fatal:
    whatever the failure, the round also logs "Reconnection failed" with the
    exception, the transport is not opened, and the loop goes on with the next
    attempt (here with no frame arriving in between). *)
Theorem reconnect_retries_after_auth_failure
    (a : attempt) (rest : list attempt) (e : exn) (c : OblivionClient) :
  _should_run c = true →
  _connected c = false →
  at_inbox a = [] →
  outcome_of (_authenticate (at_answer a) c) = Raise e →
  let r0 := connect (at_answer a) (at_handshake_ok a) c in
  let r := _reconnect (a :: rest) c in
  outcome_of r0 = Raise e
  ∧ r = (outcome_of (_reconnect rest (state_of r0)),
         state_of (_reconnect rest (state_of r0)),
         Logged LvInfo "Attempting reconnection" [("delay", LJson (reconnect_delay c))]
           :: Slept (reconnect_delay c)
           :: effects_of r0 ++ reconnection_failed e
           :: effects_of (_reconnect rest (state_of r0)))
  ∧ filter (λ x, is_SioConnect x = true) (effects_of r0) = []
  ∧ (_should_run (state_of r0), _connected (state_of r0)) = (true, false).
Proof.
  intros Hr Hc Hi Ha r0 r.
  pose proof (authenticate_raises_Exception _ _ _ Ha) as He.
  assert (H0 : outcome_of r0 = Raise e
               ∧ filter (λ x, is_SioConnect x = true) (effects_of r0) = []
               ∧ (_should_run (state_of r0), _connected (state_of r0)) = (true, false)).
  { revert Ha. unfold r0, connect, _authenticate, access_token, sio_connect. run.
    destruct (at_answer a) as [status_code body|]; simpl.
    2:{ intros [= <-]. rewrite Hc. repeat split; reflexivity. }
    destruct (is_success status_code); simpl.
    2:{ intros [= <-]. rewrite Hc. repeat split; reflexivity. }
    destruct body as [[| | | | | |fields]|]; simpl;
      try (intros [= <-]; rewrite Hc; repeat split; reflexivity).
    destruct (obj_get "accessToken" fields); simpl; [discriminate|].
    intros [= <-]. rewrite Hc. repeat split; reflexivity. }
  destruct H0 as (H01 & H02 & H03).
  split; [exact H01|]. split; [|split; assumption].
  unfold r. rewrite (reconnect_round a rest c Hr Hc), Hi. cbv zeta.
  unfold try_except. fold r0.
  destruct r0 as [[o0 c0] t0]. unfold outcome_of in H01. simpl in H01. subst o0.
  rewrite He. unfold log, act. unfold state_of, effects_of, outcome_of. simpl.
  rewrite <- app_assoc. reflexivity.
Qed.




(** X12. The reconnect loop is entered only when [auto_reconnect] and
    [_should_run] are both set: otherwise the handler of the transport's
    [disconnect] event clears [connected], logs the warning and stops
    there, whatever attempt would be possible. *)
Theorem no_reconnect_unless_enabled (script : list attempt) (c : OblivionClient) :
  auto_reconnect c && _should_run c = false →
  transport_lost script c
  = (Return tt, set_connected false (set_sio_connected false c),
     [Logged LvWarning "Disconnected from Nexus" []]).
Proof.
  intros Hg. unfold transport_lost, isolated, sio_on_disconnect. run.
  rewrite Hg. reflexivity.
Qed.



End Reconnect.

Lemma reconnect_retries_after_auth_failure_witness :
  (_should_run Outage.lost, _connected Outage.lost) = (true, false)
  ∧ outcome_of (_authenticate (at_answer Outage.refused) Outage.lost)
    = Raise (HTTPStatusError 503)
  ∧ outcome_of (_reconnect (PV := Strict.strict) [Outage.refused; Outage.accepted]
                  Outage.lost) = Return tt
  ∧ _connected (state_of (_reconnect (PV := Strict.strict)
                            [Outage.refused; Outage.accepted] Outage.lost)) = true.
Proof.
  split; [reflexivity|]. split; [reflexivity|].
  pose proof (reconnect_retries_after_auth_failure (PV := Strict.strict) Outage.refused
                [Outage.accepted] (HTTPStatusError 503) Outage.lost
                eq_refl eq_refl eq_refl eq_refl) as Hx.
  destruct Hx as (_ & Hx & _). cbv zeta in Hx. rewrite Hx. split; reflexivity.
Defined.


Lemma no_reconnect_unless_enabled_witness :
  effects_of (transport_lost (PV := Strict.strict) [Outage.accepted]
                (OblivionClient_init "http://localhost:3000" "a" "s" None "0.1.0" false
                   (JFloat 5 0)))
  = [Logged LvWarning "Disconnected from Nexus" []].
Proof.
  rewrite (no_reconnect_unless_enabled (PV := Strict.strict) [Outage.accepted]
             (OblivionClient_init "http://localhost:3000" "a" "s" None "0.1.0" false
                (JFloat 5 0)) eq_refl).
  reflexivity.
Defined.

Section Stopping.

Context `{PV : Pydantic}.

(** X13. What [disconnect] stops, and what undoes it. On the client it
    leaves (not running, not connected, transport down) a second
    [disconnect] only logs, [wait] returns at once without sleeping, and a
    reconnect loop that tests its condition makes no attempt. But the flag
    is not final: [connect] sets [_should_run] again, whatever the auth
    endpoint answers. So the [connect] of a reconnect round that had passed
    its test and was asleep when [disconnect] was called undoes the
    [disconnect]: after it the condition of the loop holds again. *)
Theorem disconnect_stops_until_next_connect
    (script : list attempt) (meanwhile : list (M unit)) (a : attempt)
    (c : OblivionClient) :
  let c1 := state_of (disconnect c) in
  let c2 := state_of (try_except (connect (at_answer a) (at_handshake_ok a)) is_Exception
                        (fun e => log LvError "Reconnection failed" [("error", LStrOf e)])
                        c1) in
  (_should_run c1, connected c1, sio_connected c1) = (false, false, false)
  ∧ disconnect c1 = (Return tt, c1, [Logged LvInfo "Disconnected" []])
  ∧ wait meanwhile c1 = (Return true, c1, [])
  ∧ _reconnect script c1 = (Return tt, c1, [])
  ∧ _should_run (state_of (connect (at_answer a) (at_handshake_ok a) c1)) = true
  ∧ _should_run c2 && negb (_connected c2) = true.
Proof.
  cbv zeta. rewrite disconnect_run.
  change (state_of (Return tt,
                    set_connected false (set_sio_connected false (set_should_run false c)),
                    (if sio_connected c
                     then [SioDisconnect; Logged LvWarning "Disconnected from Nexus" []]
                     else []) ++ [Logged LvInfo "Disconnected" []]))
    with (set_connected false (set_sio_connected false (set_should_run false c))).
  set (c1 := set_connected false (set_sio_connected false (set_should_run false c))).
  split; [reflexivity|]. split; [|split; [|split]].
  - rewrite disconnect_run. reflexivity.
  - destruct meanwhile; reflexivity.
  - destruct script; reflexivity.
  - assert (H : ∀ c', _connected c' = false →
              _should_run (state_of (connect (at_answer a) (at_handshake_ok a) c')) = true
              ∧ _connected (state_of (connect (at_answer a) (at_handshake_ok a) c'))
                = false).
    { intros c' Hc'. unfold connect, _authenticate, access_token, sio_connect. run.
      destruct (at_answer a) as [status_code body|]; simpl; [|auto].
      destruct (is_success status_code); simpl; [|auto].
      destruct body as [[| | | | | |fields]|]; simpl; auto.
      destruct (obj_get "accessToken" fields); simpl; [|auto].
      destruct (sio_connected c'); simpl; [auto|].
      destruct (at_handshake_ok a); simpl; auto. }
    destruct (H c1 eq_refl) as [H1 H2]. split; [exact H1|].
    unfold try_except.
    destruct (connect (at_answer a) (at_handshake_ok a) c1) as [[[[]|e] c2] t2];
      unfold state_of in *; cbn [fst snd] in *.
    + rewrite H1, H2. reflexivity.
    + destruct (is_Exception e); unfold log, act; cbn [fst snd];
        rewrite H1, H2; reflexivity.
Qed.

Lemma filter_none {A} (P : A → bool) (l : list A) :
  Forall (λ e, P e = false) l → filter (λ e, P e = true) l = [].
Proof.
  induction 1 as [|x l Hx Hl IH]; [reflexivity|].
  rewrite filter_cons_False by congruence. exact IH.
Qed.





End Stopping.


(** ** [update_status] with a valid status *)

(** X15. On a client whose namespace is connected, with one of the three
    statuses, given as the member or as its string value (the two are the
    same call), [update_status] sends exactly one [status_update] frame
    carrying the status value, the task id and the message ([null] when not
    given), then logs; the client is unchanged. *)
Theorem update_status_sends_one_frame
    (utcnow : string) (status : AgentStatus) (task_id message : option string)
    (c : OblivionClient) :
  transport_up c →
  update_status utcnow (inr (AgentStatus_value status)) task_id message c
  = update_status utcnow (inl status) task_id message c
  ∧ update_status utcnow (inl status) task_id message c
    = (Return tt, c,
       [status_update_frame utcnow status task_id message;
        status_updated_log status task_id]).
Proof. intros _. destruct status; split; reflexivity. Qed.

Lemma update_status_sends_one_frame_witness :
  transport_up Sample.online
  ∧ effects_of (update_status "2025-01-01T00:00:04" (inr "working") (Some "t1") None
                  Sample.online)
    = [status_update_frame "2025-01-01T00:00:04" WORKING (Some "t1") None;
       status_updated_log WORKING (Some "t1")].
Proof.
  split; [reflexivity|].
  pose proof (update_status_sends_one_frame "2025-01-01T00:00:04" WORKING (Some "t1") None
                Sample.online eq_refl) as [H1 H2].
  change (inr "working") with (@inr AgentStatus string (AgentStatus_value WORKING)).
  rewrite H1, H2. reflexivity.
Defined.

(** ** The handler loop and exceptions outside [Exception] *)

Section LoopUncaught.

Context {P : Type} (kind : EventType) (arg : P → handler_arg) (errmsg : string).

(** X16. The handler loop ends at the first handler that raises outside
    [Exception]: the handlers before it (returning or raising an
    [Exception]) are called and their errors logged, that handler is called,
    its exception is raised out of the loop without a log record, and no
    handler behind it is called. *)
Theorem handler_loop_stops_at_uncaught
    (index : nat) (hs1 hs2 : list (handler P)) (h : handler P) (p : P) (e : exn)
    (c : OblivionClient) :
  Forall caught ((λ h', h' p) <$> hs1) →
  h p = Some e →
  is_Exception e = false →
  let r := for_each_handler kind arg errmsg index (hs1 ++ h :: hs2) p c in
  outcome_of r = Raise e
  ∧ call_indices (effects_of r) = (λ i, (kind, i)) <$> seq index (S (length hs1))
  ∧ logged_errors (effects_of r) = omap (λ h', h' p) hs1
  ∧ state_of r = c.
Proof.
  intros Hall Hh He r. unfold r.
  rewrite (for_each_handler_app kind arg errmsg index hs1 (h :: hs2) p c Hall).
  rewrite for_each_handler_cons, Hh, He.
  destruct (for_each_handler_all_called kind arg errmsg index hs1 p c Hall)
    as (_ & L2 & L3 & _).
  unfold outcome_of, state_of, effects_of in *. cbn [fst snd].
  split; [reflexivity|]. split; [|split; [|reflexivity]].
  - unfold call_indices in *. rewrite omap_app, L2. cbn [omap list_omap].
    rewrite seq_S, fmap_app. reflexivity.
  - unfold logged_errors in *. rewrite omap_app, L3. cbn [omap list_omap].
    rewrite app_nil_r. reflexivity.
Qed.

End LoopUncaught.

Lemma handler_loop_stops_at_uncaught_witness :
  call_indices
    (effects_of (for_each_handler TASK_ASSIGNED ArgTask "Task handler error" 0
                   ([Sample.failing] ++ Sample.exiting :: [Sample.quiet])
                   {| ta_task_id := "t1"; ta_project_mapping_id := "pm";
                      ta_clickup_task_id := "cu"; ta_slack_channel_id := "ch";
                      ta_slack_thread_ts := "ts"; ta_title := "Fix it";
                      ta_description := None; ta_assigned_at := "2025-01-01T00:00:00Z" |}
                   Sample.online))
  = [(TASK_ASSIGNED, 0); (TASK_ASSIGNED, 1)].
Proof.
  refine (proj1 (proj2
    (handler_loop_stops_at_uncaught TASK_ASSIGNED ArgTask "Task handler error" 0
       [Sample.failing] [Sample.quiet] Sample.exiting _
       (OtherBaseException "SystemExit") Sample.online _ eq_refl eq_refl))).
  repeat constructor. intros e He. inversion He. reflexivity.
Defined.

(** ** Results and the registry *)

Section Results.

Context `{PV : Pydantic}.

(** A released future stays as it is, whatever frame is handled. *)
Lemma deliver_keeps_released (fut : nat) (st : Future) (f : frame) (c : OblivionClient) :
  released fut st c → released fut st (state_of (deliver f c)).
Proof.
  intros [H1 H2].
  destruct (deliver_registry f c) as [[Ep Ef]|(p & fut' & Ha & Hl & Ep & Ef)].
  - unfold released. rewrite Ep, Ef. auto.
  - assert (Hne : fut' ≠ fut) by (eapply H2; exact Hl).
    unfold released. rewrite Ep. split.
    + destruct Ef as [-> | ->]; [exact H1|].
      rewrite list_lookup_insert_ne by exact Hne. exact H1.
    + intros k v Hk. apply lookup_delete_Some in Hk as [_ Hk]. eapply H2; exact Hk.
Qed.

Lemma deliver_all_keeps_released (fut : nat) (st : Future) (fs : list frame)
    (c : OblivionClient) :
  released fut st c → released fut st (state_of (deliver_all fs c)).
Proof.
  revert c. induction fs as [|f rest IH]; intros c Hh; [exact Hh|].
  rewrite deliver_all_cons. apply IH, deliver_keeps_released, Hh.
Qed.

(** Handling the answer of a held request resolves and releases its future. *)
Lemma deliver_answer (rid : string) (fut : nat) (f : frame) (event : BaseEvent)
    (p : ToolResultPayload) (c : OblivionClient) :
  f_event f = EventType_value TOOL_RESULT →
  BaseEvent_model_validate (f_data f) = Some event →
  ToolResultPayload_model_validate (payload event) = Some p →
  request_id p = rid →
  held rid fut FPending c →
  state_of (deliver f c) = resolved fut p c
  ∧ released fut (FResult p) (resolved fut p c)
  ∧ _pending_tools (resolved fut p c) !! rid = None.
Proof.
  intros Ev He Hp Hr (H1 & H2 & H3). subst rid.
  split; [|split].
  - unfold deliver. rewrite isolated_state, (sio_handler_of_kind f TOOL_RESULT Ev).
    rewrite (sio_on_tool_result_valid (f_data f) event p c He Hp), H1, H2. reflexivity.
  - unfold released, resolved. simpl. split.
    + apply list_lookup_insert_eq. eapply lookup_lt_Some; exact H2.
    + intros k v Hk Hv. apply lookup_delete_Some in Hk as [Hne Hk].
      apply Hne. symmetry. eapply H3; eassumption.
  - unfold resolved. simpl. apply lookup_delete_eq.
Qed.

(** X17. The first answer wins. When a request is held with its future
    pending and the first valid [tool_result] for its id is handled, among
    whatever frames before and after it, the future holds the payload of that
    first answer at the end, whatever later frames carry (other results for
    the same id included); the entry is out of the dict and nothing in the
    dict refers to the future any more. *)
Theorem first_answer_wins
    (rid : string) (fut : nat) (pre post : list frame) (f : frame) (event : BaseEvent)
    (p : ToolResultPayload) (c : OblivionClient) :
  held rid fut FPending c →
  Forall (λ f', answers rid f' = false) pre →
  f_event f = EventType_value TOOL_RESULT →
  BaseEvent_model_validate (f_data f) = Some event →
  ToolResultPayload_model_validate (payload event) = Some p →
  request_id p = rid →
  let c1 := state_of (deliver_all (pre ++ f :: post) c) in
  futures c1 !! fut = Some (FResult p)
  ∧ _pending_tools c1 !! rid = None
  ∧ ∀ k v, _pending_tools c1 !! k = Some v → v ≠ fut.
Proof.
  intros Hh Hpre Ev He Hp Hr c1.
  pose proof (deliver_all_keeps_held rid fut FPending pre c Hpre Hh) as Hh2.
  set (c2 := state_of (deliver_all pre c)) in *.
  destruct (deliver_answer rid fut f event p c2 Ev He Hp Hr Hh2) as (Es & Hrel & Hnone).
  pose proof (deliver_all_keeps_released fut (FResult p) post _ Hrel) as Hrel4.
  pose proof (deliver_all_shrinks post (resolved fut p c2)) as Hs4.
  assert (Ec : c1 = state_of (deliver_all post (resolved fut p c2))).
  { unfold c1. rewrite deliver_all_app. unfold state_of at 1. cbn [fst snd].
    fold c2. rewrite deliver_all_cons. unfold state_of at 1. cbn [fst snd].
    rewrite Es. reflexivity. }
  rewrite Ec. destruct Hrel4 as [Hf4 Hu4].
  split; [exact Hf4|]. split; [|exact Hu4].
  eapply lookup_weaken_None; [exact Hnone|exact Hs4].
Qed.

(** X18. A [tool_result] handled a second time is ignored by the registry
    and does not raise on its account: after a first handling of a valid
    frame, handling the same frame again leaves the client as it is and
    resolves nothing; the run is the log record and the loop over the
    registered handlers, which do see the duplicate. *)
Theorem duplicate_tool_result_is_ignored
    (f : frame) (event : BaseEvent) (p : ToolResultPayload) (c : OblivionClient) :
  f_event f = EventType_value TOOL_RESULT →
  BaseEvent_model_validate (f_data f) = Some event →
  ToolResultPayload_model_validate (payload event) = Some p →
  let c1 := state_of (deliver f c) in
  _pending_tools c1 !! request_id p = None
  ∧ sio_handler f c1
    = (outcome_of (observers p c1), c1, tool_result_log p :: effects_of (observers p c1))
  ∧ state_of (deliver f c1) = c1
  ∧ filter (λ x, is_SetResult x = true) (effects_of (deliver f c1)) = [].
Proof.
  intros Ev He Hp c1.
  assert (Hn : _pending_tools c1 !! request_id p = None).
  { unfold c1, deliver. rewrite isolated_state, (sio_handler_of_kind f TOOL_RESULT Ev).
    rewrite (sio_on_tool_result_valid (f_data f) event p c He Hp).
    destruct (_pending_tools c !! request_id p) as [fut|] eqn:Hl; [|exact Hl].
    destruct (futures c !! fut) as [[| |]|]; unfold state_of, resolved; simpl;
      apply lookup_delete_eq. }
  assert (Eh : sio_handler f c1
    = (outcome_of (observers p c1), c1, tool_result_log p :: effects_of (observers p c1))).
  { rewrite (sio_handler_of_kind f TOOL_RESULT Ev).
    rewrite (sio_on_tool_result_valid (f_data f) event p c1 He Hp), Hn. reflexivity. }
  split; [exact Hn|]. split; [exact Eh|].
  pose proof (for_each_handler_no_SetResult TOOL_RESULT ArgToolResult
                "Tool result handler error" 0 (_tool_result_handlers c1) p c1) as Hno.
  fold (observers p c1) in Hno.
  split.
  - unfold deliver. rewrite isolated_state, Eh. reflexivity.
  - apply (filter_none is_SetResult). unfold deliver, isolated. rewrite Eh.
    destruct (outcome_of (observers p c1)) as [[]|e]; unfold effects_of; cbn [snd];
      [constructor; [reflexivity|exact Hno]|].
    apply Forall_app. split; [constructor; [reflexivity|exact Hno]|repeat constructor].
Qed.

(** X19. Requests that are outstanding together are resolved one by one.
    With two requests held under different ids, handling the answer to one
    resolves that one (its caller gets the payload, its entry is popped) and
    leaves the other exactly as it was: still in the dict, its future still
    pending, its caller still waiting. *)
Theorem answer_resolves_only_its_request
    (rid1 rid2 : string) (fut1 fut2 : nat) (f : frame) (event : BaseEvent)
    (p : ToolResultPayload) (c : OblivionClient) :
  held rid1 fut1 FPending c →
  held rid2 fut2 FPending c →
  rid1 ≠ rid2 →
  f_event f = EventType_value TOOL_RESULT →
  BaseEvent_model_validate (f_data f) = Some event →
  ToolResultPayload_model_validate (payload event) = Some p →
  request_id p = rid2 →
  let c1 := state_of (deliver f c) in
  outcome_of (request_tool_resume rid2 fut2 c1) = Return (Some p)
  ∧ _pending_tools c1 !! rid2 = None
  ∧ held rid1 fut1 FPending c1
  ∧ outcome_of (request_tool_resume rid1 fut1 c1) = Return None.
Proof.
  intros Hh1 Hh2 Hne Ev He Hp Hr c1.
  destruct (deliver_answer rid2 fut2 f event p c Ev He Hp Hr Hh2) as (Es & [Hf _] & Hnone).
  assert (Hna : answers rid1 f = false).
  { unfold answers. rewrite He, Hp, Hr, Ev, String.eqb_refl. simpl.
    apply String.eqb_neq. congruence. }
  pose proof (deliver_keeps_held rid1 fut1 FPending f c Hna Hh1) as Hk. fold c1 in Hk.
  unfold c1 in *. rewrite Es in *.
  split; [unfold request_tool_resume; run; rewrite Hf; reflexivity|].
  split; [exact Hnone|]. split; [exact Hk|].
  destruct Hk as (_ & Hk2 & _). unfold request_tool_resume. run. rewrite Hk2. reflexivity.
Qed.

End Results.

(** Registering another request leaves a held request held. *)
Lemma registered_request_keeps_held (rid rid' : string) (fut : nat) (st : Future)
    (c : OblivionClient) :
  rid' ≠ rid →
  held rid fut st c →
  held rid fut st (registered_request rid' c).
Proof.
  intros Hne (H1 & H2 & H3). unfold held, registered_request. simpl.
  split; [rewrite lookup_insert_ne by exact Hne; exact H1|].
  split; [rewrite lookup_app_l by (eapply lookup_lt_Some; exact H2); exact H2|].
  intros k v Hk ->. destruct (decide (rid' = k)) as [<-|Hk'].
  - rewrite lookup_insert_eq in Hk. injection Hk as Hk.
    apply lookup_lt_Some in H2. lia.
  - rewrite lookup_insert_ne in Hk by exact Hk'. eapply H3; [exact Hk|reflexivity].
Qed.

Lemma observed_registry_wf : registry_wf Calls.observed.
Proof.
  intros rid fut Hl.
  change (_pending_tools Calls.observed) with (∅ : gmap string nat) in Hl.
  rewrite lookup_empty in Hl. discriminate Hl.
Defined.

Lemma first_answer_wins_witness :
  held "r1" 0 FPending Pair.first_sent
  ∧ futures (state_of (deliver_all (PV := Strict.strict)
                         ([heartbeat_frame "2025-01-01T00:00:03" JNull]
                            ++ Calls.answer :: [Pair.answer1_late])
                         Pair.first_sent)) !! 0
    = Some (FResult Calls.answer_payload).
Proof.
  assert (Hh : held "r1" 0 FPending Pair.first_sent)
    by exact (registered_request_held "r1" Calls.observed observed_registry_wf).
  split; [exact Hh|].
  refine (proj1 (first_answer_wins (PV := Strict.strict) "r1" 0
                   [heartbeat_frame "2025-01-01T00:00:03" JNull] [Pair.answer1_late]
                   Calls.answer
                   {| type := TOOL_RESULT; payload := Sample.tool_result_r1;
                      timestamp := "2025-01-01T00:00:00Z" |}
                   Calls.answer_payload Pair.first_sent
                   Hh _ eq_refl eq_refl eq_refl eq_refl)).
  repeat constructor.
Defined.

Lemma duplicate_tool_result_is_ignored_witness :
  let c1 := state_of (deliver (PV := Strict.strict) Calls.answer Pair.first_sent) in
  futures c1 = [FResult Calls.answer_payload]
  ∧ state_of (deliver (PV := Strict.strict) Calls.answer c1) = c1.
Proof.
  intros c1. split; [reflexivity|].
  exact (proj1 (proj2 (proj2
    (duplicate_tool_result_is_ignored (PV := Strict.strict) Calls.answer
       {| type := TOOL_RESULT; payload := Sample.tool_result_r1;
          timestamp := "2025-01-01T00:00:00Z" |}
       Calls.answer_payload Pair.first_sent eq_refl eq_refl eq_refl)))).
Defined.

Lemma answer_resolves_only_its_request_witness :
  held "r1" 0 FPending Pair.both_sent
  ∧ held "r2" 1 FPending Pair.both_sent
  ∧ outcome_of (request_tool_resume "r1" 0
                  (state_of (deliver (PV := Strict.strict) Pair.answer2 Pair.both_sent)))
    = Return None.
Proof.
  assert (H1 : held "r1" 0 FPending Pair.first_sent)
    by exact (registered_request_held "r1" Calls.observed observed_registry_wf).
  assert (Hw : registry_wf Pair.first_sent)
    by exact (registry_wf_request_tool_send "2025-01-01T00:00:02" "r1" "search" "query" []
                Calls.observed observed_registry_wf).
  assert (H2 : held "r2" 1 FPending Pair.both_sent)
    by exact (registered_request_held "r2" Pair.first_sent Hw).
  assert (H1' : held "r1" 0 FPending Pair.both_sent).
  { apply registered_request_keeps_held; [discriminate|exact H1]. }
  split; [exact H1'|]. split; [exact H2|].
  refine (proj2 (proj2 (proj2
    (answer_resolves_only_its_request (PV := Strict.strict) "r1" "r2" 0 1 Pair.answer2
       {| type := TOOL_RESULT;
          payload := [("requestId", JStr "r2"); ("success", JBool true)];
          timestamp := "2025-01-01T00:00:00Z" |}
       Pair.answer2_payload Pair.both_sent H1' H2 _ eq_refl eq_refl eq_refl eq_refl)))).
  discriminate.
Defined.

(** ** What no operation does *)

Lemma grown_refl (c : OblivionClient) : grown c c.
Proof. split; [reflexivity|]. repeat split; reflexivity. Qed.

Lemma grown_trans (c1 c2 c3 : OblivionClient) : grown c1 c2 → grown c2 c3 → grown c1 c3.
Proof.
  intros [E1 (A1 & B1 & C1 & D1)] [E2 (A2 & B2 & C2 & D2)].
  split; [congruence|]. repeat split; etrans; eassumption.
Qed.

Lemma orderly_ret {A} (a : A) : orderly (ret a).
Proof. intros c. split; [apply grown_refl|constructor]. Qed.

Lemma orderly_raise {A} (e : exn) : orderly (raise (A := A) e).
Proof. intros c. split; [apply grown_refl|constructor]. Qed.

Lemma orderly_get {A} (f : OblivionClient → A) : orderly (get f).
Proof. intros c. split; [apply grown_refl|constructor]. Qed.

Lemma orderly_assign (f : OblivionClient → OblivionClient) :
  (∀ c, grown c (f c)) → orderly (assign f).
Proof. intros Hf c. split; [apply Hf|constructor]. Qed.

Lemma orderly_act (e : effect) : envelope_sent e → orderly (act e).
Proof. intros He c. split; [apply grown_refl|]. repeat constructor. exact He. Qed.

Lemma orderly_log (level : log_level) (msg : string) (fields : list (string * log_value)) :
  orderly (log level msg fields).
Proof. apply orderly_act. exact I. Qed.

Lemma orderly_validated {A} (model : string) (verdict : option A) :
  orderly (validated model verdict).
Proof. destruct verdict; [apply orderly_ret|apply orderly_raise]. Qed.

Lemma orderly_bind {A B} (m : M A) (k : A → M B) :
  orderly m → (∀ a, orderly (k a)) → orderly (bind m k).
Proof.
  intros Hm Hk c. rewrite bind_run. destruct (Hm c) as [G1 F1].
  destruct (outcome_of (m c)) as [a|e]; [|split; assumption].
  cbv zeta. destruct (Hk a (state_of (m c))) as [G2 F2].
  unfold state_of at 1, effects_of at 1. cbn [fst snd].
  split; [eapply grown_trans; eassumption|apply Forall_app; split; assumption].
Qed.

Lemma orderly_try_except {A} (m : M A) (catches : exn → bool) (h : exn → M A) :
  orderly m → (∀ e, orderly (h e)) → orderly (try_except m catches h).
Proof.
  intros Hm Hh c. unfold try_except. destruct (Hm c) as [G1 F1].
  destruct (m c) as [[[a|e] c1] t1]; [split; assumption|].
  destruct (catches e); [|split; assumption].
  destruct (Hh e c1) as [G2 F2]. destruct (h e c1) as [[o c2] t2].
  unfold state_of, effects_of in *. cbn [fst snd] in *.
  split; [eapply grown_trans; eassumption|apply Forall_app; split; assumption].
Qed.

Lemma orderly_isolated (m : M unit) : orderly m → orderly (isolated m).
Proof.
  intros Hm c. unfold isolated. destruct (Hm c) as [G1 F1].
  destruct (m c) as [[[[]|e] c1] t1]; [split; assumption|].
  unfold state_of, effects_of in *. cbn [fst snd] in *.
  split; [exact G1|]. apply Forall_app. split; [exact F1|]. repeat constructor.
Qed.

(** The dump of an envelope made by [BaseEvent.create]. *)
Lemma dump_is_envelope (utcnow : string) (kind : EventType) (fields : list (string * json)) :
  kind ∈ sent_events →
  envelope_sent (Emitted (EventType_value kind)
                   (BaseEvent_model_dump (BaseEvent_create utcnow kind fields))).
Proof. intros Hk. exists kind, fields, utcnow. repeat split. exact Hk. Qed.

Ltac grown_set := intros ?; split; [reflexivity|]; repeat split; reflexivity.

Ltac orderly :=
  unfold mbind, M_bind, mret, M_ret, sio_emit;
  repeat first
    [ apply orderly_ret | apply orderly_raise | apply orderly_get | apply orderly_log
    | apply orderly_validated
    | apply orderly_act; first [exact I | apply dump_is_envelope; unfold sent_events; set_solver]
    | apply orderly_assign; grown_set
    | apply orderly_bind; [|intros ?]
    | apply orderly_try_except; [|intros ?]
    | apply orderly_isolated
    | match goal with
      | |- orderly (match ?x with _ => _ end) => destruct x
      | |- orderly (if ?b then _ else _) => destruct b
      end ].

Lemma orderly_for_each_handler {P} (kind : EventType) (arg : P → handler_arg)
    (errmsg : string) (index : nat) (hs : list (handler P)) (p : P) :
  orderly (for_each_handler kind arg errmsg index hs p).
Proof.
  revert index. induction hs as [|h rest IH]; intros index; cbn [for_each_handler].
  - apply orderly_ret.
  - unfold await_handler. orderly. apply IH.
Qed.

Section Orderly.

Context `{PV : Pydantic}.

Lemma orderly_send_agent_ready (utcnow : string) : orderly (_send_agent_ready utcnow).
Proof. unfold _send_agent_ready. orderly. Qed.

Lemma orderly_sio_handler (f : frame) : orderly (sio_handler f).
Proof.
  unfold sio_handler. orderly; apply orderly_for_each_handler.
Qed.

Lemma orderly_deliver (f : frame) : orderly (deliver f).
Proof. apply orderly_isolated, orderly_sio_handler. Qed.

Lemma orderly_deliver_all (fs : list frame) : orderly (deliver_all fs).
Proof.
  induction fs as [|f rest IH]; cbn [deliver_all]; [apply orderly_ret|].
  orderly; first [apply orderly_sio_handler|exact IH].
Qed.

Lemma orderly_connect (answer : http_result) (handshake_ok : bool) :
  orderly (connect answer handshake_ok).
Proof. unfold connect, _authenticate, access_token. orderly. Qed.

Lemma orderly_reconnect (script : list attempt) : orderly (_reconnect script).
Proof.
  induction script as [|a rest IH]; intros c; cbn [_reconnect];
    destruct (_should_run c && negb (_connected c));
    try (split; [apply grown_refl|constructor]).
  revert c.
  change (orderly
            (λ c, (log LvInfo "Attempting reconnection" [("delay", LJson (reconnect_delay c))];;
                   act (Slept (reconnect_delay c));;
                   try_except (connect (at_answer a) (at_handshake_ok a)) is_Exception
                     (fun e => log LvError "Reconnection failed" [("error", LStrOf e)]);;
                   deliver_all (at_inbox a);;
                   _reconnect rest) c)).
  intros c. revert c.
  assert (H : ∀ d, orderly
            (log LvInfo "Attempting reconnection" [("delay", LJson d)];;
             act (Slept d);;
             try_except (connect (at_answer a) (at_handshake_ok a)) is_Exception
               (fun e => log LvError "Reconnection failed" [("error", LStrOf e)]);;
             deliver_all (at_inbox a);;
             _reconnect rest)).
  { intros d. unfold mbind, M_bind.
    apply orderly_bind; [apply orderly_log|intros _].
    apply orderly_bind; [apply orderly_act; exact I|intros _].
    apply orderly_bind;
      [apply orderly_try_except; [apply orderly_connect|intros e; apply orderly_log]|intros _].
    apply orderly_bind; [apply orderly_deliver_all|intros _; exact IH]. }
  intros c. apply (H (reconnect_delay c)).
Qed.

Lemma orderly_sio_on_disconnect (script : list attempt) : orderly (sio_on_disconnect script).
Proof. unfold sio_on_disconnect. orderly. apply orderly_reconnect. Qed.

(** Every operation of the client is orderly. *)
Lemma step_orderly (A : Type) (m : M A) : step A m → orderly m.
Proof.
  intros Hm. destruct Hm.
  - apply orderly_connect.
  - unfold disconnect. orderly. apply orderly_reconnect.
  - unfold transport_lost. orderly. apply orderly_reconnect.
  - apply orderly_deliver.
  - intros c. split; [|constructor]. split; [reflexivity|].
    repeat split; try reflexivity. exists [h]. reflexivity.
  - intros c. split; [|constructor]. split; [reflexivity|].
    repeat split; try reflexivity. exists [h]. reflexivity.
  - intros c. split; [|constructor]. split; [reflexivity|].
    repeat split; try reflexivity. exists [h]. reflexivity.
  - intros c. split; [|constructor]. split; [reflexivity|].
    repeat split; try reflexivity. exists [h]. reflexivity.
  - unfold update_status, to_AgentStatus. orderly.
  - unfold send_heartbeat. orderly.
  - unfold request_tool_send, create_future. orderly.
  - unfold wait_for_expire. orderly.
  - unfold request_tool_resume. orderly.
Qed.

(** X20. No operation of the client changes what the constructor was given,
    and none removes or reorders a registered handler: over any sequence of
    operations ([connect], [disconnect], a lost transport with its reconnect
    attempts, inbound frames, registrations, [update_status],
    [send_heartbeat], the parts of [request_tool]), the server URL, the
    credentials, the capabilities, the version and the reconnect settings
    are at the end what they were at the start, and each of the four handler
    lists at the end begins with the list at the start. *)
Theorem configuration_and_handlers_are_kept
    (c c' : OblivionClient) (t : list effect) :
  runs c t c' →
  configuration c' = configuration c
  ∧ _task_handlers c `prefix_of` _task_handlers c'
  ∧ _context_handlers c `prefix_of` _context_handlers c'
  ∧ _wakeup_handlers c `prefix_of` _wakeup_handlers c'
  ∧ _tool_result_handlers c `prefix_of` _tool_result_handlers c'.
Proof.
  intros Hr. change (grown c c').
  induction Hr as [c|A m c t c' Hm Hr IH]; [apply grown_refl|].
  eapply grown_trans; [|exact IH]. apply (step_orderly A m Hm c).
Qed.

(** X21. Every frame the client hands to the transport, in any sequence of
    operations, is an envelope with the keys [type], [payload], [timestamp]:
    the [type] is the Socket.IO event name, the name is one of
    [agent_ready], [tool_request], [status_update], [heartbeat] (never one
    of the server's events), the payload is a dict and the timestamp ends
    with ["Z"]. *)
Theorem every_sent_frame_is_an_envelope
    (c c' : OblivionClient) (t : list effect) :
  runs c t c' → Forall envelope_sent t.
Proof.
  intros Hr. induction Hr as [c|A m c t c' Hm Hr IH]; [constructor|].
  apply Forall_app. split; [|exact IH]. apply (step_orderly A m Hm c).
Qed.

End Orderly.

Lemma life_runs : runs (PV := Strict.strict) Sample.online Life.trace Life.working.
Proof.
  unfold Life.trace.
  apply (runs_cons unit (on_task_assigned Sample.quiet) Sample.online _ Life.working
           (step_on_task_assigned _)).
  apply (runs_cons unit (deliver (heartbeat_frame "2025-01-01T00:00:03" JNull))
           Life.registered _ Life.working (step_deliver _)).
  apply (runs_cons unit
           (update_status "2025-01-01T00:00:04" (inr "working") (Some "t1") None)
           Life.pinged _ Life.working (step_update_status _ _ _ _)).
  apply runs_nil.
Defined.

Lemma configuration_and_handlers_are_kept_witness :
  configuration Life.working = configuration Sample.online
  ∧ _task_handlers Sample.online `prefix_of` _task_handlers Life.working.
Proof.
  pose proof (configuration_and_handlers_are_kept (PV := Strict.strict)
                Sample.online Life.working Life.trace life_runs) as (H1 & H2 & _).
  exact (conj H1 H2).
Defined.

Lemma every_sent_frame_is_an_envelope_witness :
  filter (λ e, is_Emitted e = true) Life.trace
  = [heartbeat_reply "2025-01-01T00:00:03";
     status_update_frame "2025-01-01T00:00:04" WORKING (Some "t1") None]
  ∧ Forall envelope_sent Life.trace.
Proof.
  split; [reflexivity|].
  exact (every_sent_frame_is_an_envelope (PV := Strict.strict)
           Sample.online Life.working Life.trace life_runs).
Defined.
